(** * Scoring layer of the company scraper: attractiveness score, MSP
    classifier, thesis matcher and multi-year trend calculator.

    Shallow embedding of
      - [calculateInvestmentScore], [matchesThesisCriteria] and
        [analyzeMSPLikelihood] (schemas/CompanySchema.ts),
      - [calculateYearsActive] (utils/dateHelpers.ts),
      - [getDistanceFromLondon], [calculateLocationScore] (utils/geocoding.ts),
      - [calculateTrends] (the financial extraction service).

    Conventions of the model.
      - A JavaScript number is a rational [Q]: the finite doubles with exact
        arithmetic.  [NaN] appears only where the code can create one out of
        finite operands, which is [Math.pow] on a negative base.
      - An optional field ([z.number().optional()]) is an [option]; a nullish
        field ([z.number().nullish()]) is a [Nullish], because the code tells
        [null] from [undefined].
      - Strings are byte strings; [toLowerCase] folds the ASCII letters.
      - A date string is held as the epoch milliseconds [new Date(s).getTime()]
        gives for it; [Date.now()] is the explicit argument [now].
      - The network lookup behind [getDistanceFromLondon] is the argument
        [geocode].
      - Arrays of yearly records live in a heap, and a company is an object
        in a store where a property is about what a computation leaves of
        the object its caller holds ([FinancialExtraction.Heap],
        [Objects.Store]). *)

From Stdlib Require Import QArith Qround Qminmax ZArith List String Ascii Bool Lia Lqa.
From Stdlib Require Import Permutation Sorted.
Import ListNotations.

Set Implicit Arguments.

(* ------------------------------------------------------------------ *)
(** ** JavaScript primitives used by the scoring layer *)

Module JS.

Local Open Scope Q_scope.

(** [x < y], [x <= y], [x === y] on numbers. *)
Definition lt (x y : Q) : bool := negb (Qle_bool y x).
Definition le (x y : Q) : bool := Qle_bool x y.
Definition gt (x y : Q) : bool := lt y x.
Definition ge (x y : Q) : bool := le y x.
Definition eq (x y : Q) : bool := Qeq_bool x y.

Definition Math_min (a b : Q) : Q := if le a b then a else b.
Definition Math_max (a b : Q) : Q := if le a b then b else a.

(** [Math.round]: nearest integer, halves towards plus infinity. *)
Definition Math_round (x : Q) : Q := inject_Z (Qfloor (x + (1 # 2))).

(** Truthiness of an optional number: [undefined] and [0] are falsy. *)
Definition truthy (x : option Q) : bool :=
  match x with
  | Some q => negb (eq q 0)
  | None => false
  end.

(** [a || b] on optional numbers. *)
Definition or (a b : option Q) : option Q := if truthy a then a else b.

(** The number read from an optional field on a path guarded by [truthy];
    [x || 0] on the other paths. *)
Definition num (x : option Q) : Q :=
  match x with
  | Some q => q
  | None => 0
  end.

(** A field that validates as [nullish()]. *)
Inductive Nullish (A : Type) : Type :=
| Undefined
| Null
| Value (a : A).
Arguments Undefined {A}.
Arguments Null {A}.

Definition truthyN (x : Nullish Q) : bool :=
  match x with
  | Value q => negb (eq q 0)
  | _ => false
  end.

(** [null] converts to [+0] in arithmetic. *)
Definition numN (x : Nullish Q) : Q :=
  match x with
  | Value q => q
  | _ => 0
  end.

(** A number that may be [NaN]. *)
Inductive Number : Type :=
| Finite (q : Q)
| NaN.

Definition is_integer (q : Q) : bool := eq (inject_Z (Qfloor q)) q.

(** [Math.pow] for a nonzero base.  Number::exponentiate returns [NaN] for
    a negative finite base with a non-integral exponent; elsewhere the
    value is the real power, left to [real_pow] since it is irrational
    in general. *)
Definition Math_pow (real_pow : Q -> Q -> Q) (base exponent : Q) : Number :=
  if lt base 0 && negb (is_integer exponent) then NaN
  else Finite (real_pow base exponent).

(** [(p - a) * b] when [p] may be [NaN]. *)
Definition map_number (f : Q -> Q) (n : Number) : Number :=
  match n with
  | Finite q => Finite (f q)
  | NaN => NaN
  end.

Local Open Scope string_scope.

Definition lower_ascii (c : ascii) : ascii :=
  let n := nat_of_ascii c in
  if ((65 <=? n) && (n <=? 90))%nat then ascii_of_nat (n + 32) else c.

Fixpoint toLowerCase (s : string) : string :=
  match s with
  | EmptyString => EmptyString
  | String c r => String (lower_ascii c) (toLowerCase r)
  end.

(** [s.includes(k)] *)
Fixpoint includes (s k : string) : bool :=
  String.prefix k s
  || match s with
     | EmptyString => false
     | String _ r => includes r k
     end.

(** [s.startsWith(k)] *)
Definition startsWith (s k : string) : bool := String.prefix k s.

(** [l.join(sep)] *)
Definition join (l : list string) (sep : string) : string := String.concat sep l.

(** [s.split(' ')[0]] *)
Fixpoint split_space_first (s : string) : string :=
  match s with
  | EmptyString => EmptyString
  | String c r => if Ascii.eqb c " " then EmptyString else String c (split_space_first r)
  end.

Definition is_space (c : ascii) : bool :=
  let n := nat_of_ascii c in
  ((9 <=? n) && (n <=? 13) || (n =? 32))%nat.

Fixpoint dropWhile (p : ascii -> bool) (l : list ascii) : list ascii :=
  match l with
  | [] => []
  | c :: r => if p c then dropWhile p r else l
  end.

(** [s.trim()] *)
Definition trim (s : string) : string :=
  string_of_list_ascii
    (rev (dropWhile is_space (rev (dropWhile is_space (list_ascii_of_string s))))).

(** Truthiness of a string: the empty string is falsy. *)
Definition truthyS (s : string) : bool := negb (String.eqb s "").

Definition truthyOS (s : option string) : bool :=
  match s with
  | Some s => truthyS s
  | None => false
  end.

Definition str (s : option string) : string :=
  match s with
  | Some s => s
  | None => ""
  end.

(** [l || []] on an optional array. *)
Definition arr (A : Type) (l : option (list A)) : list A :=
  match l with
  | Some l => l
  | None => []
  end.

(** Truthiness of an optional object: any object is truthy. *)
Definition truthyO (A : Type) (o : option A) : bool :=
  match o with
  | Some _ => true
  | None => false
  end.

(** [l.push(x)], as the new content of [l]. *)
Definition push (A : Type) (l : list A) (x : A) : list A := (l ++ [x])%list.

(** [l.slice(0, n)] *)
Definition slice0 (A : Type) (n : nat) (l : list A) : list A := firstn n l.

End JS.

(* ------------------------------------------------------------------ *)
(** ** config/constants.ts *)

Definition TARGET_SIC_CODES : list string := ["62020"; "62090"]%string.
Definition MILLISECONDS_PER_YEAR : Z := 1000 * 60 * 60 * 24 * 365.
Definition MIN_EBITDA : Q := 500000.
Definition MAX_EBITDA : Q := 1000000.
Definition MIN_REVENUE : Q := 3000000.
Definition MAX_REVENUE : Q := 6000000.
Definition MIN_EMPLOYEES : Q := 15.
Definition MAX_EMPLOYEES : Q := 40.

(* ------------------------------------------------------------------ *)
(** ** The company record (the fields the scoring layer reads) *)

Record Address : Type := {
  address_line_1 : option string;
  address_line_2 : option string;
  locality : option string;
  postal_code : option string;
  region : option string;
  country : option string
}.

Record Financials : Type := {
  revenue : option Q;
  profit : option Q;
  ebitda : option Q;
  employees : option Q
}.

Record Enrichment : Type := {
  headcount : option Q;
  tech_stack : option (list string);
  business_keywords : option (list string);
  services : option (list string);
  business_description : option string
}.

Record InvestmentScore : Type := {
  location_distance_km : option Q
}.

Record Company : Type := {
  company_name : string;
  company_status : option string;
  date_of_incorporation : Z;
  registered_address : option string;
  registered_address_structured : option Address;
  sic_codes : list string;
  has_been_liquidated : option bool;
  has_insolvency_history : option bool;
  financials : Financials;
  enrichment : Enrichment;
  investment_score : option InvestmentScore
}.

(* ------------------------------------------------------------------ *)
(** ** utils/dateHelpers.ts *)

Definition calculateYearsActive (now : Z) (incorporationDate : Z) : Q :=
  let diff := (now - incorporationDate)%Z in
  inject_Z diff / inject_Z MILLISECONDS_PER_YEAR.

(* ------------------------------------------------------------------ *)
(** ** utils/geocoding.ts *)

(** The prefix of [getDistanceFromLondon] that runs before the request;
    [geocode] stands for the request together with the distance computed
    from its answer, [None] being [null]. *)
Definition getDistanceFromLondon (geocode : string -> option Q)
    (address : option string) (structuredAddress : option Address) : option Q :=
  if negb (JS.truthyOS address) && negb (JS.truthyO structuredAddress)
  then None
  else
    let addressString :=
      match structuredAddress with
      | Some a =>
          if negb (JS.truthyOS address)
          then
            JS.join
              (map JS.str
                 (filter JS.truthyOS
                    [address_line_1 a; address_line_2 a; locality a;
                     postal_code a; region a; country a]))
              ", "
          else JS.str address
      | None => JS.str address
      end in
    if negb (JS.truthyS (JS.trim addressString)) then None
    else geocode (addressString ++ ", UK")%string.

Definition calculateLocationScore (distanceKm : option Q) : Q :=
  match distanceKm with
  | None => 0
  | Some d =>
      if JS.le d 25 then 25
      else if JS.le d 50 then 20
      else if JS.le d 100 then 15
      else if JS.le d 150 then 10
      else if JS.le d 200 then 5
      else 0
  end.

(* ------------------------------------------------------------------ *)
(** ** schemas/CompanySchema.ts: calculateInvestmentScore *)

Record Factor : Type := {
  factor : string;
  value : Q;
  weight : Q
}.

Record ScoreResult : Type := {
  score : Q;
  factors : list Factor
}.

(** The three locals the size block assigns. *)
Record SizeState : Type := {
  sizeScore : Q;
  sizeValue : Q;
  sizeType : string
}.

Definition microsoftKeywords : list string :=
  ["microsoft"; "azure"; "office365"; "m365"; "sharepoint"; "teams"; "power"; "dynamics"]%string.

(** [tech => microsoftKeywords.some(keyword => tech.toLowerCase().includes(keyword))] *)
Definition isMicrosoftTech (tech : string) : bool :=
  existsb (fun keyword => JS.includes (JS.toLowerCase tech) keyword) microsoftKeywords.

(** [Math.min(25, yearsActive * 8.33)] *)
Definition ageScore (yearsActive : Q) : Q := JS.Math_min 25 (yearsActive * (833 # 100)).

Section Scorer.

Variable now : Z.
Variable geocode : string -> option Q.
Variable company : Company.

Local Open Scope Q_scope.

Definition ageFactor : Q * Q :=
  let yearsActive := calculateYearsActive now (date_of_incorporation company) in
  (yearsActive, ageScore yearsActive).

(** Partial credit of one dimension, as the three blocks of the last
    branch compute it; the state is left alone when the value is neither
    below the minimum nor above the maximum. *)
Definition partialCredit (tag : string) (v lo hi : Q) (st : SizeState) : SizeState :=
  if JS.lt v lo then
    {| sizeScore := JS.Math_max 0 ((v / lo) * 15); sizeValue := v; sizeType := tag |}
  else if JS.gt v hi then
    {| sizeScore := JS.Math_max 0 (15 - ((v - hi) / hi) * 15); sizeValue := v; sizeType := tag |}
  else st.

Definition sizeFactor : SizeState :=
  let st0 := {| sizeScore := 0; sizeValue := 0; sizeType := "none" |} in
  let fin := financials company in
  let headcount := JS.or (employees fin) (headcount (enrichment company)) in
  if JS.truthy headcount && JS.ge (JS.num headcount) MIN_EMPLOYEES
     && JS.le (JS.num headcount) MAX_EMPLOYEES
  then {| sizeScore := 25; sizeValue := JS.num headcount; sizeType := "employees" |}
  else if JS.truthy (revenue fin) && JS.ge (JS.num (revenue fin)) MIN_REVENUE
          && JS.le (JS.num (revenue fin)) MAX_REVENUE
  then {| sizeScore := 25; sizeValue := JS.num (revenue fin); sizeType := "revenue" |}
  else if JS.truthy (ebitda fin) && JS.ge (JS.num (ebitda fin)) MIN_EBITDA
          && JS.le (JS.num (ebitda fin)) MAX_EBITDA
  then {| sizeScore := 25; sizeValue := JS.num (ebitda fin); sizeType := "ebitda" |}
  else
    let st1 :=
      if JS.truthy headcount
      then partialCredit "employees" (JS.num headcount) MIN_EMPLOYEES MAX_EMPLOYEES st0
      else st0 in
    let st2 :=
      if JS.eq (sizeScore st1) 0 && JS.truthy (revenue fin)
      then partialCredit "revenue" (JS.num (revenue fin)) MIN_REVENUE MAX_REVENUE st1
      else st1 in
    let st3 :=
      if JS.eq (sizeScore st2) 0 && JS.truthy (ebitda fin)
      then partialCredit "ebitda" (JS.num (ebitda fin)) MIN_EBITDA MAX_EBITDA st2
      else st2 in
    st3.

Definition sizeLabel (sizeType : string) : string :=
  if String.eqb sizeType "employees" then "Size (employees)"
  else if String.eqb sizeType "revenue" then "Size (revenue)"
  else if String.eqb sizeType "ebitda" then "Size (EBITDA)"
  else "Size".

Definition microsoftFactor : Q * Q :=
  match tech_stack (enrichment company) with
  | Some ts =>
      if (0 <? List.length ts)%nat then
        let microsoftCount := inject_Z (Z.of_nat (List.length (filter isMicrosoftTech ts))) in
        if JS.gt microsoftCount 0
        then (microsoftCount, JS.Math_min 25 (microsoftCount * (833 # 100)))
        else (microsoftCount, 0)
      else (0, 0)
  | None => (0, 0)
  end.

Definition locationDistance : option Q :=
  match investment_score company with
  | Some s =>
      match location_distance_km s with
      | Some d => Some d
      | None =>
          getDistanceFromLondon geocode (registered_address company)
            (registered_address_structured company)
      end
  | None =>
      getDistanceFromLondon geocode (registered_address company)
        (registered_address_structured company)
  end.

Definition calculateInvestmentScore : ScoreResult :=
  let factors := [] in
  let score := 0 in
  (* Factor 1: company age *)
  let '(yearsActive, ageScore) := ageFactor in
  let factors :=
    JS.push factors {| factor := "Company Age (years)"; value := yearsActive;
                       weight := ageScore |} in
  let score := score + ageScore in
  (* Factor 2: size *)
  let st := sizeFactor in
  let factors :=
    JS.push factors {| factor := sizeLabel (sizeType st); value := sizeValue st;
                       weight := sizeScore st |} in
  let score := score + sizeScore st in
  (* Factor 3: Microsoft stack alignment *)
  let '(microsoftCount, microsoftScore) := microsoftFactor in
  let factors :=
    JS.push factors {| factor := "Microsoft Stack Alignment"; value := microsoftCount;
                       weight := microsoftScore |} in
  let score := score + microsoftScore in
  (* Factor 4: location *)
  let distance := locationDistance in
  let locationScore := calculateLocationScore distance in
  let factors :=
    JS.push factors {| factor := "Location (distance from London)";
                       value := match distance with
                                | Some d => JS.Math_round (d * 10) / 10
                                | None => 0
                                end;
                       weight := locationScore |} in
  let score := score + locationScore in
  {| score := JS.Math_round (score * 100) / 100; factors := factors |}.

End Scorer.

(* ------------------------------------------------------------------ *)
(** ** schemas/CompanySchema.ts: matchesThesisCriteria *)

(** A template literal, kept as its pieces: the rendering of a number
    ([toFixed], [toLocaleString], plain interpolation) is left to the
    platform. *)
Inductive Piece : Type :=
| Lit (s : string)
| ToFixed1 (q : Q)
| ToLocaleString (q : Q)
| Interpolated (q : Q).

Record Criterion : Type := {
  name : string;
  met : bool;
  details : list Piece
}.

Record ThesisMatch : Type := {
  matches : bool;
  criteria : list Criterion
}.

(** [!flag] on an optional boolean. *)
Definition notFlag (flag : option bool) : bool :=
  match flag with
  | Some b => negb b
  | None => true
  end.

(** The predicate given to [sicCodes.some] in criterion 4. *)
Definition isTargetSic (code : string) : bool :=
  let numericCode := JS.trim (JS.split_space_first code) in
  existsb (String.eqb numericCode) TARGET_SIC_CODES
  || JS.startsWith code "62020" || JS.startsWith code "62090".

Section Matcher.

Variable now : Z.
Variable company : Company.

Local Open Scope Q_scope.
Local Open Scope string_scope.

Definition thesisEbitda : Q :=
  JS.num (JS.or (JS.or (ebitda (financials company)) (profit (financials company))) (Some 0)).
Definition thesisRevenue : Q :=
  JS.num (JS.or (revenue (financials company)) (Some 0)).
Definition thesisEmployees : Q :=
  JS.num (JS.or (JS.or (employees (financials company)) (headcount (enrichment company)))
            (Some 0)).

Definition ebitdaInRange : bool :=
  JS.ge thesisEbitda MIN_EBITDA && JS.le thesisEbitda MAX_EBITDA.
Definition revenueInRange : bool :=
  JS.ge thesisRevenue MIN_REVENUE && JS.le thesisRevenue MAX_REVENUE.
Definition employeesInRange : bool :=
  JS.ge thesisEmployees MIN_EMPLOYEES && JS.le thesisEmployees MAX_EMPLOYEES.

Definition sizeProfileMet : bool := ebitdaInRange || revenueInRange || employeesInRange.

Definition hasAnyData : bool :=
  JS.gt thesisEbitda 0 || JS.gt thesisRevenue 0 || JS.gt thesisEmployees 0.

Definition sizeProfileMetOrNoData : bool := sizeProfileMet || negb hasAnyData.

Definition hasMicrosoftStack : bool :=
  match tech_stack (enrichment company) with
  | Some ts => existsb isMicrosoftTech ts
  | None => false
  end.

Definition ageMet : bool :=
  JS.ge (calculateYearsActive now (date_of_incorporation company)) 3.

Definition activeMet : bool :=
  match company_status company with
  | Some s => String.eqb s "active"
  | None => false
  end.

Definition noInsolvencyMet : bool :=
  notFlag (has_insolvency_history company) && notFlag (has_been_liquidated company).

Definition hasTargetSic : bool := existsb isTargetSic (sic_codes company).

Definition matchesThesisCriteria : ThesisMatch :=
  let criteria := [] in
  let matches := true in
  (* Criteria 1: company age *)
  let yearsActive := calculateYearsActive now (date_of_incorporation company) in
  let criteria :=
    JS.push criteria {| name := "Company Age (3+ years)"; met := ageMet;
                        details := [ToFixed1 yearsActive; Lit " years active"] |} in
  let matches := if negb ageMet then false else matches in
  (* Criteria 2: active status *)
  let criteria :=
    JS.push criteria {| name := "Active Status"; met := activeMet;
                        details := [Lit (if JS.truthyOS (company_status company)
                                         then JS.str (company_status company)
                                         else "unknown")] |} in
  let matches := if negb activeMet then false else matches in
  (* Criteria 3: no insolvency history *)
  let criteria :=
    JS.push criteria {| name := "No Insolvency History"; met := noInsolvencyMet;
                        details := [Lit (if noInsolvencyMet then "Clean"
                                         else "Has insolvency/liquidation history")] |} in
  let matches := if negb noInsolvencyMet then false else matches in
  (* Criteria 4: SIC code match *)
  let sicCodes := sic_codes company in
  let criteria :=
    JS.push criteria {| name := "SIC Code (" ++ JS.join TARGET_SIC_CODES "/" ++ ")";
                        met := hasTargetSic;
                        details := [Lit (if hasTargetSic then JS.join sicCodes ", "
                                         else "No matching SIC codes")] |} in
  let matches := if negb hasTargetSic then false else matches in
  (* Criteria 5: size profile *)
  let criteria :=
    JS.push criteria {| name := "EBITDA Range (£500k-£1m)";
                        met := ebitdaInRange || JS.eq thesisEbitda 0;
                        details := if JS.gt thesisEbitda 0
                                   then [Lit "£"; ToLocaleString thesisEbitda]
                                   else [Lit "No EBITDA data"] |} in
  let criteria :=
    JS.push criteria {| name := "Revenue Range (£3m-£6m)";
                        met := revenueInRange || JS.eq thesisRevenue 0;
                        details := if JS.gt thesisRevenue 0
                                   then [Lit "£"; ToLocaleString thesisRevenue]
                                   else [Lit "No revenue data"] |} in
  let criteria :=
    JS.push criteria {| name := "Employee Range (15-40)";
                        met := employeesInRange || JS.eq thesisEmployees 0;
                        details := if JS.gt thesisEmployees 0
                                   then [Interpolated thesisEmployees; Lit " employees"]
                                   else [Lit "No employee data"] |} in
  let criteria :=
    JS.push criteria {| name := "Size Profile (EBITDA OR Revenue OR Employees)";
                        met := sizeProfileMetOrNoData;
                        details :=
                          if hasAnyData then
                            if sizeProfileMet
                            then [Lit (JS.trim ("Meets criteria: "
                                                ++ (if ebitdaInRange then "EBITDA " else "")
                                                ++ (if revenueInRange then "Revenue " else "")
                                                ++ (if employeesInRange then "Employees" else "")))]
                            else [Lit "Outside range: EBITDA £"; ToLocaleString thesisEbitda;
                                  Lit ", Revenue £"; ToLocaleString thesisRevenue;
                                  Lit ", Employees "; Interpolated thesisEmployees]
                          else [Lit "No size profile data available"] |} in
  let matches := if negb sizeProfileMet && hasAnyData then false else matches in
  (* Criteria 6: Microsoft stack, preferred but not required *)
  let criteria :=
    JS.push criteria {| name := "Microsoft Stack (Preferred)"; met := hasMicrosoftStack;
                        details :=
                          if hasMicrosoftStack
                          then [Lit ("Microsoft technologies: "
                                     ++ JS.join (filter isMicrosoftTech
                                                   (JS.arr (tech_stack (enrichment company))))
                                          ", ")]
                          else [Lit "No Microsoft stack identified"] |} in
  {| matches := matches; criteria := criteria |}.

End Matcher.

(* ------------------------------------------------------------------ *)
(** ** schemas/CompanySchema.ts: analyzeMSPLikelihood *)

Inductive Confidence : Type := high | medium | low.

Record Indicator : Type := {
  category : string;
  found : bool;
  evidence : list string
}.

Record MSPAnalysis : Type := {
  msp_score : Q;
  confidence : Confidence;
  indicators : list Indicator
}.

Definition negativeKeywords : list string :=
  ["software development"; "application development"; "engineering services";
   "custom software"; "software engineering"; "digital transformation";
   "digital solutions"; "digital commerce"; "ui/ux"; "mobility engineering";
   "audio visual"; "av systems"; "stage solutions"; "smart building";
   "systems integrator"; "master systems integrator"; "generative ai";
   "gen ai"; "ai/ml"; "machine learning"]%string.

Definition mspKeywords : list string :=
  ["msp"; "managed service provider"; "managed services";
   "it support"; "it services"; "it consultancy"; "it consulting";
   "managed it"; "managed it services"; "managed it support";
   "outsourced it"; "it outsourcing"; "it managed services";
   "helpdesk"; "service desk"; "it help desk";
   "network support"; "infrastructure support"; "cloud services";
   "cybersecurity"; "cyber security"; "it security";
   "remote monitoring"; "remote management"; "rmm";
   "professional services automation"; "psa";
   "endpoint management"; "device management"]%string.

Definition mspServices : list string :=
  ["managed services"; "it support"; "helpdesk"; "service desk";
   "network management"; "server management"; "cloud management";
   "security monitoring"; "backup"; "disaster recovery";
   "remote support"; "on-site support"; "it consultancy";
   "it consulting"; "infrastructure management"; "endpoint management";
   "patch management"; "antivirus management"; "email security";
   "firewall management"; "vpn"; "remote access"]%string.

Definition itInfrastructureTech : list string :=
  ["microsoft 365"; "office 365"; "azure"; "active directory";
   "windows server"; "exchange"; "sharepoint"; "teams";
   "vmware"; "hyper-v"; "virtualization"; "citrix";
   "cisco"; "fortinet"; "sonicwall"; "palo alto";
   "connectwise"; "kaseya"; "n-able"; "datto";
   "veeam"; "acronis"; "backup"; "disaster recovery";
   "sophos"; "symantec"; "mcafee"; "crowdstrike";
   "sentinelone"; "bitdefender"; "eset"]%string.

(** The ten case-insensitive patterns; each is a finite alternation of
    literal phrases, listed here in lower case. *)
Definition mspDescriptionPatterns : list (list string) :=
  [ ["managed service"; "managed it service"];
    ["it support"];
    ["helpdesk"];
    ["service desk"];
    ["remote monitoring"; "remote management"; "remote support"];
    ["outsourced it"];
    ["it outsourcing"];
    ["network management"; "network support"];
    ["infrastructure management"; "infrastructure support"];
    ["cloud services"; "cloud management"] ]%string.

(** [pattern.test(description)] for a pattern with the [i] flag. *)
Definition patternTest (pattern : list string) (description : string) : bool :=
  existsb (JS.includes (JS.toLowerCase description)) pattern.

Definition len (A : Type) (l : list A) : Q := inject_Z (Z.of_nat (List.length l)).

Section Classifier.

Variable company : Company.

Local Open Scope Q_scope.
Local Open Scope string_scope.

Definition keywords : list string := JS.arr (business_keywords (enrichment company)).
Definition declaredServices : list string := JS.arr (services (enrichment company)).
Definition techStack : list string := JS.arr (tech_stack (enrichment company)).
Definition description : string :=
  if JS.truthyOS (business_description (enrichment company))
  then JS.str (business_description (enrichment company)) else "".

Definition allText : string :=
  JS.toLowerCase
    (JS.join (keywords ++ declaredServices ++ techStack
              ++ [description; company_name company])%list
       " ").

Definition foundNegativeKeywords : list string :=
  filter (fun keyword => JS.includes allText (JS.toLowerCase keyword)) negativeKeywords.

Definition contextPenalty : Q :=
  if JS.gt (len foundNegativeKeywords) 0
  then JS.Math_max (3 # 10) (1 - len foundNegativeKeywords * (2 # 10))
  else 1.

Definition foundMspKeywords : list string :=
  filter (fun keyword => JS.includes allText (JS.toLowerCase keyword)) mspKeywords.

Definition mspKeywordScore : Q :=
  JS.Math_min 30 ((len foundMspKeywords / len mspKeywords) * 30) * contextPenalty.

Definition foundServices : list string :=
  filter (fun service =>
            existsb (fun mspService =>
                       JS.includes (JS.toLowerCase service) (JS.toLowerCase mspService))
              mspServices)
    declaredServices.

Definition serviceScore : Q :=
  JS.Math_min 25 ((len foundServices / JS.Math_max 1 (len declaredServices)) * 25).

Definition foundInfraTech : list string :=
  filter (fun tech =>
            existsb (fun infraTech =>
                       JS.includes (JS.toLowerCase tech) (JS.toLowerCase infraTech))
              itInfrastructureTech)
    techStack.

Definition techScore : Q :=
  JS.Math_min 20 ((len foundInfraTech / JS.Math_max 1 (len techStack)) * 20).

Definition descriptionMatches : Q :=
  len (filter (fun pattern => patternTest pattern description) mspDescriptionPatterns).

Definition descriptionScore : Q :=
  JS.Math_min 15 ((descriptionMatches / len mspDescriptionPatterns) * 15).

Definition isItSic (code : string) : bool :=
  JS.includes code "62020" || JS.includes code "62090".

Definition hasItSic : bool := existsb isItSic (sic_codes company).

Definition isSpecializedMSP : bool :=
  let has (k : string) (s : string) := JS.includes (JS.toLowerCase s) k in
  (existsb (has "backup") foundServices
   && negb (existsb (fun s => has "it support" s || has "helpdesk" s) foundServices))
  || (existsb (fun s => has "security" s || has "mdr" s) foundServices
      && negb (existsb (fun s => has "infrastructure" s || has "network management" s)
                 foundServices)).

Definition analyzeMSPLikelihood : MSPAnalysis :=
  let indicators := [] in
  let score := 0 in
  let indicators :=
    JS.push indicators {| category := "Negative Keywords (non-MSP indicators)";
                          found := JS.gt (len foundNegativeKeywords) 0;
                          evidence := JS.slice0 5 foundNegativeKeywords |} in
  let score := score + mspKeywordScore in
  let indicators :=
    JS.push indicators {| category := "MSP Keywords";
                          found := JS.gt (len foundMspKeywords) 0;
                          evidence := JS.slice0 5 foundMspKeywords |} in
  let score := score + serviceScore in
  let indicators :=
    JS.push indicators {| category := "MSP Services";
                          found := JS.gt (len foundServices) 0;
                          evidence := JS.slice0 5 foundServices |} in
  let score := score + techScore in
  let indicators :=
    JS.push indicators {| category := "IT Infrastructure Technology";
                          found := JS.gt (len foundInfraTech) 0;
                          evidence := JS.slice0 5 foundInfraTech |} in
  let score := score + descriptionScore in
  let indicators :=
    JS.push indicators {| category := "Business Description";
                          found := JS.gt descriptionMatches 0;
                          evidence := if JS.gt descriptionMatches 0
                                      then ["Contains MSP-related descriptions"] else [] |} in
  let score := if hasItSic then score + 10 else score in
  let indicators :=
    JS.push indicators {| category := "SIC Code (IT Services)";
                          found := hasItSic;
                          evidence := if hasItSic then filter isItSic (sic_codes company)
                                      else [] |} in
  let indicators :=
    JS.push indicators {| category := "Specialized MSP (not full-service)";
                          found := isSpecializedMSP;
                          evidence := if isSpecializedMSP
                                      then ["Detected as specialized MSP (backup/security only)"]
                                      else [] |} in
  let hasNegativeContext := JS.gt (len foundNegativeKeywords) 0 in
  let minContextPenaltyForMedium := if hasNegativeContext then 6 # 10 else 3 # 10 in
  let confidence :=
    if JS.ge score 30 then high
    else if JS.ge score 15 && JS.ge contextPenalty minContextPenaltyForMedium then medium
    else low in
  {| msp_score := JS.Math_round score; confidence := confidence; indicators := indicators |}.

End Classifier.

(* ------------------------------------------------------------------ *)
(** ** The financial extraction service: calculateTrends *)

Module FinancialExtraction.

Import JS.

Record EmployeeData : Type := { average_count : Nullish Q }.
Record Ratios : Type := { ebitda_margin : Nullish Q }.
Record RevenueBreakdown : Type := { recurring_revenue_percentage : Nullish Q }.

(** [period_end] holds [new Date(period_end).getTime()]. *)
Record AnnualFinancialData : Type := {
  period_end : Z;
  revenue : Nullish Q;
  profit_after_tax : Nullish Q;
  ebitda : Nullish Q;
  employees : option EmployeeData;
  ratios : option Ratios;
  revenue_breakdown : option RevenueBreakdown
}.

(** [o?.f] *)
Definition chain (A : Type) (o : option A) (f : A -> Nullish Q) : Nullish Q :=
  match o with
  | Some a => f a
  | None => Undefined
  end.

(** The [trends] object: its own properties in insertion order. *)
Inductive TrendValue : Type :=
| Num (n : Number)
| Label (s : string).

Definition Trends : Type := list (string * TrendValue).

Fixpoint get (key : string) (o : Trends) : option TrendValue :=
  match o with
  | [] => None
  | (k, v) :: r => if String.eqb k key then Some v else get key r
  end.

(** [o.key = v] *)
Fixpoint set (key : string) (v : TrendValue) (o : Trends) : Trends :=
  match o with
  | [] => [(key, v)]
  | (k, w) :: r => if String.eqb k key then (k, v) :: r else (k, w) :: set key v r
  end.

(** ** Arrays of records live in a heap: [sort] works in place. *)

Definition Ref : Type := nat.
Definition Heap : Type := list (list AnnualFinancialData).
Definition M (A : Type) : Type := Heap -> A * Heap.

Definition ret (A : Type) (a : A) : M A := fun h => (a, h).
Definition bind (A B : Type) (c : M A) (k : A -> M B) : M B :=
  fun h => let (a, h') := c h in k a h'.

Notation "x <- c ;; k" := (bind c (fun x => k))
  (at level 61, c at next level, right associativity).

Definition deref (r : Ref) : M (list AnnualFinancialData) :=
  fun h => (nth r h [], h).

Definition alloc (a : list AnnualFinancialData) : M Ref :=
  fun h => (List.length h, (h ++ [a])%list).

Fixpoint update (r : Ref) (a : list AnnualFinancialData) (h : Heap) : Heap :=
  match h, r with
  | [], _ => []
  | _ :: t, O => a :: t
  | x :: t, S r' => x :: update r' a t
  end.

(** [[...r]] *)
Definition spread (r : Ref) : M Ref := a <- deref r ;; alloc a.

(** [r.slice(0, n)] *)
Definition slice (r : Ref) (n : nat) : M Ref := a <- deref r ;; alloc (firstn n a).

Fixpoint insert (cmp : AnnualFinancialData -> AnnualFinancialData -> Z)
    (x : AnnualFinancialData) (l : list AnnualFinancialData) : list AnnualFinancialData :=
  match l with
  | [] => [x]
  | y :: r => if (cmp x y <=? 0)%Z then x :: l else y :: insert cmp x r
  end.

(** The order [Array.prototype.sort] produces: it is stable. *)
Definition sorted_by (cmp : AnnualFinancialData -> AnnualFinancialData -> Z)
    (l : list AnnualFinancialData) : list AnnualFinancialData :=
  fold_right (insert cmp) [] l.

(** [r.sort(cmp)]: overwrites the array behind [r] and returns [r]. *)
Definition sort (cmp : AnnualFinancialData -> AnnualFinancialData -> Z) (r : Ref) : M Ref :=
  fun h => (r, update r (sorted_by cmp (nth r h [])) h).

(** The comparator given to [sort]: most recent period first. *)
Definition by_period_end_desc (a b : AnnualFinancialData) : Z :=
  (period_end b - period_end a)%Z.

Section Trends.

(** The real power [base ^ exponent] of a positive base, as [Math.pow]
    computes it. *)
Variable real_pow : Q -> Q -> Q.

Local Open Scope Q_scope.
Local Open Scope string_scope.

(** [((latest - previous) / previous) * 100] under the guard
    [latest && previous]. *)
Definition growth (key : string) (latest previous : Nullish Q) (trends : Trends) : Trends :=
  if truthyN latest && truthyN previous
  then set key (Num (Finite (((numN latest - numN previous) / numN previous) * 100))) trends
  else trends.

Definition gtN (n : TrendValue) (q : Q) : bool :=
  match n with
  | Num (Finite x) => gt x q
  | _ => false
  end.

Definition ltN (n : TrendValue) (q : Q) : bool :=
  match n with
  | Num (Finite x) => lt x q
  | _ => false
  end.

Definition direction (key from : string) (trends : Trends) : Trends :=
  match get from trends with
  | Some g =>
      set key (Label (if gtN g 5 then "growing"
                      else if ltN g (-5) then "declining" else "stable")) trends
  | None => trends
  end.

Definition marginTrend (latest previous : AnnualFinancialData) (trends : Trends) : Trends :=
  let l := chain (ratios latest) ebitda_margin in
  let p := chain (ratios previous) ebitda_margin in
  if truthyN l && truthyN p
  then
    let marginChange := numN l - numN p in
    set "margin_trend" (Label (if gt marginChange 1 then "improving"
                               else if lt marginChange (-1) then "declining"
                               else "stable")) trends
  else trends.

(** [(Math.pow(latest / threeYearsAgo, 1 / years) - 1) * 100] under the
    guard [latest && threeYearsAgo]. *)
Definition cagr (key : string) (years : Q) (latest threeYearsAgo : Nullish Q)
    (trends : Trends) : Trends :=
  if truthyN latest && truthyN threeYearsAgo
  then set key
         (Num (map_number (fun p => (p - 1) * 100)
                 (Math_pow real_pow (numN latest / numN threeYearsAgo) (1 / years))))
         trends
  else trends.

(** [l.map(f).filter(v => v !== undefined)], then the mean when the
    filtered array is not empty. *)
Definition average (key : string) (f : AnnualFinancialData -> Nullish Q)
    (last3Years : list AnnualFinancialData) (trends : Trends) : Trends :=
  let vs :=
    filter (fun v => match v with Undefined => false | _ => true end) (map f last3Years) in
  if (0 <? List.length vs)%nat
  then set key
         (Num (Finite (fold_left (fun a b => a + numN b) vs 0
                       / inject_Z (Z.of_nat (List.length vs))))) trends
  else trends.

Definition calculateTrends (annualData : Ref) : M Trends :=
  a <- deref annualData ;;
  if (List.length a <? 1)%nat then ret []
  else
    let trends : Trends := [] in
    copy <- spread annualData ;;
    sorted <- sort by_period_end_desc copy ;;
    s <- deref sorted ;;
    (* 1-year growth rates and trend directions: sorted.length >= 2 *)
    let trends :=
      match s with
      | latest :: previous :: _ =>
          let trends := growth "revenue_growth_1y" (revenue latest) (revenue previous) trends in
          let trends :=
            growth "profit_growth_1y" (profit_after_tax latest) (profit_after_tax previous)
              trends in
          let trends := growth "ebitda_growth_1y" (ebitda latest) (ebitda previous) trends in
          let trends :=
            growth "employee_growth_1y" (chain (employees latest) average_count)
              (chain (employees previous) average_count) trends in
          let trends := direction "revenue_trend" "revenue_growth_1y" trends in
          let trends := direction "profit_trend" "profit_growth_1y" trends in
          marginTrend latest previous trends
      | _ => trends
      end in
    (* 3-year CAGR: sorted.length >= 3 *)
    let trends :=
      match s with
      | latest :: _ :: threeYearsAgo :: _ =>
          let years := 3 in
          let trends :=
            cagr "revenue_growth_3y_cagr" years (revenue latest) (revenue threeYearsAgo)
              trends in
          cagr "profit_growth_3y_cagr" years (profit_after_tax latest)
            (profit_after_tax threeYearsAgo) trends
      | _ => trends
      end in
    (* 3-year averages *)
    last3 <- slice sorted 3 ;;
    last3Years <- deref last3 ;;
    let trends :=
      if (0 <? List.length last3Years)%nat then
        let trends := average "average_revenue_3y" revenue last3Years trends in
        let trends := average "average_profit_3y" profit_after_tax last3Years trends in
        let trends := average "average_ebitda_3y" ebitda last3Years trends in
        let trends :=
          average "average_ebitda_margin_3y" (fun d => chain (ratios d) ebitda_margin)
            last3Years trends in
        average "average_recurring_revenue_pct_3y"
          (fun d => chain (revenue_breakdown d) recurring_revenue_percentage)
          last3Years trends
      else trends in
    ret trends.

End Trends.

End FinancialExtraction.

(* ------------------------------------------------------------------ *)
(** ** Reading the results *)

Local Open Scope Q_scope.

(** Sum of the reported weights, in the order they were pushed. *)
Definition sum_weights (fs : list Factor) : Q :=
  fold_left (fun acc f => acc + weight f) fs 0.

(** The first reported factor. *)
Definition ageEntry (r : ScoreResult) : Factor :=
  nth 0 (factors r) {| factor := ""; value := 0; weight := 0 |}.

(** The second reported factor. *)
Definition sizeEntry (r : ScoreResult) : Factor :=
  nth 1 (factors r) {| factor := ""; value := 0; weight := 0 |}.

(** The size value the scorer reads for the employee dimension. *)
Definition scorerHeadcount (c : Company) : option Q :=
  JS.or (employees (financials c)) (headcount (enrichment c)).

(** A band fully satisfied, as the guards of the scorer test it. *)
Definition inBand (v : option Q) (lo hi : Q) : bool :=
  JS.truthy v && JS.ge (JS.num v) lo && JS.le (JS.num v) hi.

(** Partial credit of one dimension taken alone: nothing without a value,
    clamped at zero on both sides of the band. *)
Definition creditOf (v : option Q) (lo hi : Q) : Q :=
  if JS.truthy v then
    if JS.lt (JS.num v) lo then JS.Math_max 0 ((JS.num v / lo) * 15)
    else if JS.gt (JS.num v) hi then JS.Math_max 0 (15 - ((JS.num v - hi) / hi) * 15)
    else 0
  else 0.

(** Partial credit the way the specification words it: below the
    minimum the ratio is not clamped. *)
Definition statedCredit (v : option Q) (lo hi : Q) : Q :=
  if JS.truthy v then
    if JS.lt (JS.num v) lo then (JS.num v / lo) * 15
    else if JS.gt (JS.num v) hi then JS.Math_max 0 (15 - ((JS.num v - hi) / hi) * 15)
    else 0
  else 0.

(** One block of the partial-credit branch of the scorer: entered when no
    credit has been given yet and the dimension has a value. *)
Definition step (tag : string) (v : option Q) (lo hi : Q) (st : SizeState) : SizeState :=
  if JS.eq (sizeScore st) 0 && JS.truthy v
  then partialCredit tag (JS.num v) lo hi st
  else st.

(** The size entry for a dimension tag, a value and a credit. *)
Definition reported (tag : string) (v w : Q) : Factor :=
  {| factor := sizeLabel tag; value := v; weight := w |}.

Definition entryOf (st : SizeState) : Factor :=
  reported (sizeType st) (sizeValue st) (sizeScore st).

(** The scorer grants full size credit. *)
Definition scorerInBand (c : Company) : bool := JS.eq (sizeScore (sizeFactor c)) 25.

(** The record the matcher's size test amounts to: EBITDA replaced by
    [ebitda || profit]. *)
Definition withProfitAsEbitda (c : Company) : Company :=
  {| company_name := company_name c;
     company_status := company_status c;
     date_of_incorporation := date_of_incorporation c;
     registered_address := registered_address c;
     registered_address_structured := registered_address_structured c;
     sic_codes := sic_codes c;
     has_been_liquidated := has_been_liquidated c;
     has_insolvency_history := has_insolvency_history c;
     financials :=
       {| revenue := revenue (financials c);
          profit := profit (financials c);
          ebitda := JS.or (ebitda (financials c)) (profit (financials c));
          employees := employees (financials c) |};
     enrichment := enrichment c;
     investment_score := investment_score c |}.

(** The same record with another technology list. *)
Definition withTechStack (ts : option (list string)) (c : Company) : Company :=
  {| company_name := company_name c;
     company_status := company_status c;
     date_of_incorporation := date_of_incorporation c;
     registered_address := registered_address c;
     registered_address_structured := registered_address_structured c;
     sic_codes := sic_codes c;
     has_been_liquidated := has_been_liquidated c;
     has_insolvency_history := has_insolvency_history c;
     financials := financials c;
     enrichment :=
       {| headcount := headcount (enrichment c);
          tech_stack := ts;
          business_keywords := business_keywords (enrichment c);
          services := services (enrichment c);
          business_description := business_description (enrichment c) |};
     investment_score := investment_score c |}.

(** No size data at all, in the words of the specification: none of
    revenue, EBITDA and employee count is present and nonzero. *)
Definition noSizeData (c : Company) : bool :=
  negb (JS.truthy (revenue (financials c)))
  && negb (JS.truthy (ebitda (financials c)))
  && negb (JS.truthy (scorerHeadcount c)).

(** A vocabulary phrase in lower case that does not start with a space. *)
Definition plainPhrase (k : string) : bool :=
  String.eqb (JS.toLowerCase k) k
  && match k with
     | String a _ => negb (Ascii.eqb a " ")
     | EmptyString => false
     end.

(** The weighted sum the classifier has accumulated when it picks the
    confidence tier. *)
Definition classifierTotal (c : Company) : Q :=
  if hasItSic c
  then 0 + mspKeywordScore c + serviceScore c + techScore c + descriptionScore c + 10
  else 0 + mspKeywordScore c + serviceScore c + techScore c + descriptionScore c.

(** [met] of the reported criterion called [nm]. *)
Definition metOf (nm : string) (r : ThesisMatch) : bool :=
  match find (fun cr => String.eqb (name cr) nm) (criteria r) with
  | Some cr => met cr
  | None => false
  end.

(* ------------------------------------------------------------------ *)
(** ** Sample records *)

Module Sample.

Local Open Scope string_scope.

(** 2026-01-01T00:00:00Z *)
Definition now2026 : Z := 1767225600000.

Definition noGeocode : string -> option Q := fun _ => None.

Definition noEnrichment : Enrichment :=
  {| headcount := None; tech_stack := None; business_keywords := None;
     services := None; business_description := None |}.

Definition company (incorporated : Z) (sics : list string) (fin : Financials)
    (enr : Enrichment) : Company :=
  {| company_name := "Acme Ltd";
     company_status := Some "active";
     date_of_incorporation := incorporated;
     registered_address := None;
     registered_address_structured := None;
     sic_codes := sics;
     has_been_liquidated := None;
     has_insolvency_history := None;
     financials := fin;
     enrichment := enr;
     investment_score := None |}.

Definition noFinancials : Financials :=
  {| revenue := None; profit := None; ebitda := None; employees := None |}.

(** Incorporated 2027-01-01, one year after [now2026]. *)
Definition futureCompany : Company := company 1798761600000 [] noFinancials noEnrichment.

(** Incorporated 2023-01-02, that is 3 * 365 days before [now2026]. *)
Definition threeYearCompany : Company := company 1672617600000 [] noFinancials noEnrichment.

(** Incorporated 2016-01-01. *)
Definition tenYearCompany (sics : list string) (fin : Financials) (enr : Enrichment) : Company :=
  company 1451606400000 sics fin enr.

(** Minus five employees on file and 1.5M revenue. *)
Definition negativeHeadcount : Company :=
  tenYearCompany []
    {| revenue := Some 1500000; profit := None; ebitda := None; employees := Some (-5) |}
    noEnrichment.

(** Twenty employees, revenue and EBITDA far outside their bands. *)
Definition twentyEmployees : Company :=
  tenYearCompany []
    {| revenue := Some 90000000; profit := None; ebitda := Some 20; employees := Some 20 |}
    noEnrichment.

(** Ten employees and 1.5M revenue: both earn partial credit. *)
Definition tenEmployees : Company :=
  tenYearCompany []
    {| revenue := Some 1500000; profit := None; ebitda := None; employees := Some 10 |}
    noEnrichment.

(** No EBITDA on file, a profit of 700k and 10M revenue. *)
Definition profitOnly : Company :=
  tenYearCompany ["62020"]
    {| revenue := Some 10000000; profit := Some 700000; ebitda := None; employees := None |}
    noEnrichment.

(** 800k EBITDA on file next to a small profit. *)
Definition ebitdaOnFile : Company :=
  tenYearCompany []
    {| revenue := None; profit := Some 5; ebitda := Some 800000; employees := None |}
    noEnrichment.

(** Incorporated 2024-01-02, that is 2 * 365 days before [now2026]. *)
Definition twoYearCompany : Company :=
  company 1704153600000 ["62020"] noFinancials noEnrichment.

(** Target SIC code and no enrichment at all. *)
Definition bareItCompany : Company :=
  tenYearCompany ["62020 - Information technology consultancy activities"]
    noFinancials noEnrichment.

(** No enrichment, no SIC code, a neutral name. *)
Definition bareCompany : Company := tenYearCompany [] noFinancials noEnrichment.

(** Four negative phrases next to MSP wording. *)
Definition softwareHouse : Company :=
  tenYearCompany [] noFinancials
    {| headcount := None; tech_stack := None;
       business_keywords :=
         Some ["software development"; "digital transformation"; "machine learning";
               "custom software"; "msp"; "managed services"; "it support"];
       services := None;
       business_description := None |}.

Definition year (endsOn : Z) (rev pat : JS.Nullish Q) :
    FinancialExtraction.AnnualFinancialData :=
  {| FinancialExtraction.period_end := endsOn;
     FinancialExtraction.revenue := rev;
     FinancialExtraction.profit_after_tax := pat;
     FinancialExtraction.ebitda := JS.Undefined;
     FinancialExtraction.employees := None;
     FinancialExtraction.ratios := None;
     FinancialExtraction.revenue_breakdown := None |}.

(** Periods ending 2021-12-31, 2022-12-31 and 2023-12-31, a loss in the
    oldest one. *)
Definition lossThenProfit : list FinancialExtraction.AnnualFinancialData :=
  [ year 1640908800000 (JS.Value 100) (JS.Value (-50));
    year 1672444800000 (JS.Value 110) (JS.Value 50);
    year 1703980800000 (JS.Value 121) (JS.Value 100) ].

End Sample.

(* ------------------------------------------------------------------ *)
(** ** utils/dateHelpers.ts: yearsBetween *)

(** Both dates as epoch milliseconds, as for [calculateYearsActive]. *)
Definition yearsBetween (startDate endDate : Z) : Q :=
  let diff := (endDate - startDate)%Z in
  inject_Z diff / inject_Z MILLISECONDS_PER_YEAR.

(* ------------------------------------------------------------------ *)
(** ** schemas/CompanySchema.ts: isHighValueTarget and getRedFlags *)

Module Registry.

Record InsolvencyCase : Type := {
  case_number : option string;
  case_type : option string
}.

Record Insolvency : Type := {
  cases : list InsolvencyCase;
  has_insolvency_history : option bool
}.

Record Charges : Type := {
  unsatisfied_count : option Q
}.

Record Accounts : Type := {
  next_accounts_overdue : option bool
}.

End Registry.

(** The company record with the further fields these two functions read;
    [website] is [enrichment.website]. *)
Record CompanyFile : Type := {
  core : Company;
  website : option string;
  insolvency : option Registry.Insolvency;
  charges : option Registry.Charges;
  accounts : option Registry.Accounts
}.

(** Truthiness of an optional boolean. *)
Definition isFlag (flag : option bool) : bool := negb (notFlag flag).

(** [company.insolvency?.has_insolvency_history] *)
Definition insolvencyHistory (f : CompanyFile) : option bool :=
  match insolvency f with
  | Some i => Registry.has_insolvency_history i
  | None => None
  end.

Definition isHighValueTarget (now : Z) (f : CompanyFile) : bool :=
  let company := core f in
  let yearsActive := calculateYearsActive now (date_of_incorporation company) in
  if JS.lt yearsActive 3 then false
  else if isFlag (insolvencyHistory f) || isFlag (has_been_liquidated company) then false
  else
    let hasFinancials :=
      JS.truthy (JS.or (revenue (financials company)) (profit (financials company))) in
    let hasEnrichment :=
      JS.truthyOS (website f) || JS.truthy (headcount (enrichment company)) in
    hasFinancials || hasEnrichment.

Definition getRedFlags (f : CompanyFile) : list (list Piece) :=
  let company := core f in
  let flags := [] in
  let flags :=
    if isFlag (has_been_liquidated company)
    then JS.push flags [Lit "Company has been liquidated"]
    else flags in
  let flags :=
    if isFlag (insolvencyHistory f)
    then JS.push flags [Lit "Has insolvency history"]
    else flags in
  let flags :=
    match insolvency f with
    | Some i =>
        if (0 <? List.length (Registry.cases i))%nat
        then JS.push flags [Lit "Has "; Interpolated (len (Registry.cases i));
                            Lit " insolvency case(s)"]
        else flags
    | None => flags
    end in
  let flags :=
    match charges f with
    | Some ch =>
        if JS.truthy (Registry.unsatisfied_count ch)
           && JS.gt (JS.num (Registry.unsatisfied_count ch)) 0
        then JS.push flags [Interpolated (JS.num (Registry.unsatisfied_count ch));
                            Lit " unsatisfied charge(s)"]
        else flags
    | None => flags
    end in
  let flags :=
    match accounts f with
    | Some a =>
        if isFlag (Registry.next_accounts_overdue a)
        then JS.push flags [Lit "Accounts are overdue"]
        else flags
    | None => flags
    end in
  let flags :=
    if negb (match company_status company with
             | Some s => String.eqb s "active"
             | None => false
             end)
    then JS.push flags [Lit ("Company status: "
                             ++ match company_status company with
                                | Some s => s
                                | None => "undefined"
                                end)%string]
    else flags in
  flags.

(* ------------------------------------------------------------------ *)
(** ** utils/computeAndStoreScores.ts: the score block put on the record *)

(** The object assigned to [company.investment_score]; [computed_at] is
    the clock reading whose ISO rendering is stored. *)
Record InvestmentScoreBlock : Type := {
  block_score : Q;
  block_factors : list Factor;
  block_computed_at : Z;
  block_location_distance_km : option Q
}.

(** [locationFactor && locationFactor.value > 0 ? locationFactor.value : undefined] *)
Definition locationDistanceToStore (scoreResult : ScoreResult) : option Q :=
  let locationFactor :=
    find (fun f => JS.includes (factor f) "Location" || JS.includes (factor f) "distance")
      (factors scoreResult) in
  match locationFactor with
  | Some f => if JS.gt (value f) 0 then Some (value f) else None
  | None => None
  end.

Definition investmentScoreBlock (now : Z) (scoreResult : ScoreResult) : InvestmentScoreBlock :=
  {| block_score := score scoreResult;
     block_factors := factors scoreResult;
     block_computed_at := now;
     block_location_distance_km := locationDistanceToStore scoreResult |}.

(** The record as the scorer reads it back once the block is on it. *)
Definition withInvestmentScore (b : InvestmentScoreBlock) (c : Company) : Company :=
  {| company_name := company_name c;
     company_status := company_status c;
     date_of_incorporation := date_of_incorporation c;
     registered_address := registered_address c;
     registered_address_structured := registered_address_structured c;
     sic_codes := sic_codes c;
     has_been_liquidated := has_been_liquidated c;
     has_insolvency_history := has_insolvency_history c;
     financials := financials c;
     enrichment := enrichment c;
     investment_score :=
       Some {| location_distance_km := block_location_distance_km b |} |}.

(** One turn of the loop of [computeAndStoreScores], file access apart. *)
Definition computeAndStoreScore (now : Z) (geocode : string -> option Q) (c : Company) :
    Company :=
  withInvestmentScore (investmentScoreBlock now (calculateInvestmentScore now geocode c)) c.

(* ------------------------------------------------------------------ *)
(** ** utils/loadFromCSV.ts: parseCSVLine and normalizeWebsite *)

Module CSV.

(** The double quote character. *)
Definition dquote : ascii := "034"%char.

(** The loop over the characters of the line, with its three locals. *)
Fixpoint parseLoop (chars : list ascii) (fields : list string) (currentField : string)
    (inQuotes : bool) : list string :=
  match chars with
  | [] => JS.push fields (JS.trim currentField)
  | char :: rest =>
      if Ascii.eqb char dquote then parseLoop rest fields currentField (negb inQuotes)
      else if Ascii.eqb char "," && negb inQuotes
      then parseLoop rest (JS.push fields (JS.trim currentField)) EmptyString inQuotes
      else parseLoop rest fields (currentField ++ String char EmptyString)%string inQuotes
  end.

Definition parseCSVLine (line : string) : list string :=
  parseLoop (list_ascii_of_string line) [] EmptyString false.

Definition normalizeWebsite (website : option string) : option string :=
  if negb (JS.truthyOS website) || String.eqb (JS.trim (JS.str website)) ""
  then None
  else
    let url := JS.trim (JS.str website) in
    if negb (JS.startsWith url "http://") && negb (JS.startsWith url "https://")
    then Some ("https://" ++ url)%string
    else Some url.

End CSV.

(* ------------------------------------------------------------------ *)
(** ** Reading the further results *)

(** The fourth reported factor. *)
Definition locationEntry (r : ScoreResult) : Factor :=
  nth 3 (factors r) {| factor := ""; value := 0; weight := 0 |}.

(** The third reported factor. *)
Definition microsoftEntry (r : ScoreResult) : Factor :=
  nth 2 (factors r) {| factor := ""; value := 0; weight := 0 |}.

(** Number of technology entries that match the Microsoft vocabulary. *)
Definition microsoftMatches (c : Company) : nat :=
  List.length (filter isMicrosoftTech (JS.arr (tech_stack (enrichment c)))).

(** The keys the averaging block can set. *)
Definition averageKeys : list string :=
  ["average_revenue_3y"; "average_profit_3y"; "average_ebitda_3y";
   "average_ebitda_margin_3y"; "average_recurring_revenue_pct_3y"]%string.

(** The trends computed for a list of records held alone in a heap. *)
Definition trendsOf (real_pow : Q -> Q -> Q)
    (annualData : list FinancialExtraction.AnnualFinancialData) : FinancialExtraction.Trends :=
  fst (FinancialExtraction.calculateTrends real_pow 0%nat [annualData]).

(** A character that neither separates nor quotes a field. *)
Definition plainChar (c : ascii) : bool := negb (Ascii.eqb c ",") && negb (Ascii.eqb c CSV.dquote).

Definition plainField (s : string) : bool := forallb plainChar (list_ascii_of_string s).

(** The four further conditions [getRedFlags] tests. *)
Definition hasInsolvencyCases (f : CompanyFile) : bool :=
  match insolvency f with
  | Some i => (0 <? List.length (Registry.cases i))%nat
  | None => false
  end.

Definition hasUnsatisfiedCharges (f : CompanyFile) : bool :=
  match charges f with
  | Some ch =>
      JS.truthy (Registry.unsatisfied_count ch) && JS.gt (JS.num (Registry.unsatisfied_count ch)) 0
  | None => false
  end.

Definition accountsOverdue (f : CompanyFile) : bool :=
  match accounts f with
  | Some a => isFlag (Registry.next_accounts_overdue a)
  | None => false
  end.

Definition count (b : bool) : nat := if b then 1 else 0.

(** An indicator that carries no evidence. *)
Definition noEvidence (i : Indicator) : bool :=
  match evidence i with
  | [] => true
  | _ :: _ => false
  end.

(** A list on which [dropWhile] has nothing to remove. *)
Definition settled (p : ascii -> bool) (l : list ascii) : Prop :=
  match l with
  | [] => True
  | x :: _ => p x = false
  end.

(** The characters [trim] keeps. *)
Definition trimmed (l : list ascii) : list ascii :=
  rev (JS.dropWhile JS.is_space (rev (JS.dropWhile JS.is_space l))).

(** [a] does not end before [b], and [a] ends after [b]. *)
Definition notOlder (a b : FinancialExtraction.AnnualFinancialData) : Prop :=
  (FinancialExtraction.period_end b <= FinancialExtraction.period_end a)%Z.

Definition newer (a b : FinancialExtraction.AnnualFinancialData) : Prop :=
  (FinancialExtraction.period_end b < FinancialExtraction.period_end a)%Z.

(** [Math.round(distance * 10) / 10] *)
Definition oneDecimal (d : Q) : Q := JS.Math_round (d * 10) / 10.

(* ------------------------------------------------------------------ *)
(** ** Further sample records *)

Module Sample2.

Local Open Scope string_scope.

Definition withAddress (address : option string) (structured : option Address)
    (distance : option InvestmentScore) : Company :=
  {| company_name := "Acme Ltd";
     company_status := Some "active";
     date_of_incorporation := 1451606400000;
     registered_address := address;
     registered_address_structured := structured;
     sic_codes := ["62020"];
     has_been_liquidated := None;
     has_insolvency_history := None;
     financials := Sample.noFinancials;
     enrichment := Sample.noEnrichment;
     investment_score := distance |}.

(** A record with 31.4 km on file. *)
Definition cachedDistance : Company :=
  withAddress (Some "1 High Street, Reading") None
    (Some {| location_distance_km := Some (314 # 10) |}).

(** A resolver that places every address 25.04 km away. *)
Definition nearGeocode : string -> option Q := fun _ => Some (2504 # 100).

Definition uncached : Company := withAddress (Some "1 High Street, Reading") None None.

(** Three Microsoft technologies out of four entries. *)
Definition threeMicrosoft : Company :=
  Sample.tenYearCompany [] Sample.noFinancials
    {| headcount := None;
       tech_stack := Some ["Microsoft 365"; "Azure AD"; "SharePoint"; "Linux"];
       business_keywords := None; services := None; business_description := None |}.

(** An active ten-year-old company with a website and nothing against it. *)
Definition cleanFile : CompanyFile :=
  {| core := Sample.bareItCompany;
     website := Some "https://acme.example";
     insolvency := Some {| Registry.cases := []; Registry.has_insolvency_history := None |};
     charges := Some {| Registry.unsatisfied_count := Some 0 |};
     accounts := Some {| Registry.next_accounts_overdue := Some false |} |}.

End Sample2.

(* ------------------------------------------------------------------ *)
(** ** Reading the size criterion *)

(** A value on file that is above zero. *)
Definition positive (v : option Q) : bool :=
  match v with
  | Some q => JS.gt q 0
  | None => false
  end.

(** None of the three values criterion 5 reads is positive: the EBITDA or
    else the profit, the revenue, the employee count or else the head
    count. *)
Definition noPositiveSize (c : Company) : bool :=
  negb (positive (JS.or (ebitda (financials c)) (profit (financials c))))
  && negb (positive (revenue (financials c)))
  && negb (positive (JS.or (employees (financials c)) (headcount (enrichment c)))).

(** One of the three bands holds for the values criterion 5 reads. *)
Definition inSomeBand (c : Company) : bool :=
  inBand (JS.or (ebitda (financials c)) (profit (financials c))) MIN_EBITDA MAX_EBITDA
  || inBand (revenue (financials c)) MIN_REVENUE MAX_REVENUE
  || inBand (JS.or (employees (financials c)) (headcount (enrichment c)))
       MIN_EMPLOYEES MAX_EMPLOYEES.

(** The nine rows the matcher reports, in order. *)
Definition criteriaNames : list string :=
  ["Company Age (3+ years)"; "Active Status"; "No Insolvency History";
   "SIC Code (62020/62090)"; "EBITDA Range (£500k-£1m)"; "Revenue Range (£3m-£6m)";
   "Employee Range (15-40)"; "Size Profile (EBITDA OR Revenue OR Employees)";
   "Microsoft Stack (Preferred)"]%string.

(* ------------------------------------------------------------------ *)
(** ** The company record as a shared object *)

(** A company is an object the caller holds by reference: the scorer, the
    matcher and the classifier receive the reference, and whatever they
    did to the object the caller would see.  The store maps references to
    records; a computation takes the store and gives it back. *)
Module Objects.

Definition Ref : Type := nat.
Definition Store : Type := Ref -> Company.
Definition Run (A : Type) : Type := Store -> A * Store.

Definition ret {A : Type} (a : A) : Run A := fun st => (a, st).

Definition bind {A B : Type} (m : Run A) (k : A -> Run B) : Run B :=
  fun st => let (a, st') := m st in k a st'.

(** [company.field], [company.field.some(..)], [[...company.field]]: reads of
    the record behind the reference. *)
Definition read (r : Ref) : Run Company := fun st => (st r, st).

(** [company.field = value] *)
Definition assign (r : Ref) (change : Company -> Company) : Run unit :=
  fun st => (tt, fun r' => if Nat.eqb r' r then change (st r) else st r').

End Objects.

(** The three computations on a reference.  Every access to the record in
    their bodies is a read: property accesses ([company.financials.revenue],
    [company.enrichment.headcount], [company.investment_score?.location_distance_km],
    ...), [some], [filter], [join] and [includes] on its arrays, and the
    spread of its arrays into the fresh array behind [allText].  The arrays
    they push to ([factors], [criteria], [indicators]) and the evidence
    lists are their own.  In the scorer all reads come before the lookup
    is awaited. *)
Definition calculateInvestmentScoreOn (now : Z) (geocode : string -> option Q)
    (company : Objects.Ref) : Objects.Run ScoreResult :=
  Objects.bind (Objects.read company)
    (fun c => Objects.ret (calculateInvestmentScore now geocode c)).



(** One turn of the loop of [computeAndStoreScores] on the object it has
    read: here the caller does assign, [company.investment_score = {...}]. *)
Definition computeAndStoreScoreOn (now : Z) (geocode : string -> option Q)
    (company : Objects.Ref) : Objects.Run unit :=
  Objects.bind (calculateInvestmentScoreOn now geocode company)
    (fun scoreResult =>
       Objects.assign company (withInvestmentScore (investmentScoreBlock now scoreResult))).


(* ------------------------------------------------------------------ *)
(** ** A further sample record *)

Module Sample3.

Local Open Scope string_scope.

(** Two negative phrases and nothing else. *)
Definition twoNegativePhrases : Company :=
  Sample.tenYearCompany [] Sample.noFinancials
    {| headcount := None; tech_stack := None;
       business_keywords := Some ["software development"; "machine learning"];
       services := None;
       business_description := None |}.


End Sample3.

(* ================================================================== *)
(** * Properties *)

(** ** Numbers *)

(** Division by a literal, in the shape linear arithmetic accepts. *)
Ltac qdiv := unfold Qdiv in *; cbn [Qinv Qnum Qden] in *.

Section Numbers.

Local Open Scope Q_scope.

Lemma le_spec (x y : Q) : JS.le x y = true <-> x <= y.
Proof. unfold JS.le. apply Qle_bool_iff. Qed.

Lemma le_false (x y : Q) : JS.le x y = false <-> y < x.
Proof.
  unfold JS.le. split; intros H.
  - apply Qnot_le_lt. intros Hle. apply Qle_bool_iff in Hle. congruence.
  - destruct (Qle_bool x y) eqn:E; [|reflexivity].
    apply Qle_bool_iff in E. exfalso. apply (Qlt_not_le _ _ H E).
Qed.

Lemma lt_spec (x y : Q) : JS.lt x y = true <-> x < y.
Proof.
  unfold JS.lt. rewrite negb_true_iff. apply le_false.
Qed.

Lemma lt_false (x y : Q) : JS.lt x y = false <-> y <= x.
Proof.
  unfold JS.lt. rewrite negb_false_iff. apply le_spec.
Qed.

Lemma eq_spec (x y : Q) : JS.eq x y = true <-> x == y.
Proof. unfold JS.eq. apply Qeq_bool_iff. Qed.

Lemma Math_min_spec (a b : Q) :
  (a <= b /\ JS.Math_min a b = a) \/ (b < a /\ JS.Math_min a b = b).
Proof.
  unfold JS.Math_min. destruct (JS.le a b) eqn:E.
  - left. split; [now apply le_spec|reflexivity].
  - right. split; [now apply le_false|reflexivity].
Qed.

Lemma Math_max_spec (a b : Q) :
  (a <= b /\ JS.Math_max a b = b) \/ (b < a /\ JS.Math_max a b = a).
Proof.
  unfold JS.Math_max. destruct (JS.le a b) eqn:E.
  - left. split; [now apply le_spec|reflexivity].
  - right. split; [now apply le_false|reflexivity].
Qed.

(** Rounding to two decimals keeps a value inside an interval whose ends
    have at most two decimals. *)
Lemma round2_bounds (x : Q) (lo hi : Z) :
  inject_Z lo / 100 <= x <= inject_Z hi / 100 ->
  inject_Z lo / 100 <= JS.Math_round (x * 100) / 100 <= inject_Z hi / 100.
Proof.
  intros [Hlo Hhi]. unfold JS.Math_round. qdiv.
  assert (Hl : (lo <= Qfloor (x * 100 + (1 # 2)))%Z).
  { rewrite <- (Qfloor_Z lo). apply Qfloor_resp_le. lra. }
  assert (Hh : (Qfloor (x * 100 + (1 # 2)) <= hi)%Z).
  { apply Z.lt_succ_r. rewrite <- (Qfloor_Z (Z.succ hi)).
    assert (Hx : x * 100 + (1 # 2) < inject_Z (Z.succ hi)).
    { unfold Z.succ. rewrite inject_Z_plus. change (inject_Z 1) with 1. lra. }
    destruct (Z_lt_le_dec (Qfloor (x * 100 + (1 # 2))) (Qfloor (inject_Z (Z.succ hi))))
      as [L|L]; [exact L|].
    rewrite Qfloor_Z in L. exfalso.
    apply (Qlt_not_le _ _ Hx).
    apply Qle_trans with (inject_Z (Qfloor (x * 100 + (1 # 2)))).
    - rewrite <- Zle_Qle. exact L.
    - apply Qfloor_le. }
  rewrite Zle_Qle in Hl, Hh. split; lra.
Qed.

End Numbers.

(** ** The attractiveness scorer *)

Section ScorerFacts.

Local Open Scope Q_scope.

Variable now : Z.
Variable geocode : string -> option Q.
Variable c : Company.

(** The returned score is the running sum of the four pushed weights,
    rounded to two decimals. *)
Lemma score_is_rounded_sum :
  score (calculateInvestmentScore now geocode c)
  = JS.Math_round (sum_weights (factors (calculateInvestmentScore now geocode c)) * 100) / 100.
Proof.
  unfold calculateInvestmentScore.
  destruct (ageFactor now c) as [y a]. destruct (microsoftFactor c) as [m ms].
  reflexivity.
Qed.

Lemma four_factors :
  List.length (factors (calculateInvestmentScore now geocode c)) = 4%nat.
Proof.
  unfold calculateInvestmentScore.
  destruct (ageFactor now c) as [y a]. destruct (microsoftFactor c) as [m ms].
  reflexivity.
Qed.

(** Partial credit never exceeds 15. *)
Lemma partialCredit_bounds (tag : string) (v lo hi : Q) (st : SizeState) :
  0 < lo -> 0 < hi ->
  0 <= sizeScore st <= 15 ->
  0 <= sizeScore (partialCredit tag v lo hi st) <= 15.
Proof.
  intros Hlo Hhi Hst. unfold partialCredit.
  destruct (JS.lt v lo) eqn:E1; [|destruct (JS.gt v hi) eqn:E2]; cbn [sizeScore].
  - apply lt_spec in E1.
    assert (Hq : v / lo < 1) by (apply Qlt_shift_div_r; [exact Hlo|lra]).
    destruct (Math_max_spec 0 (v / lo * 15)) as [[H ->]|[H ->]]; lra.
  - apply lt_spec in E2.
    assert (Hq : 0 < (v - hi) / hi) by (apply Qlt_shift_div_l; [exact Hhi|lra]).
    destruct (Math_max_spec 0 (15 - (v - hi) / hi * 15)) as [[H ->]|[H ->]]; lra.
  - exact Hst.
Qed.

Lemma step_bounds (tag : string) (v : option Q) (lo hi : Q) (st : SizeState) :
  0 < lo -> 0 < hi ->
  0 <= sizeScore st <= 15 ->
  0 <= sizeScore (step tag v lo hi st) <= 15.
Proof.
  intros Hlo Hhi Hst. unfold step.
  destruct (_ && _); [now apply partialCredit_bounds|exact Hst].
Qed.

Lemma sizeFactor_unfold :
  sizeFactor c
  = if inBand (scorerHeadcount c) MIN_EMPLOYEES MAX_EMPLOYEES
    then {| sizeScore := 25; sizeValue := JS.num (scorerHeadcount c); sizeType := "employees" |}
    else if inBand (revenue (financials c)) MIN_REVENUE MAX_REVENUE
    then {| sizeScore := 25; sizeValue := JS.num (revenue (financials c));
            sizeType := "revenue" |}
    else if inBand (ebitda (financials c)) MIN_EBITDA MAX_EBITDA
    then {| sizeScore := 25; sizeValue := JS.num (ebitda (financials c));
            sizeType := "ebitda" |}
    else
      step "ebitda" (ebitda (financials c)) MIN_EBITDA MAX_EBITDA
        (step "revenue" (revenue (financials c)) MIN_REVENUE MAX_REVENUE
           (step "employees" (scorerHeadcount c) MIN_EMPLOYEES MAX_EMPLOYEES
              {| sizeScore := 0; sizeValue := 0; sizeType := "none" |})).
Proof. reflexivity. Qed.

Lemma partial_branch_bounds :
  0 <= sizeScore
         (step "ebitda" (ebitda (financials c)) MIN_EBITDA MAX_EBITDA
            (step "revenue" (revenue (financials c)) MIN_REVENUE MAX_REVENUE
               (step "employees" (scorerHeadcount c) MIN_EMPLOYEES MAX_EMPLOYEES
                  {| sizeScore := 0; sizeValue := 0; sizeType := "none" |})))
  <= 15.
Proof.
  repeat apply step_bounds; try reflexivity. cbn [sizeScore]. lra.
Qed.

Lemma sizeFactor_bounds : 0 <= sizeScore (sizeFactor c) <= 25.
Proof.
  rewrite sizeFactor_unfold.
  repeat match goal with
         | |- context [if inBand ?v ?lo ?hi then _ else _] => destruct (inBand v lo hi)
         end; cbn [sizeScore]; try lra.
  pose proof partial_branch_bounds. lra.
Qed.

Lemma microsoftFactor_bounds : 0 <= snd (microsoftFactor c) <= 25.
Proof.
  unfold microsoftFactor.
  destruct (tech_stack (enrichment c)) as [ts|]; [|cbn; lra].
  destruct (0 <? List.length ts)%nat; [|cbn; lra].
  destruct (JS.gt _ 0) eqn:E; cbn [snd]; [|lra].
  apply lt_spec in E.
  destruct (Math_min_spec 25 (inject_Z (Z.of_nat (List.length (filter isMicrosoftTech ts)))
                              * (833 # 100))) as [[H ->]|[H ->]]; lra.
Qed.

Lemma calculateLocationScore_bounds (d : option Q) : 0 <= calculateLocationScore d <= 25.
Proof.
  unfold calculateLocationScore. destruct d as [d|]; [|lra].
  repeat match goal with
         | |- context [if ?b then _ else _] => destruct b
         end; lra.
Qed.

Lemma ageFactor_bounds :
  0 <= calculateYearsActive now (date_of_incorporation c) ->
  0 <= snd (ageFactor now c) <= 25.
Proof.
  intros Hy. unfold ageFactor, ageScore. cbn [snd].
  destruct (Math_min_spec 25 (calculateYearsActive now (date_of_incorporation c) * (833 # 100)))
    as [[H ->]|[H ->]]; lra.
Qed.

(** For a company whose incorporation date is not in the future the
    score stays inside 0..100. *)
Lemma score_in_range :
  0 <= calculateYearsActive now (date_of_incorporation c) ->
  0 <= score (calculateInvestmentScore now geocode c) <= 100.
Proof.
  intros Hy.
  pose proof (ageFactor_bounds Hy) as Ha.
  pose proof sizeFactor_bounds as Hs.
  pose proof microsoftFactor_bounds as Hm.
  pose proof (calculateLocationScore_bounds (locationDistance geocode c)) as Hl.
  unfold calculateInvestmentScore.
  destruct (ageFactor now c) as [y a]. destruct (microsoftFactor c) as [m ms].
  cbn [snd score] in *.
  assert (H := @round2_bounds
                 (0 + a + sizeScore (sizeFactor c) + ms
                  + calculateLocationScore (locationDistance geocode c)) 0 10000).
  qdiv. change (inject_Z 0) with 0 in H. change (inject_Z 10000) with 10000 in H.
  destruct H as [H1 H2]; [split; lra|]. split; lra.
Qed.

End ScorerFacts.

(** ** Age factor *)

Section AgeFacts.

Local Open Scope Q_scope.

Lemma ageScore_monotone (y1 y2 : Q) : y1 <= y2 -> ageScore y1 <= ageScore y2.
Proof.
  intros H. unfold ageScore.
  destruct (Math_min_spec 25 (y1 * (833 # 100))) as [[H1 ->]|[H1 ->]];
    destruct (Math_min_spec 25 (y2 * (833 # 100))) as [[H2 ->]|[H2 ->]]; lra.
Qed.

(** Full credit starts at 25 / 8.33 years, a little after three. *)
Lemma ageScore_full (y : Q) : 2500 # 833 <= y -> ageScore y = 25.
Proof.
  intros H. unfold ageScore, JS.Math_min.
  destruct (JS.le 25 (y * (833 # 100))) eqn:E; [reflexivity|].
  apply le_false in E. lra.
Qed.

Lemma ageScore_partial (y : Q) : y < 2500 # 833 -> ageScore y < 25.
Proof.
  intros H. unfold ageScore.
  destruct (Math_min_spec 25 (y * (833 # 100))) as [[H1 ->]|[H1 ->]]; lra.
Qed.

End AgeFacts.

(** C1.  The claim asks for a score in 0..100 for every record.  For a
    company whose incorporation date lies after the current time the age
    factor has no lower clamp: incorporated one year ahead, the record
    scores -8.33. *)
Theorem score_negative_for_future_incorporation :
  score (calculateInvestmentScore Sample.now2026 Sample.noGeocode Sample.futureCompany)
  == - (833 # 100)
  /\ score (calculateInvestmentScore Sample.now2026 Sample.noGeocode Sample.futureCompany) < 0.
Proof. split; vm_compute; reflexivity. Qed.

(** C2.  The claim puts full age credit at exactly three years.  A company
    that has been active for exactly three years of 365 days gets 24.99. *)
Theorem ageScore_at_three_years :
  value (ageEntry (calculateInvestmentScore Sample.now2026 Sample.noGeocode
                     Sample.threeYearCompany)) == 3
  /\ weight (ageEntry (calculateInvestmentScore Sample.now2026 Sample.noGeocode
                         Sample.threeYearCompany)) == 2499 # 100
  /\ weight (ageEntry (calculateInvestmentScore Sample.now2026 Sample.noGeocode
                         Sample.threeYearCompany)) < 25.
Proof. repeat split; vm_compute; reflexivity. Qed.

(** ** Size factor *)

Section SizeFacts.

Local Open Scope Q_scope.

Variable now : Z.
Variable geocode : string -> option Q.
Variable c : Company.

Lemma sizeEntry_eq :
  sizeEntry (calculateInvestmentScore now geocode c) = entryOf (sizeFactor c).
Proof.
  unfold calculateInvestmentScore.
  destruct (ageFactor now c) as [y a]. destruct (microsoftFactor c) as [m ms].
  reflexivity.
Qed.

Lemma step_keeps (tag : string) (v : option Q) (lo hi : Q) (st : SizeState) :
  ~ sizeScore st == 0 -> step tag v lo hi st = st.
Proof.
  intros H. unfold step.
  destruct (JS.eq (sizeScore st) 0) eqn:E; [|reflexivity].
  apply eq_spec in E. contradiction.
Qed.

Lemma step_takes (tag : string) (v : option Q) (lo hi : Q) (st : SizeState) :
  sizeScore st == 0 -> ~ creditOf v lo hi == 0 ->
  step tag v lo hi st
  = {| sizeScore := creditOf v lo hi; sizeValue := JS.num v; sizeType := tag |}.
Proof.
  intros Hz Hc. unfold step, creditOf, partialCredit in *.
  apply eq_spec in Hz. rewrite Hz. cbn [andb].
  destruct (JS.truthy v); [|exfalso; apply Hc; reflexivity].
  destruct (JS.lt (JS.num v) lo); [reflexivity|].
  destruct (JS.gt (JS.num v) hi); [reflexivity|].
  exfalso. apply Hc. reflexivity.
Qed.

Lemma step_passes (tag : string) (v : option Q) (lo hi : Q) (st : SizeState) :
  sizeScore st == 0 -> creditOf v lo hi == 0 -> sizeScore (step tag v lo hi st) == 0.
Proof.
  intros Hz Hc. unfold step, creditOf, partialCredit in *.
  destruct (JS.eq (sizeScore st) 0 && JS.truthy v) eqn:E; [|exact Hz].
  apply andb_prop in E. destruct E as [_ E]. rewrite E in Hc.
  destruct (JS.lt (JS.num v) lo); [exact Hc|].
  destruct (JS.gt (JS.num v) hi); [exact Hc|exact Hz].
Qed.

End SizeFacts.

Section SizePolicy.

Local Open Scope Q_scope.

Variable now : Z.
Variable geocode : string -> option Q.
Variable c : Company.

Let h := scorerHeadcount c.
Let r := revenue (financials c).
Let e := ebitda (financials c).
Let size := sizeEntry (calculateInvestmentScore now geocode c).

Lemma full_credit_employees :
  inBand h MIN_EMPLOYEES MAX_EMPLOYEES = true ->
  size = reported "employees" (JS.num h) 25.
Proof.
  intros H. unfold size. rewrite sizeEntry_eq, sizeFactor_unfold.
  fold h. rewrite H. reflexivity.
Qed.

Lemma full_credit_revenue :
  inBand h MIN_EMPLOYEES MAX_EMPLOYEES = false ->
  inBand r MIN_REVENUE MAX_REVENUE = true ->
  size = reported "revenue" (JS.num r) 25.
Proof.
  intros H1 H2. unfold size. rewrite sizeEntry_eq, sizeFactor_unfold.
  fold h r. rewrite H1, H2. reflexivity.
Qed.

Lemma full_credit_ebitda :
  inBand h MIN_EMPLOYEES MAX_EMPLOYEES = false ->
  inBand r MIN_REVENUE MAX_REVENUE = false ->
  inBand e MIN_EBITDA MAX_EBITDA = true ->
  size = reported "ebitda" (JS.num e) 25.
Proof.
  intros H1 H2 H3. unfold size. rewrite sizeEntry_eq, sizeFactor_unfold.
  fold h r e. rewrite H1, H2, H3. reflexivity.
Qed.

Lemma partial_credit_first_nonzero :
  inBand h MIN_EMPLOYEES MAX_EMPLOYEES = false ->
  inBand r MIN_REVENUE MAX_REVENUE = false ->
  inBand e MIN_EBITDA MAX_EBITDA = false ->
  let ch := creditOf h MIN_EMPLOYEES MAX_EMPLOYEES in
  let cr := creditOf r MIN_REVENUE MAX_REVENUE in
  let ce := creditOf e MIN_EBITDA MAX_EBITDA in
  (~ ch == 0 -> size = reported "employees" (JS.num h) ch)
  /\ (ch == 0 -> ~ cr == 0 -> size = reported "revenue" (JS.num r) cr)
  /\ (ch == 0 -> cr == 0 -> ~ ce == 0 -> size = reported "ebitda" (JS.num e) ce).
Proof.
  intros H1 H2 H3 ch cr ce. unfold size. rewrite sizeEntry_eq, sizeFactor_unfold.
  fold h r e. rewrite H1, H2, H3.
  set (st0 := {| sizeScore := 0; sizeValue := 0; sizeType := "none" |}).
  assert (Hz : sizeScore st0 == 0) by reflexivity.
  repeat split.
  - intros Hh.
    rewrite (step_takes "employees" h MIN_EMPLOYEES MAX_EMPLOYEES st0 Hz Hh).
    rewrite !step_keeps; [reflexivity|exact Hh|].
    rewrite step_keeps; exact Hh.
  - intros Hh Hr.
    pose proof (step_passes "employees" h MIN_EMPLOYEES MAX_EMPLOYEES st0 Hz Hh) as Hz1.
    rewrite (step_takes "revenue" r MIN_REVENUE MAX_REVENUE _ Hz1 Hr).
    rewrite step_keeps; [reflexivity|exact Hr].
  - intros Hh Hr He.
    pose proof (step_passes "employees" h MIN_EMPLOYEES MAX_EMPLOYEES st0 Hz Hh) as Hz1.
    pose proof (step_passes "revenue" r MIN_REVENUE MAX_REVENUE _ Hz1 Hr) as Hz2.
    rewrite (step_takes "ebitda" e MIN_EBITDA MAX_EBITDA _ Hz2 He).
    reflexivity.
Qed.

Lemma inBand_twenty (q : Q) : q == 20 -> inBand (Some q) MIN_EMPLOYEES MAX_EMPLOYEES = true.
Proof.
  intros H. unfold inBand, JS.truthy, JS.ge, JS.num, MIN_EMPLOYEES, MAX_EMPLOYEES.
  rewrite !andb_true_iff, negb_true_iff. repeat split.
  - destruct (JS.eq q 0) eqn:E; [|reflexivity]. apply eq_spec in E. lra.
  - apply le_spec. lra.
  - apply le_spec. lra.
Qed.

End SizePolicy.

(** C3, as worded.  With minus five employees on file and 1.5M revenue no
    band is satisfied and the worded formula gives the employee dimension
    the nonzero value -5, yet the entry reported is the revenue one. *)
Lemma stated_precedence_fails :
  ~ (inBand (scorerHeadcount Sample.negativeHeadcount) MIN_EMPLOYEES MAX_EMPLOYEES = false ->
     inBand (revenue (financials Sample.negativeHeadcount)) MIN_REVENUE MAX_REVENUE = false ->
     inBand (ebitda (financials Sample.negativeHeadcount)) MIN_EBITDA MAX_EBITDA = false ->
     ~ statedCredit (scorerHeadcount Sample.negativeHeadcount) MIN_EMPLOYEES MAX_EMPLOYEES == 0 ->
     factor (sizeEntry (calculateInvestmentScore Sample.now2026 Sample.noGeocode
                          Sample.negativeHeadcount))
     = "Size (employees)"%string).
Proof.
  intros H.
  assert (E : factor (sizeEntry (calculateInvestmentScore Sample.now2026 Sample.noGeocode
                                   Sample.negativeHeadcount))
              = "Size (revenue)"%string) by (vm_compute; reflexivity).
  rewrite E in H.
  assert (D : "Size (revenue)"%string <> "Size (employees)"%string) by discriminate.
  apply D, H; try reflexivity.
  vm_compute. discriminate.
Qed.

(** C3, amended.  The bands are tried in the order employees, revenue,
    EBITDA and the first one satisfied gives 25 under its own tag, so that
    20 employees always give 25 tagged employees.  When none is satisfied,
    the entry reported is the first dimension in the same order whose
    partial credit is nonzero, where the credit is clamped at zero on both
    sides: max(0, value/min * 15) below the band and
    max(0, 15 - (value-max)/max * 15) above it. *)
Theorem size_factor_precedence (now : Z) (geocode : string -> option Q) (c : Company) :
  let h := scorerHeadcount c in
  let r := revenue (financials c) in
  let e := ebitda (financials c) in
  let size := sizeEntry (calculateInvestmentScore now geocode c) in
  let ch := creditOf h MIN_EMPLOYEES MAX_EMPLOYEES in
  let cr := creditOf r MIN_REVENUE MAX_REVENUE in
  let ce := creditOf e MIN_EBITDA MAX_EBITDA in
  (inBand h MIN_EMPLOYEES MAX_EMPLOYEES = true -> size = reported "employees" (JS.num h) 25)
  /\ (inBand h MIN_EMPLOYEES MAX_EMPLOYEES = false ->
      inBand r MIN_REVENUE MAX_REVENUE = true ->
      size = reported "revenue" (JS.num r) 25)
  /\ (inBand h MIN_EMPLOYEES MAX_EMPLOYEES = false ->
      inBand r MIN_REVENUE MAX_REVENUE = false ->
      inBand e MIN_EBITDA MAX_EBITDA = true ->
      size = reported "ebitda" (JS.num e) 25)
  /\ (forall q, h = Some q -> q == 20 -> size = reported "employees" q 25)
  /\ (inBand h MIN_EMPLOYEES MAX_EMPLOYEES = false ->
      inBand r MIN_REVENUE MAX_REVENUE = false ->
      inBand e MIN_EBITDA MAX_EBITDA = false ->
      (~ ch == 0 -> size = reported "employees" (JS.num h) ch)
      /\ (ch == 0 -> ~ cr == 0 -> size = reported "revenue" (JS.num r) cr)
      /\ (ch == 0 -> cr == 0 -> ~ ce == 0 -> size = reported "ebitda" (JS.num e) ce)).
Proof.
  intros h r e size ch cr ce.
  split; [apply full_credit_employees|].
  split; [apply full_credit_revenue|].
  split; [apply full_credit_ebitda|].
  split; [|apply partial_credit_first_nonzero].
  intros q Hq H20. unfold size.
  pose proof (full_credit_employees now geocode c) as F.
  unfold h in Hq. rewrite Hq in F. apply F. now apply inBand_twenty.
Qed.

(** The precedence at work: twenty employees beat revenue and EBITDA far
    outside their bands, and ten employees (credit 10) hide the credit of
    1.5M revenue. *)
Lemma size_factor_precedence_witness :
  sizeEntry (calculateInvestmentScore Sample.now2026 Sample.noGeocode Sample.twentyEmployees)
  = reported "employees" 20 25
  /\ sizeEntry (calculateInvestmentScore Sample.now2026 Sample.noGeocode Sample.tenEmployees)
     = reported "employees" 10
         (creditOf (scorerHeadcount Sample.tenEmployees) MIN_EMPLOYEES MAX_EMPLOYEES).
Proof.
  split.
  - destruct (size_factor_precedence Sample.now2026 Sample.noGeocode Sample.twentyEmployees)
      as (F & _).
    apply F. reflexivity.
  - destruct (size_factor_precedence Sample.now2026 Sample.noGeocode Sample.tenEmployees)
      as (_ & _ & _ & _ & F).
    specialize (F eq_refl eq_refl eq_refl). destruct F as (F & _).
    apply F. vm_compute. discriminate.
Defined.

(** ** The MSP classifier *)

Section ClassifierFacts.

Local Open Scope Q_scope.

Lemma len_nonneg (A : Type) (l : list A) : 0 <= len l.
Proof.
  unfold len. change 0 with (inject_Z 0). rewrite <- Zle_Qle. lia.
Qed.

Lemma len_ge (A : Type) (l : list A) (n : nat) :
  (n <= List.length l)%nat -> inject_Z (Z.of_nat n) <= len l.
Proof.
  intros H. unfold len. rewrite <- Zle_Qle. lia.
Qed.

Variable c : Company.

Lemma contextPenalty_floor :
  (4 <= List.length (foundNegativeKeywords c))%nat -> contextPenalty c = 3 # 10.
Proof.
  intros H. apply len_ge in H. change (inject_Z (Z.of_nat 4)) with 4 in H.
  unfold contextPenalty.
  assert (G : JS.gt (len (foundNegativeKeywords c)) 0 = true) by (apply lt_spec; lra).
  rewrite G. unfold JS.Math_max.
  destruct (JS.le (3 # 10) (1 - len (foundNegativeKeywords c) * (2 # 10))) eqn:E;
    [|reflexivity].
  apply le_spec in E. lra.
Qed.

Lemma mspKeywordScore_under_floor :
  contextPenalty c = 3 # 10 -> mspKeywordScore c <= 9.
Proof.
  intros P. unfold mspKeywordScore. rewrite P.
  destruct (Math_min_spec 30 (len (foundMspKeywords c) / len mspKeywords * 30))
    as [[H ->]|[H ->]]; lra.
Qed.

Lemma confidence_gate :
  confidence (analyzeMSPLikelihood c)
  = if JS.ge (classifierTotal c) 30 then high
    else if JS.ge (classifierTotal c) 15
            && JS.ge (contextPenalty c)
                 (if JS.gt (len (foundNegativeKeywords c)) 0 then 6 # 10 else 3 # 10)
    then medium
    else low.
Proof.
  unfold analyzeMSPLikelihood, classifierTotal. cbn [confidence].
  destruct (hasItSic c); reflexivity.
Qed.

End ClassifierFacts.


(** C4.  With four or more negative-context matches the penalty is exactly
    0.3, and when the MSP-keyword category is the only one that
    contributes, the confidence is not [high]: the keyword contribution is
    capped at 30 before the penalty applies. *)
Theorem negative_context_caps_confidence (c : Company) :
  (4 <= List.length (foundNegativeKeywords c))%nat ->
  contextPenalty c = 3 # 10
  /\ (serviceScore c == 0 -> techScore c == 0 -> descriptionScore c == 0 ->
      hasItSic c = false ->
      confidence (analyzeMSPLikelihood c) <> high).
Proof.
  intros H. pose proof (contextPenalty_floor c H) as P. split; [exact P|].
  intros Hs Ht Hd Hsic.
  pose proof (mspKeywordScore_under_floor c P) as Hk.
  assert (T : classifierTotal c <= 9) by (unfold classifierTotal; rewrite Hsic; lra).
  rewrite confidence_gate.
  destruct (JS.ge (classifierTotal c) 30) eqn:E.
  - apply le_spec in E. lra.
  - destruct (_ && _); discriminate.
Qed.

Lemma negative_context_caps_confidence_witness :
  contextPenalty Sample.softwareHouse = 3 # 10
  /\ confidence (analyzeMSPLikelihood Sample.softwareHouse) <> high.
Proof.
  assert (H : (4 <= List.length (foundNegativeKeywords Sample.softwareHouse))%nat)
    by (vm_compute; lia).
  destruct (negative_context_caps_confidence Sample.softwareHouse H) as [P C].
  split; [exact P|]. apply C; reflexivity.
Defined.

Section EmptyEnrichment.

Local Open Scope string_scope.

Lemma filter_none (A : Type) (f : A -> bool) (l : list A) :
  (forall x, In x l -> f x = false) -> filter f l = [].
Proof.
  induction l as [|x l IH]; intros H; [reflexivity|].
  cbn. rewrite (H x (or_introl Logic.eq_refl)). apply IH.
  intros y Hy. apply H. now right.
Qed.

Lemma vocabulary_plain : forallb plainPhrase (negativeKeywords ++ mspKeywords) = true.
Proof. vm_compute. reflexivity. Qed.

Lemma includes_after_space (s k : string) :
  plainPhrase k = true -> JS.includes (String " " s) (JS.toLowerCase k) = JS.includes s k.
Proof.
  unfold plainPhrase. intros H. apply andb_prop in H. destruct H as [Hl Hs].
  apply String.eqb_eq in Hl. rewrite Hl.
  destruct k as [|a k]; [discriminate|].
  apply negb_true_iff, Ascii.eqb_neq in Hs.
  cbn [JS.includes String.prefix].
  destruct (ascii_dec a " ") as [->|_]; [contradiction|]. reflexivity.
Qed.

Variable c : Company.

Hypothesis no_keywords : keywords c = [].
Hypothesis no_services : declaredServices c = [].
Hypothesis no_tech : techStack c = [].
Hypothesis no_description : description c = "".

Lemma allText_empty : allText c = String " " (JS.toLowerCase (company_name c)).
Proof.
  unfold allText. rewrite no_keywords, no_services, no_tech, no_description.
  reflexivity.
Qed.

Hypothesis neutral_name :
  forall k, In k (negativeKeywords ++ mspKeywords) ->
            JS.includes (JS.toLowerCase (company_name c)) k = false.

Lemma no_match_in_name (k : string) :
  In k (negativeKeywords ++ mspKeywords) ->
  JS.includes (allText c) (JS.toLowerCase k) = false.
Proof.
  intros Hk. rewrite allText_empty, includes_after_space.
  - now apply neutral_name.
  - pose proof vocabulary_plain as V. rewrite forallb_forall in V. now apply V.
Qed.

Lemma foundNegativeKeywords_empty : foundNegativeKeywords c = [].
Proof.
  apply filter_none. intros k Hk. apply no_match_in_name, in_or_app. now left.
Qed.

Lemma foundMspKeywords_empty : foundMspKeywords c = [].
Proof.
  apply filter_none. intros k Hk. apply no_match_in_name, in_or_app. now right.
Qed.

Hypothesis no_it_sic : hasItSic c = false.

Lemma analyze_empty :
  analyzeMSPLikelihood c
  = {| msp_score := JS.Math_round (0 + 0 * 1 + 0 + 0 + 0);
       confidence := low;
       indicators :=
         map (fun cat => {| category := cat; found := false; evidence := [] |})
           ["Negative Keywords (non-MSP indicators)"; "MSP Keywords"; "MSP Services";
            "IT Infrastructure Technology"; "Business Description";
            "SIC Code (IT Services)"; "Specialized MSP (not full-service)"] |}.
Proof.
  unfold analyzeMSPLikelihood, mspKeywordScore, contextPenalty, serviceScore, techScore,
    descriptionScore, descriptionMatches, isSpecializedMSP, foundServices, foundInfraTech.
  rewrite foundNegativeKeywords_empty, foundMspKeywords_empty, no_services, no_tech,
    no_description, no_it_sic.
  vm_compute. reflexivity.
Qed.

End EmptyEnrichment.

(** C5, as worded.  A record with no enrichment at all and the SIC code
    62020 scores 10, and its SIC indicator is found. *)
Lemma empty_enrichment_can_score :
  ~ (keywords Sample.bareItCompany = [] ->
     declaredServices Sample.bareItCompany = [] ->
     techStack Sample.bareItCompany = [] ->
     description Sample.bareItCompany = ""%string ->
     msp_score (analyzeMSPLikelihood Sample.bareItCompany) == 0
     /\ confidence (analyzeMSPLikelihood Sample.bareItCompany) = low
     /\ Forall (fun i => found i = false) (indicators (analyzeMSPLikelihood Sample.bareItCompany))).
Proof.
  intros H. destruct (H Logic.eq_refl Logic.eq_refl Logic.eq_refl Logic.eq_refl) as [Hs _].
  vm_compute in Hs. discriminate.
Qed.

(** C5, amended.  When the keyword, service and technology lists and the
    description are empty, the company name contains no phrase of the
    negative or MSP-keyword vocabulary and no SIC code contains 62020 or
    62090, the classifier returns score 0, confidence low and every
    indicator unfound. *)
Theorem empty_enrichment_scores_zero (c : Company) :
  keywords c = [] ->
  declaredServices c = [] ->
  techStack c = [] ->
  description c = ""%string ->
  (forall k, In k (negativeKeywords ++ mspKeywords) ->
             JS.includes (JS.toLowerCase (company_name c)) k = false) ->
  hasItSic c = false ->
  msp_score (analyzeMSPLikelihood c) == 0
  /\ confidence (analyzeMSPLikelihood c) = low
  /\ Forall (fun i => found i = false) (indicators (analyzeMSPLikelihood c)).
Proof.
  intros Hk Hs Ht Hd Hn Hsic.
  rewrite (@analyze_empty c Hk Hs Ht Hd Hn Hsic). cbn [msp_score confidence indicators].
  split; [vm_compute; reflexivity|]. split; [reflexivity|].
  repeat constructor.
Qed.

Lemma empty_enrichment_scores_zero_witness :
  msp_score (analyzeMSPLikelihood Sample.bareCompany) == 0
  /\ confidence (analyzeMSPLikelihood Sample.bareCompany) = low
  /\ Forall (fun i => found i = false) (indicators (analyzeMSPLikelihood Sample.bareCompany)).
Proof.
  apply (empty_enrichment_scores_zero Sample.bareCompany); try reflexivity.
  intros k Hk.
  assert (V : forallb
                (fun k =>
                   negb (JS.includes (JS.toLowerCase (company_name Sample.bareCompany)) k))
                (negativeKeywords ++ mspKeywords) = true) by (vm_compute; reflexivity).
  rewrite forallb_forall in V. apply negb_true_iff. now apply V.
Defined.

(** ** The thesis matcher *)

Section MatcherFacts.

Local Open Scope Q_scope.

Variable now : Z.
Variable c : Company.

Lemma matches_unfold :
  matches (matchesThesisCriteria now c)
  = if negb (sizeProfileMet c) && hasAnyData c then false
    else if negb (hasTargetSic c) then false
    else if negb (noInsolvencyMet c) then false
    else if negb (activeMet c) then false
    else if negb (ageMet now c) then false
    else true.
Proof. reflexivity. Qed.

Lemma matches_conjunction :
  matches (matchesThesisCriteria now c)
  = ageMet now c && activeMet c && noInsolvencyMet c && hasTargetSic c
    && sizeProfileMetOrNoData c.
Proof.
  rewrite matches_unfold. unfold sizeProfileMetOrNoData.
  destruct (sizeProfileMet c), (hasAnyData c), (hasTargetSic c), (noInsolvencyMet c),
    (activeMet c), (ageMet now c); reflexivity.
Qed.

Lemma met_age :
  metOf "Company Age (3+ years)" (matchesThesisCriteria now c) = ageMet now c.
Proof. reflexivity. Qed.

Lemma met_active : metOf "Active Status" (matchesThesisCriteria now c) = activeMet c.
Proof. reflexivity. Qed.

Lemma met_insolvency :
  metOf "No Insolvency History" (matchesThesisCriteria now c) = noInsolvencyMet c.
Proof. reflexivity. Qed.

Lemma met_sic :
  metOf "SIC Code (62020/62090)" (matchesThesisCriteria now c) = hasTargetSic c.
Proof. reflexivity. Qed.

Lemma met_size :
  metOf "Size Profile (EBITDA OR Revenue OR Employees)" (matchesThesisCriteria now c)
  = sizeProfileMetOrNoData c.
Proof. reflexivity. Qed.

Lemma met_microsoft :
  metOf "Microsoft Stack (Preferred)" (matchesThesisCriteria now c) = hasMicrosoftStack c.
Proof. reflexivity. Qed.

Lemma young_company_fails :
  calculateYearsActive now (date_of_incorporation c) < 3 ->
  matches (matchesThesisCriteria now c) = false.
Proof.
  intros H. rewrite matches_conjunction.
  assert (A : ageMet now c = false) by (apply le_false; exact H).
  rewrite A. reflexivity.
Qed.

Lemma two_years_active :
  (now - date_of_incorporation c = 2 * MILLISECONDS_PER_YEAR)%Z ->
  calculateYearsActive now (date_of_incorporation c) == 2.
Proof.
  intros H. unfold calculateYearsActive. rewrite H. reflexivity.
Qed.

End MatcherFacts.

(** ** Size profile of the matcher against the bands of the scorer *)

Section BandFacts.

Local Open Scope Q_scope.

(** The scorer gives 25 for size exactly when one of its three band
    guards holds. *)
Lemma scorerInBand_bands (c : Company) :
  scorerInBand c
  = inBand (scorerHeadcount c) MIN_EMPLOYEES MAX_EMPLOYEES
    || inBand (revenue (financials c)) MIN_REVENUE MAX_REVENUE
    || inBand (ebitda (financials c)) MIN_EBITDA MAX_EBITDA.
Proof.
  unfold scorerInBand. rewrite sizeFactor_unfold.
  destruct (inBand (scorerHeadcount c) _ _); [reflexivity|].
  destruct (inBand (revenue (financials c)) _ _); [reflexivity|].
  destruct (inBand (ebitda (financials c)) _ _); [reflexivity|].
  cbn [orb].
  pose proof (partial_branch_bounds c) as B.
  match goal with
  | |- JS.eq ?s 25 = false =>
      destruct (JS.eq s 25) eqn:E; [apply eq_spec in E; lra|reflexivity]
  end.
Qed.

(** [v || 0] lies in a band of positive bounds exactly when [v] passes
    the guard of the scorer. *)
Lemma range_or_zero (v : option Q) (lo hi : Q) :
  0 < lo ->
  JS.ge (JS.num (JS.or v (Some 0))) lo && JS.le (JS.num (JS.or v (Some 0))) hi
  = inBand v lo hi.
Proof.
  intros Hlo. unfold inBand, JS.or.
  destruct (JS.truthy v); [reflexivity|].
  cbn [JS.num andb].
  assert (G : JS.ge 0 lo = false) by (apply le_false; exact Hlo).
  rewrite G. reflexivity.
Qed.

Lemma inBand_falsy (v w : option Q) (lo hi : Q) :
  JS.truthy v = false -> JS.truthy w = false -> inBand v lo hi = inBand w lo hi.
Proof. intros Hv Hw. unfold inBand. rewrite Hv, Hw. reflexivity. Qed.

Variable c : Company.

Lemma sizeProfileMet_bands :
  sizeProfileMet c = scorerInBand (withProfitAsEbitda c).
Proof.
  rewrite scorerInBand_bands. unfold sizeProfileMet, ebitdaInRange, revenueInRange,
    employeesInRange, thesisEbitda, thesisRevenue, thesisEmployees.
  rewrite !range_or_zero by reflexivity.
  change (scorerHeadcount (withProfitAsEbitda c)) with (scorerHeadcount c).
  change (revenue (financials (withProfitAsEbitda c))) with (revenue (financials c)).
  change (ebitda (financials (withProfitAsEbitda c)))
    with (JS.or (ebitda (financials c)) (profit (financials c))).
  unfold scorerHeadcount.
  destruct (inBand (JS.or (ebitda (financials c)) (profit (financials c))) _ _),
    (inBand (revenue (financials c)) _ _),
    (inBand (JS.or (employees (financials c)) (headcount (enrichment c))) _ _);
    reflexivity.
Qed.

Lemma profit_not_used :
  JS.truthy (ebitda (financials c)) = true \/ JS.truthy (profit (financials c)) = false ->
  scorerInBand (withProfitAsEbitda c) = scorerInBand c.
Proof.
  intros H. rewrite !scorerInBand_bands.
  change (scorerHeadcount (withProfitAsEbitda c)) with (scorerHeadcount c).
  change (revenue (financials (withProfitAsEbitda c))) with (revenue (financials c)).
  change (ebitda (financials (withProfitAsEbitda c)))
    with (JS.or (ebitda (financials c)) (profit (financials c))).
  f_equal. unfold JS.or.
  destruct (JS.truthy (ebitda (financials c))) eqn:E; [reflexivity|].
  destruct H as [H|H]; [discriminate|].
  now apply inBand_falsy.
Qed.

(** [v || 0] is above zero exactly when [v] is on file and above zero. *)
Lemma positive_or_zero (v : option Q) : JS.gt (JS.num (JS.or v (Some 0))) 0 = positive v.
Proof.
  unfold JS.or, positive. destruct v as [q|]; [|reflexivity]. cbn [JS.truthy].
  destruct (JS.eq q 0) eqn:E; [|reflexivity]. cbn [negb JS.num].
  apply eq_spec in E. symmetry. apply lt_false. rewrite E. apply Qle_refl.
Qed.

Lemma hasAnyData_positive : hasAnyData c = negb (noPositiveSize c).
Proof.
  unfold hasAnyData, noPositiveSize, thesisEbitda, thesisRevenue, thesisEmployees.
  rewrite !positive_or_zero.
  destruct (positive (JS.or (ebitda (financials c)) (profit (financials c)))),
    (positive (revenue (financials c))),
    (positive (JS.or (employees (financials c)) (headcount (enrichment c))));
    reflexivity.
Qed.

Lemma sizeProfileMet_inSomeBand : sizeProfileMet c = inSomeBand c.
Proof.
  unfold sizeProfileMet, inSomeBand, ebitdaInRange, revenueInRange, employeesInRange,
    thesisEbitda, thesisRevenue, thesisEmployees.
  rewrite !range_or_zero by reflexivity. reflexivity.
Qed.
End BandFacts.

(** C6, as worded.  With no EBITDA on file, a profit of 700k and 10M
    revenue the company has size data and the scorer finds no band
    satisfied, yet criterion 5 is met: the matcher reads the profit where
    EBITDA is missing. *)
Lemma size_profile_differs_from_scorer_bands :
  metOf "Size Profile (EBITDA OR Revenue OR Employees)"
    (matchesThesisCriteria Sample.now2026 Sample.profitOnly)
  <> scorerInBand Sample.profitOnly || noSizeData Sample.profitOnly.
Proof. vm_compute. discriminate. Qed.

(** C6, amended.  Criterion 5 applies the three band guards of the scorer,
    with the same bounds, to the same revenue and employee fields and to
    [ebitda || profit] in place of EBITDA; it also passes when none of the
    three values it reads (EBITDA or else profit, revenue, employee count
    or else head count) is above zero.  Whenever EBITDA is present and
    nonzero, or profit is absent or zero, its band test is the one of the
    scorer. *)
Theorem size_profile_is_scorer_bands_on_profit_proxy (now : Z) (c : Company) :
  metOf "Size Profile (EBITDA OR Revenue OR Employees)" (matchesThesisCriteria now c)
  = scorerInBand (withProfitAsEbitda c) || noPositiveSize c
  /\ (noPositiveSize c = true ->
      metOf "Size Profile (EBITDA OR Revenue OR Employees)" (matchesThesisCriteria now c)
      = true)
  /\ hasAnyData c = negb (noPositiveSize c)
  /\ sizeProfileMet c = scorerInBand (withProfitAsEbitda c)
  /\ (JS.truthy (ebitda (financials c)) = true \/ JS.truthy (profit (financials c)) = false ->
      sizeProfileMet c = scorerInBand c).
Proof.
  rewrite met_size. unfold sizeProfileMetOrNoData.
  rewrite (sizeProfileMet_bands c), (hasAnyData_positive c), negb_involutive.
  split; [reflexivity|]. split; [intros N; rewrite N; apply orb_true_r|].
  split; [reflexivity|]. split; [reflexivity|].
  intros H. now apply profit_not_used.
Qed.

(** With 800k EBITDA on file the profit is not read and both tests find
    the EBITDA band satisfied. *)
Lemma size_profile_is_scorer_bands_on_profit_proxy_witness :
  sizeProfileMet Sample.ebitdaOnFile = scorerInBand Sample.ebitdaOnFile.
Proof.
  destruct (size_profile_is_scorer_bands_on_profit_proxy Sample.now2026 Sample.ebitdaOnFile)
    as (_ & _ & _ & _ & F).
  apply F. left. reflexivity.
Defined.

(** The rows of the report and what each of the five gating ones tests. *)
Section MatcherRows.

Local Open Scope Q_scope.

Variable now : Z.
Variable c : Company.

Lemma criteria_names : map name (criteria (matchesThesisCriteria now c)) = criteriaNames.
Proof. reflexivity. Qed.

Lemma ageMet_spec :
  ageMet now c = true <-> 3 <= calculateYearsActive now (date_of_incorporation c).
Proof. unfold ageMet, JS.ge. apply le_spec. Qed.

Lemma activeMet_spec : activeMet c = true <-> company_status c = Some "active"%string.
Proof.
  unfold activeMet. destruct (company_status c) as [s|]; [|split; discriminate].
  rewrite String.eqb_eq. split; [now intros ->|now intros [= ->]].
Qed.

Lemma noInsolvencyMet_spec :
  noInsolvencyMet c = true
  <-> has_insolvency_history c <> Some true /\ has_been_liquidated c <> Some true.
Proof.
  unfold noInsolvencyMet, notFlag.
  destruct (has_insolvency_history c) as [[|]|], (has_been_liquidated c) as [[|]|]; cbn;
    split; try discriminate; try (intros _; split; discriminate);
    intros [A B]; exfalso; (now apply A) || (now apply B).
Qed.

Lemma hasTargetSic_spec :
  hasTargetSic c = true
  <-> exists code,
        In code (sic_codes c)
        /\ (JS.trim (JS.split_space_first code) = "62020"%string
            \/ JS.trim (JS.split_space_first code) = "62090"%string
            \/ JS.startsWith code "62020" = true
            \/ JS.startsWith code "62090" = true).
Proof.
  unfold hasTargetSic. rewrite existsb_exists.
  split; intros [code [I T]]; exists code; (split; [exact I|]).
  - unfold isTargetSic in T. cbn [existsb TARGET_SIC_CODES] in T.
    rewrite orb_false_r, !orb_true_iff, !String.eqb_eq in T.
    destruct T as [[[T|T]|T]|T]; auto.
  - unfold isTargetSic. cbn [existsb TARGET_SIC_CODES].
    rewrite orb_false_r, !orb_true_iff, !String.eqb_eq.
    destruct T as [T|[T|[T|T]]]; auto.
Qed.

End MatcherRows.

(** C7.  The report holds the nine rows named, and the verdict is the
    conjunction of the first four and the size-profile row.  Each of the
    five is the test the claim names: at least three years active, status
    equal to active, neither insolvency history nor liquidation flagged,
    some SIC code that is or starts with 62020 or 62090, and a size
    profile that is in one of the three bands or has no value above zero.
    The verdict is positive exactly when the five tests hold; the
    technology list, which only the last row reads, has no effect on it;
    and two years after incorporation it is negative. *)
Theorem matches_is_conjunction_of_criteria_1_to_5 (now : Z) (c : Company) :
  let r := matchesThesisCriteria now c in
  let age := 3 <= calculateYearsActive now (date_of_incorporation c) in
  let active := company_status c = Some "active"%string in
  let clean := has_insolvency_history c <> Some true /\ has_been_liquidated c <> Some true in
  let sic :=
    exists code,
      In code (sic_codes c)
      /\ (JS.trim (JS.split_space_first code) = "62020"%string
          \/ JS.trim (JS.split_space_first code) = "62090"%string
          \/ JS.startsWith code "62020" = true
          \/ JS.startsWith code "62090" = true) in
  let size := inSomeBand c || noPositiveSize c = true in
  map name (criteria r) = criteriaNames
  /\ matches r
     = metOf "Company Age (3+ years)" r
       && metOf "Active Status" r
       && metOf "No Insolvency History" r
       && metOf "SIC Code (62020/62090)" r
       && metOf "Size Profile (EBITDA OR Revenue OR Employees)" r
  /\ (metOf "Company Age (3+ years)" r = true <-> age)
  /\ (metOf "Active Status" r = true <-> active)
  /\ (metOf "No Insolvency History" r = true <-> clean)
  /\ (metOf "SIC Code (62020/62090)" r = true <-> sic)
  /\ (metOf "Size Profile (EBITDA OR Revenue OR Employees)" r = true <-> size)
  /\ (matches r = true <-> age /\ active /\ clean /\ sic /\ size)
  /\ metOf "Company Age (3+ years)" r
     = JS.ge (calculateYearsActive now (date_of_incorporation c)) 3
  /\ metOf "Size Profile (EBITDA OR Revenue OR Employees)" r
     = sizeProfileMet c || negb (hasAnyData c)
  /\ (forall ts, matches (matchesThesisCriteria now (withTechStack ts c)) = matches r)
  /\ (calculateYearsActive now (date_of_incorporation c) < 3 -> matches r = false)
  /\ ((now - date_of_incorporation c = 2 * MILLISECONDS_PER_YEAR)%Z -> matches r = false).
Proof.
  intros r age active clean sic size. unfold r, age, active, clean, sic, size.
  rewrite met_age, met_active, met_insolvency, met_sic, met_size.
  assert (S : sizeProfileMetOrNoData c = true <-> inSomeBand c || noPositiveSize c = true).
  { unfold sizeProfileMetOrNoData.
    rewrite (sizeProfileMet_inSomeBand c), (hasAnyData_positive c), negb_involutive.
    reflexivity. }
  split; [apply criteria_names|].
  split; [apply matches_conjunction|].
  split; [apply ageMet_spec|]. split; [apply activeMet_spec|].
  split; [apply noInsolvencyMet_spec|]. split; [apply hasTargetSic_spec|].
  split; [exact S|].
  split.
  { rewrite matches_conjunction, !andb_true_iff.
    rewrite ageMet_spec, activeMet_spec, noInsolvencyMet_spec, hasTargetSic_spec, S.
    tauto. }
  split; [reflexivity|]. split; [reflexivity|]. split; [|split].
  - intros ts. rewrite !matches_conjunction. reflexivity.
  - apply young_company_fails.
  - intros H. apply young_company_fails.
    rewrite (two_years_active now c H). reflexivity.
Qed.

(** A company incorporated on 2024-01-02 is 730 days old on 2026-01-01
    and fails although it is active, clean and has a target SIC code; the
    same company incorporated ten years before passes. *)
Lemma matches_is_conjunction_of_criteria_1_to_5_witness :
  matches (matchesThesisCriteria Sample.now2026 Sample.twoYearCompany) = false
  /\ matches (matchesThesisCriteria Sample.now2026 Sample.bareItCompany) = true.
Proof.
  split.
  - destruct (matches_is_conjunction_of_criteria_1_to_5 Sample.now2026 Sample.twoYearCompany)
      as (_ & _ & _ & _ & _ & _ & _ & _ & _ & _ & _ & _ & F).
    apply F. reflexivity.
  - destruct (matches_is_conjunction_of_criteria_1_to_5 Sample.now2026 Sample.bareItCompany)
      as (_ & _ & _ & _ & _ & _ & _ & F & _).
    apply F. split; [vm_compute; discriminate|]. split; [reflexivity|].
    split; [split; discriminate|]. split; [|reflexivity].
    exists "62020 - Information technology consultancy activities"%string.
    split; [left; reflexivity|]. left. reflexivity.
Defined.

(** ** The trend calculator *)

Section TrendFacts.

Import FinancialExtraction.

Variable real_pow : Q -> Q -> Q.





Lemma get_set_same (key : string) (v : TrendValue) (o : Trends) :
  get key (set key v o) = Some v.
Proof.
  induction o as [|[k w] o IH]; cbn.
  - now rewrite String.eqb_refl.
  - destruct (String.eqb k key) eqn:E; cbn; rewrite E; [reflexivity|exact IH].
Qed.

(** A quotient below zero under the guard stores [NaN]. *)
Lemma cagr_NaN (key : string) (latest threeYearsAgo : JS.Nullish Q) (trends : Trends) :
  JS.truthyN latest = true -> JS.truthyN threeYearsAgo = true ->
  JS.numN latest / JS.numN threeYearsAgo < 0 ->
  get key (cagr real_pow key 3 latest threeYearsAgo trends) = Some (Num JS.NaN).
Proof.
  intros Hl Ht Hq. unfold cagr. rewrite Hl, Ht. cbn [andb].
  rewrite get_set_same. unfold JS.Math_pow.
  apply lt_spec in Hq. rewrite Hq. reflexivity.
Qed.

End TrendFacts.

(** C8.  The claim has the CAGR field omitted unless the earlier value is
    positive, and never [NaN].  The guard of the code is truthiness alone:
    with a loss of 50 three periods back and a profit of 100 in the latest
    one the quotient is -2 and the profit CAGR is stored as [NaN]. *)
Theorem profit_cagr_is_NaN_after_a_loss (real_pow : Q -> Q -> Q) :
  FinancialExtraction.get "profit_growth_3y_cagr"
    (fst (FinancialExtraction.calculateTrends real_pow 0%nat [Sample.lossThenProfit]))
  = Some (FinancialExtraction.Num JS.NaN).
Proof. vm_compute. reflexivity. Qed.

(** C10.  For an empty list of records the calculator returns the empty
    object: no field can be read from it, and the heap is as it was. *)
Theorem no_trends_for_no_records (real_pow : Q -> Q -> Q)
    (annualData : FinancialExtraction.Ref) (h : FinancialExtraction.Heap) :
  nth annualData h [] = [] ->
  FinancialExtraction.calculateTrends real_pow annualData h = ([], h)
  /\ forall key,
       FinancialExtraction.get key
         (fst (FinancialExtraction.calculateTrends real_pow annualData h)) = None.
Proof.
  intros H.
  assert (E : FinancialExtraction.calculateTrends real_pow annualData h = ([], h)).
  { unfold FinancialExtraction.calculateTrends, FinancialExtraction.bind,
      FinancialExtraction.deref.
    rewrite H. reflexivity. }
  split; [exact E|]. intros key. rewrite E. reflexivity.
Qed.

Lemma no_trends_for_no_records_witness :
  FinancialExtraction.calculateTrends (fun _ _ => 1) 0%nat [[]] = ([], [[]]).
Proof.
  apply (no_trends_for_no_records (fun _ _ => 1) 0%nat [[]]). reflexivity.
Defined.

(** ** What the four computations read and leave alone *)


(** What the loop of [computeAndStoreScores] does to the store: the record
    behind the reference gets its score block, every other record stays. *)
Lemma computeAndStoreScoreOn_store (now : Z) (geocode : string -> option Q)
    (company : Objects.Ref) (st : Objects.Store) :
  snd (computeAndStoreScoreOn now geocode company st) company
  = computeAndStoreScore now geocode (st company)
  /\ forall other, other <> company ->
       snd (computeAndStoreScoreOn now geocode company st) other = st other.
Proof.
  unfold computeAndStoreScoreOn, calculateInvestmentScoreOn, Objects.bind, Objects.read,
    Objects.ret, Objects.assign. cbn [snd]. split.
  - rewrite Nat.eqb_refl. reflexivity.
  - intros other H. apply Nat.eqb_neq in H. rewrite H. reflexivity.
Qed.



(* ================================================================== *)
(** * Further properties *)

(** ** Location *)

(** X1.  The location score never rises with the distance. *)
Theorem location_score_never_rises (d1 d2 : Q) :
  d1 <= d2 -> calculateLocationScore (Some d2) <= calculateLocationScore (Some d1).
Proof.
  intros H. unfold calculateLocationScore.
  repeat match goal with
         | |- context [JS.le ?a ?b] =>
             let E := fresh "E" in
             destruct (JS.le a b) eqn:E; [apply le_spec in E|apply le_false in E]
         end; lra.
Qed.

Lemma location_score_never_rises_witness :
  calculateLocationScore (Some 120) <= calculateLocationScore (Some (49 # 2)).
Proof. apply location_score_never_rises. vm_compute. discriminate. Defined.

(** X2.  The location score follows the six distance bands with every
    upper end inclusive: 25 up to 25 km, 20 up to 50 km, 15 up to 100 km,
    10 up to 150 km, 5 up to 200 km (exactly 200 km still earns 5) and 0
    beyond; a distance that could not be resolved scores 0 as well. *)
Theorem location_score_ends (d : Q) :
  (calculateLocationScore (Some d) == 25 <-> d <= 25)
  /\ (calculateLocationScore (Some d) == 20 <-> 25 < d <= 50)
  /\ (calculateLocationScore (Some d) == 15 <-> 50 < d <= 100)
  /\ (calculateLocationScore (Some d) == 10 <-> 100 < d <= 150)
  /\ (calculateLocationScore (Some d) == 5 <-> 150 < d <= 200)
  /\ (calculateLocationScore (Some d) == 0 <-> 200 < d)
  /\ (0 <= calculateLocationScore (Some d) <= 25)
  /\ calculateLocationScore (Some 200) == 5
  /\ calculateLocationScore None == 0.
Proof.
  unfold calculateLocationScore.
  repeat match goal with
         | |- context [JS.le d ?b] =>
             let E := fresh "E" in
             destruct (JS.le d b) eqn:E; [apply le_spec in E|apply le_false in E]
         end;
    (split; [|split; [|split; [|split; [|split; [|split; [|split; [|split]]]]]]]);
    try reflexivity; try lra; split; intros G; lra.
Qed.

(** X3.  A formatted address that is not empty decides the lookup alone:
    the structured address is not read, and when the formatted one has
    more than white space the resolver is asked for it with ", UK"
    appended. *)
Theorem formatted_address_takes_precedence (geocode : string -> option Q) (address : string)
    (structured1 structured2 : option Address) :
  JS.truthyS address = true ->
  getDistanceFromLondon geocode (Some address) structured1
  = getDistanceFromLondon geocode (Some address) structured2
  /\ (JS.truthyS (JS.trim address) = true ->
      getDistanceFromLondon geocode (Some address) structured1
      = geocode (address ++ ", UK")%string).
Proof.
  intros H. unfold getDistanceFromLondon. cbn [JS.truthyOS JS.str]. rewrite H. cbn [negb andb].
  split.
  - destruct structured1, structured2; reflexivity.
  - intros T. destruct structured1; rewrite T; reflexivity.
Qed.

Lemma formatted_address_takes_precedence_witness :
  getDistanceFromLondon Sample2.nearGeocode (Some "1 High Street, Reading"%string) None
  = Some (2504 # 100).
Proof.
  destruct (formatted_address_takes_precedence Sample2.nearGeocode
              "1 High Street, Reading" None None) as [_ F]; [reflexivity|].
  rewrite F; reflexivity.
Defined.

(** X4.  Without a usable address no lookup is made, whatever the
    resolver: neither address given, a formatted address of white space
    only (even next to a filled structured address), or a structured
    address whose six fields are all empty. *)
Theorem no_lookup_without_address (geocode : string -> option Q) :
  (forall address, JS.truthyOS address = false ->
                   getDistanceFromLondon geocode address None = None)
  /\ (forall address structured,
        JS.truthyS address = true -> JS.trim address = ""%string ->
        getDistanceFromLondon geocode (Some address) structured = None)
  /\ (forall address a,
        JS.truthyOS address = false ->
        filter JS.truthyOS
          [address_line_1 a; address_line_2 a; locality a; postal_code a; region a; country a]
        = [] ->
        getDistanceFromLondon geocode address (Some a) = None).
Proof.
  split; [|split].
  - intros address H. unfold getDistanceFromLondon. rewrite H. reflexivity.
  - intros address structured H T. unfold getDistanceFromLondon.
    cbn [JS.truthyOS JS.str]. rewrite H. cbn [negb andb].
    destruct structured; rewrite T; reflexivity.
  - intros address a H E. unfold getDistanceFromLondon.
    rewrite H, E. reflexivity.
Qed.

Lemma no_lookup_without_address_witness :
  getDistanceFromLondon Sample2.nearGeocode (Some "   "%string)
    (Some {| address_line_1 := Some "1 High Street"%string; address_line_2 := None;
             locality := Some "Reading"%string; postal_code := None; region := None;
             country := None |})
  = None.
Proof.
  destruct (no_lookup_without_address Sample2.nearGeocode) as (_ & F & _).
  apply F; reflexivity.
Defined.

(** ** The attractiveness scorer *)

Section ScorerMore.

Variable now : Z.
Variable c : Company.

Lemma locationEntry_eq (geocode : string -> option Q) :
  locationEntry (calculateInvestmentScore now geocode c)
  = {| factor := "Location (distance from London)";
       value := match locationDistance geocode c with
                | Some d => JS.Math_round (d * 10) / 10
                | None => 0
                end;
       weight := calculateLocationScore (locationDistance geocode c) |}.
Proof.
  unfold calculateInvestmentScore.
  destruct (ageFactor now c) as [y a]. destruct (microsoftFactor c) as [m ms].
  reflexivity.
Qed.

Lemma microsoftEntry_eq (geocode : string -> option Q) :
  microsoftEntry (calculateInvestmentScore now geocode c)
  = {| factor := "Microsoft Stack Alignment";
       value := fst (microsoftFactor c);
       weight := snd (microsoftFactor c) |}.
Proof.
  unfold calculateInvestmentScore.
  destruct (ageFactor now c) as [y a]. destruct (microsoftFactor c) as [m ms].
  reflexivity.
Qed.

Lemma cached_distance_read (geocode : string -> option Q) (s : InvestmentScore) (d : Q) :
  investment_score c = Some s -> location_distance_km s = Some d ->
  locationDistance geocode c = Some d.
Proof. intros Hs Hd. unfold locationDistance. rewrite Hs, Hd. reflexivity. Qed.

End ScorerMore.

(** X5.  A distance already on the record is used as it is: the resolver
    is not consulted, so the whole result is the same for any two
    resolvers, and the location weight is the step value of the stored
    distance. *)
Theorem stored_distance_is_used (now : Z) (c : Company) (s : InvestmentScore) (d : Q) :
  investment_score c = Some s ->
  location_distance_km s = Some d ->
  (forall geocode1 geocode2,
     calculateInvestmentScore now geocode1 c = calculateInvestmentScore now geocode2 c)
  /\ (forall geocode,
        weight (locationEntry (calculateInvestmentScore now geocode c))
        = calculateLocationScore (Some d)).
Proof.
  intros Hs Hd. split.
  - intros g1 g2. unfold calculateInvestmentScore.
    rewrite (cached_distance_read c g1 Hs Hd), (cached_distance_read c g2 Hs Hd).
    reflexivity.
  - intros g. rewrite locationEntry_eq, (cached_distance_read c g Hs Hd). reflexivity.
Qed.

Lemma stored_distance_is_used_witness :
  weight (locationEntry (calculateInvestmentScore Sample.now2026 Sample2.nearGeocode
                           Sample2.cachedDistance))
  = calculateLocationScore (Some (314 # 10)).
Proof.
  destruct (@stored_distance_is_used Sample.now2026 Sample2.cachedDistance
              {| location_distance_km := Some (314 # 10) |} (314 # 10)
              Logic.eq_refl Logic.eq_refl)
    as [_ F].
  apply F.
Defined.

(** X6.  For every record whose incorporation date is not after the
    clock reading, the score lies between 0 and 100. *)
Theorem score_between_0_and_100 (now : Z) (geocode : string -> option Q) (c : Company) :
  (date_of_incorporation c <= now)%Z ->
  0 <= score (calculateInvestmentScore now geocode c) <= 100.
Proof.
  intros H. apply score_in_range.
  unfold calculateYearsActive.
  apply Qle_shift_div_l; [reflexivity|].
  rewrite Qmult_0_l. change 0 with (inject_Z 0). rewrite <- Zle_Qle. lia.
Qed.

Lemma score_between_0_and_100_witness :
  0 <= score (calculateInvestmentScore Sample.now2026 Sample2.nearGeocode Sample2.uncached)
  <= 100.
Proof.
  apply score_between_0_and_100. vm_compute. discriminate.
Defined.

(** ** Size, age and technology factors *)

(** X7.  The size weight is 25 exactly when one of the three band guards
    holds; otherwise it lies between 0 and 15, so no record scores
    strictly between 15 and 25 for size. *)
Theorem size_weight_levels (now : Z) (geocode : string -> option Q) (c : Company) :
  let w := weight (sizeEntry (calculateInvestmentScore now geocode c)) in
  let band :=
    inBand (scorerHeadcount c) MIN_EMPLOYEES MAX_EMPLOYEES
    || inBand (revenue (financials c)) MIN_REVENUE MAX_REVENUE
    || inBand (ebitda (financials c)) MIN_EBITDA MAX_EBITDA in
  (band = true -> w = 25) /\ (band = false -> 0 <= w <= 15).
Proof.
  intros w band. unfold w, band. rewrite sizeEntry_eq. cbn [entryOf reported weight].
  rewrite sizeFactor_unfold.
  destruct (inBand (scorerHeadcount c) _ _); [split; [reflexivity|discriminate]|].
  destruct (inBand (revenue (financials c)) _ _); [split; [reflexivity|discriminate]|].
  destruct (inBand (ebitda (financials c)) _ _); [split; [reflexivity|discriminate]|].
  split; [discriminate|]. intros _. apply partial_branch_bounds.
Qed.

Lemma size_weight_levels_witness :
  0 <= weight (sizeEntry (calculateInvestmentScore Sample.now2026 Sample.noGeocode
                            Sample.tenEmployees)) <= 15.
Proof.
  destruct (size_weight_levels Sample.now2026 Sample.noGeocode Sample.tenEmployees) as [_ F].
  apply F. reflexivity.
Defined.

(** X8.  With no employee count, revenue or EBITDA on file (absent or
    zero) the size entry is the untagged one, value 0 and weight 0. *)
Theorem size_entry_without_data (now : Z) (geocode : string -> option Q) (c : Company) :
  noSizeData c = true ->
  sizeEntry (calculateInvestmentScore now geocode c)
  = {| factor := "Size"; value := 0; weight := 0 |}.
Proof.
  unfold noSizeData. rewrite !andb_true_iff, !negb_true_iff. intros [[Hr He] Hh].
  rewrite sizeEntry_eq, sizeFactor_unfold. unfold inBand, step.
  rewrite Hr, He, Hh. reflexivity.
Qed.

Lemma size_entry_without_data_witness :
  sizeEntry (calculateInvestmentScore Sample.now2026 Sample.noGeocode Sample.bareCompany)
  = {| factor := "Size"; value := 0; weight := 0 |}.
Proof. apply size_entry_without_data. reflexivity. Defined.

(** X9.  The age weight never falls as the years grow, it is 8.33 per
    year below 25 / 8.33 years (about 3.0012) and the full 25 from there
    on. *)
Theorem age_weight_shape :
  (forall y1 y2, y1 <= y2 -> ageScore y1 <= ageScore y2)
  /\ (forall y, y < 2500 # 833 -> ageScore y = y * (833 # 100))
  /\ (forall y, 2500 # 833 <= y -> ageScore y = 25).
Proof.
  split; [exact ageScore_monotone|]. split; [|exact ageScore_full].
  intros y H. unfold ageScore, JS.Math_min.
  destruct (JS.le 25 (y * (833 # 100))) eqn:E; [|reflexivity].
  apply le_spec in E. lra.
Qed.

Lemma age_weight_shape_witness : ageScore 2 = 2 * (833 # 100) /\ ageScore 10 = 25.
Proof.
  destruct age_weight_shape as (_ & P & F). split.
  - apply P. reflexivity.
  - apply F. vm_compute. discriminate.
Defined.

Section MicrosoftFacts.

Variable c : Company.

Lemma microsoftFactor_count :
  microsoftFactor c
  = (inject_Z (Z.of_nat (microsoftMatches c)),
     if (0 <? microsoftMatches c)%nat
     then JS.Math_min 25 (inject_Z (Z.of_nat (microsoftMatches c)) * (833 # 100))
     else 0).
Proof.
  unfold microsoftFactor, microsoftMatches.
  destruct (tech_stack (enrichment c)) as [ts|]; cbn [JS.arr]; [|reflexivity].
  destruct ts as [|t ts]; [reflexivity|].
  cbn [List.length Nat.ltb Nat.leb].
  set (n := List.length (filter isMicrosoftTech (t :: ts))).
  destruct (JS.gt (inject_Z (Z.of_nat n)) 0) eqn:E.
  - apply lt_spec in E. change 0 with (inject_Z 0) in E. rewrite <- Zlt_Qlt in E.
    destruct n; [lia|]. reflexivity.
  - apply lt_false in E. change 0 with (inject_Z 0) in E. rewrite <- Zle_Qle in E.
    assert (Z : n = 0%nat) by lia. rewrite Z. reflexivity.
Qed.

End MicrosoftFacts.

(** X10.  The technology entry reports the number of entries that match
    the Microsoft vocabulary; its weight is 0 without a match, the product
    of the count and 8.33 for one to three matches, which stays below 25,
    and 25 from four matches on. *)
Theorem microsoft_weight_by_matches (now : Z) (geocode : string -> option Q) (c : Company) :
  let e := microsoftEntry (calculateInvestmentScore now geocode c) in
  let n := microsoftMatches c in
  value e == inject_Z (Z.of_nat n)
  /\ (n = 0%nat -> weight e == 0)
  /\ ((0 < n < 4)%nat ->
      weight e == inject_Z (Z.of_nat n) * (833 # 100) /\ 0 < weight e < 25)
  /\ ((4 <= n)%nat -> weight e == 25).
Proof.
  intros e n. unfold e, n. rewrite microsoftEntry_eq, microsoftFactor_count.
  cbn [value weight fst snd].
  split; [reflexivity|]. split; [intros Z; rewrite Z; reflexivity|].
  split; intros H.
  - destruct (microsoftMatches c) as [|m]; [lia|]. cbn [Nat.ltb Nat.leb].
    assert (G : 1 <= inject_Z (Z.of_nat (S m)) <= 3).
    { change 1 with (inject_Z 1). change 3 with (inject_Z 3). rewrite <- !Zle_Qle. lia. }
    unfold JS.Math_min.
    destruct (JS.le 25 (inject_Z (Z.of_nat (S m)) * (833 # 100))) eqn:L.
    + apply le_spec in L. lra.
    + split; [reflexivity|lra].
  - destruct (microsoftMatches c) as [|m]; [lia|]. cbn [Nat.ltb Nat.leb].
    unfold JS.Math_min.
    destruct (JS.le 25 (inject_Z (Z.of_nat (S m)) * (833 # 100))) eqn:L; [reflexivity|].
    apply le_false in L.
    assert (G : 4 <= inject_Z (Z.of_nat (S m))).
    { change 4 with (inject_Z 4). rewrite <- Zle_Qle. lia. }
    lra.
Qed.

(** Three matching technologies do not reach the full weight. *)
Lemma microsoft_weight_by_matches_witness :
  0 < weight (microsoftEntry (calculateInvestmentScore Sample.now2026 Sample.noGeocode
                                Sample2.threeMicrosoft))
  < 25.
Proof.
  destruct (microsoft_weight_by_matches Sample.now2026 Sample.noGeocode Sample2.threeMicrosoft)
    as (_ & _ & F & _).
  apply F. vm_compute. split; lia.
Defined.

(** ** The MSP classifier *)

Section RoundFacts.

Lemma Math_round_lower (x : Q) (lo : Z) : inject_Z lo <= x -> inject_Z lo <= JS.Math_round x.
Proof.
  intros H. unfold JS.Math_round. rewrite <- Zle_Qle.
  rewrite <- (Qfloor_Z lo). apply Qfloor_resp_le. lra.
Qed.

Lemma Math_round_upper (x : Q) (hi : Z) : x <= inject_Z hi -> JS.Math_round x <= inject_Z hi.
Proof.
  intros H. unfold JS.Math_round. rewrite <- Zle_Qle.
  apply Z.lt_succ_r.
  destruct (Z_lt_le_dec (Qfloor (x + (1 # 2))) (Z.succ hi)) as [L|L]; [exact L|].
  exfalso.
  assert (Hx : x + (1 # 2) < inject_Z (Z.succ hi)).
  { unfold Z.succ. rewrite inject_Z_plus. change (inject_Z 1) with 1. lra. }
  apply (Qlt_not_le _ _ Hx).
  apply Qle_trans with (inject_Z (Qfloor (x + (1 # 2)))).
  - rewrite <- Zle_Qle. exact L.
  - apply Qfloor_le.
Qed.

Lemma len_filter_le (A : Type) (f : A -> bool) (l : list A) : len (filter f l) <= len l.
Proof.
  unfold len. rewrite <- Zle_Qle. apply inj_le.
  induction l as [|x l IH]; cbn; [lia|]. destruct (f x); cbn; lia.
Qed.

Lemma len_cons_pos (A : Type) (x : A) (l : list A) : JS.gt (len (x :: l)) 0 = true.
Proof.
  apply lt_spec. unfold len. change 0 with (inject_Z 0). rewrite <- Zlt_Qlt.
  cbn [List.length]. lia.
Qed.

Lemma len_nil_not_pos (A : Type) : JS.gt (len (@nil A)) 0 = false.
Proof. reflexivity. Qed.

(** A capped share of a weight lies between 0 and the weight. *)
Lemma capped_share (a b : Q) (w : Z) :
  0 <= a -> 0 < b -> (0 <= w)%Z ->
  0 <= JS.Math_min (inject_Z w) (a / b * inject_Z w) <= inject_Z w.
Proof.
  intros Ha Hb Hw.
  assert (W : 0 <= inject_Z w) by (change 0 with (inject_Z 0); now rewrite <- Zle_Qle).
  assert (R : 0 <= a / b) by (apply Qle_shift_div_l; [exact Hb|lra]).
  assert (P : 0 <= a / b * inject_Z w) by (apply Qmult_le_0_compat; assumption).
  destruct (Math_min_spec (inject_Z w) (a / b * inject_Z w)) as [[H ->]|[H ->]];
    split; try assumption; lra.
Qed.

End RoundFacts.

Section ClassifierMore.

Variable c : Company.

Lemma msp_score_total :
  msp_score (analyzeMSPLikelihood c) = JS.Math_round (classifierTotal c).
Proof.
  unfold analyzeMSPLikelihood, classifierTotal. cbn [msp_score].
  destruct (hasItSic c); reflexivity.
Qed.

Lemma contextPenalty_bounds : 3 # 10 <= contextPenalty c <= 1.
Proof.
  unfold contextPenalty.
  destruct (JS.gt (len (foundNegativeKeywords c)) 0) eqn:E; [|lra].
  apply lt_spec in E.
  destruct (Math_max_spec (3 # 10) (1 - len (foundNegativeKeywords c) * (2 # 10)))
    as [[H ->]|[H ->]]; lra.
Qed.

Lemma mspKeywordScore_bounds : 0 <= mspKeywordScore c <= 30.
Proof.
  unfold mspKeywordScore.
  pose proof contextPenalty_bounds as [P1 P2].
  assert (B : 0 <= JS.Math_min 30 (len (foundMspKeywords c) / len mspKeywords * 30) <= 30).
  { apply (capped_share (w := 30)); [apply len_nonneg|reflexivity|lia]. }
  destruct B as [B1 B2]. split.
  - apply Qmult_le_0_compat; lra.
  - rewrite Qmult_comm.
    apply Qle_trans with (1 * JS.Math_min 30 (len (foundMspKeywords c) / len mspKeywords * 30)).
    + apply Qmult_le_compat_r; assumption.
    + lra.
Qed.

Lemma max_one_pos (x : Q) : 0 < JS.Math_max 1 x.
Proof. destruct (Math_max_spec 1 x) as [[H ->]|[H ->]]; lra. Qed.

Lemma serviceScore_bounds : 0 <= serviceScore c <= 25.
Proof.
  unfold serviceScore.
  apply (capped_share (w := 25)); [apply len_nonneg|apply max_one_pos|lia].
Qed.

Lemma techScore_bounds : 0 <= techScore c <= 20.
Proof.
  unfold techScore.
  apply (capped_share (w := 20)); [apply len_nonneg|apply max_one_pos|lia].
Qed.

Lemma descriptionScore_bounds : 0 <= descriptionScore c <= 15.
Proof.
  unfold descriptionScore, descriptionMatches.
  apply (capped_share (w := 15)); [apply len_nonneg|reflexivity|lia].
Qed.

Lemma classifierTotal_bounds : 0 <= classifierTotal c <= 100.
Proof.
  pose proof mspKeywordScore_bounds. pose proof serviceScore_bounds.
  pose proof techScore_bounds. pose proof descriptionScore_bounds.
  unfold classifierTotal. destruct (hasItSic c); lra.
Qed.

End ClassifierMore.

(** X11.  The classifier score is a whole number between 0 and 100. *)
Theorem msp_score_is_integer_0_to_100 (c : Company) :
  exists n : Z,
    msp_score (analyzeMSPLikelihood c) = inject_Z n /\ (0 <= n <= 100)%Z.
Proof.
  rewrite msp_score_total.
  exists (Qfloor (classifierTotal c + (1 # 2))). split; [reflexivity|].
  pose proof (classifierTotal_bounds c) as [L U].
  pose proof (@Math_round_lower (classifierTotal c) 0 L) as L'.
  pose proof (@Math_round_upper (classifierTotal c) 100 U) as U'.
  unfold JS.Math_round in L', U'. rewrite <- Zle_Qle in L', U'. lia.
Qed.

(** X12.  The context penalty stays between 0.3 and 1: it is 1 without a
    negative phrase, 1 minus the product of the count and 0.2 for one to
    three phrases, which lies strictly between 0.3 and 1, and 0.3 from four
    phrases on. *)
Theorem context_penalty_steps (c : Company) :
  3 # 10 <= contextPenalty c <= 1
  /\ ((List.length (foundNegativeKeywords c) <= 3)%nat ->
      contextPenalty c == 1 - len (foundNegativeKeywords c) * (2 # 10))
  /\ (foundNegativeKeywords c = [] -> contextPenalty c == 1)
  /\ ((1 <= List.length (foundNegativeKeywords c) <= 3)%nat ->
      3 # 10 < contextPenalty c < 1)
  /\ ((4 <= List.length (foundNegativeKeywords c))%nat -> contextPenalty c == 3 # 10).
Proof.
  assert (F : (List.length (foundNegativeKeywords c) <= 3)%nat ->
              contextPenalty c == 1 - len (foundNegativeKeywords c) * (2 # 10)).
  { intros H. unfold contextPenalty.
    destruct (foundNegativeKeywords c) as [|k l]; [reflexivity|].
    rewrite len_cons_pos.
    assert (B : len (k :: l) <= 3).
    { unfold len. change 3 with (inject_Z 3). rewrite <- Zle_Qle. lia. }
    destruct (Math_max_spec (3 # 10) (1 - len (k :: l) * (2 # 10))) as [[G ->]|[G ->]]; lra. }
  split; [apply contextPenalty_bounds|]. split; [exact F|].
  split; [intros E; unfold contextPenalty; rewrite E; reflexivity|]. split.
  - intros [L U]. rewrite (F U).
    assert (B : 1 <= len (foundNegativeKeywords c) <= 3).
    { unfold len. change 1 with (inject_Z 1). change 3 with (inject_Z 3).
      rewrite <- !Zle_Qle. lia. }
    lra.
  - intros L. unfold contextPenalty.
    assert (B : 4 <= len (foundNegativeKeywords c)).
    { unfold len. change 4 with (inject_Z 4). rewrite <- Zle_Qle. lia. }
    destruct (JS.gt (len (foundNegativeKeywords c)) 0) eqn:G;
      [|apply lt_false in G; lra].
    destruct (Math_max_spec (3 # 10) (1 - len (foundNegativeKeywords c) * (2 # 10)))
      as [[H ->]|[H ->]]; lra.
Qed.

(** Two negative phrases: the penalty is strictly between 0.3 and 1. *)
Lemma context_penalty_steps_witness :
  3 # 10 < contextPenalty Sample3.twoNegativePhrases < 1.
Proof.
  destruct (context_penalty_steps Sample3.twoNegativePhrases) as (_ & _ & _ & F & _).
  apply F. vm_compute. split; lia.
Defined.

(** X13.  With three or more negative phrases found the confidence is
    never medium: the penalty is then below the 0.6 that medium asks for
    in a negative context, so the result is high or low. *)
Theorem no_medium_with_three_negative_phrases (c : Company) :
  (3 <= List.length (foundNegativeKeywords c))%nat ->
  confidence (analyzeMSPLikelihood c) <> medium.
Proof.
  intros H. rewrite confidence_gate.
  destruct (JS.ge (classifierTotal c) 30); [discriminate|].
  pose proof H as L. apply len_ge in L. change (inject_Z (Z.of_nat 3)) with 3 in L.
  assert (G : JS.gt (len (foundNegativeKeywords c)) 0 = true) by (apply lt_spec; lra).
  rewrite G.
  assert (P : contextPenalty c <= 4 # 10).
  { unfold contextPenalty. rewrite G.
    destruct (Math_max_spec (3 # 10) (1 - len (foundNegativeKeywords c) * (2 # 10)))
      as [[E ->]|[E ->]]; lra. }
  assert (F : JS.ge (contextPenalty c) (6 # 10) = false) by (apply le_false; lra).
  rewrite F, andb_false_r. discriminate.
Qed.

Lemma no_medium_with_three_negative_phrases_witness :
  confidence (analyzeMSPLikelihood Sample.softwareHouse) <> medium.
Proof.
  apply no_medium_with_three_negative_phrases. vm_compute. lia.
Defined.

Section EvidenceFacts.

Lemma found_slice (cat : string) (l : list string) :
  found {| category := cat; found := JS.gt (len l) 0; evidence := JS.slice0 5 l |}
  = negb (noEvidence {| category := cat; found := JS.gt (len l) 0;
                        evidence := JS.slice0 5 l |}).
Proof.
  destruct l as [|x l]; [reflexivity|]. cbn [found]. rewrite len_cons_pos. reflexivity.
Qed.

Lemma existsb_filter (A : Type) (f : A -> bool) (l : list A) :
  existsb f l = true -> filter f l <> [].
Proof.
  induction l as [|x l IH]; cbn; [discriminate|].
  destruct (f x); [discriminate|]. exact IH.
Qed.

End EvidenceFacts.

(** X14.  The result always holds the same seven indicators, and each of
    them is found exactly when it carries evidence. *)
Theorem found_iff_evidence (c : Company) :
  map category (indicators (analyzeMSPLikelihood c))
  = ["Negative Keywords (non-MSP indicators)"; "MSP Keywords"; "MSP Services";
     "IT Infrastructure Technology"; "Business Description"; "SIC Code (IT Services)";
     "Specialized MSP (not full-service)"]%string
  /\ Forall (fun i => found i = negb (noEvidence i)) (indicators (analyzeMSPLikelihood c)).
Proof.
  split; [reflexivity|].
  unfold analyzeMSPLikelihood. cbn [indicators JS.push app].
  repeat (apply Forall_cons; [try apply found_slice|]); [| | |apply Forall_nil].
  - unfold noEvidence. cbn [found evidence]. destruct (JS.gt (descriptionMatches c) 0); reflexivity.
  - unfold noEvidence. cbn [found evidence].
    destruct (hasItSic c) eqn:E; [|reflexivity].
    pose proof (existsb_filter _ _ E) as N.
    destruct (filter isItSic (sic_codes c)); [contradiction|reflexivity].
  - unfold noEvidence. cbn [found evidence]. destruct (isSpecializedMSP c); reflexivity.
Qed.

(** X15.  A high confidence comes with a reported score of at least 30,
    a medium one with a score from 15 to 30, and a low one that is due
    to the sum alone (no negative phrase found) with a score of at most
    15. *)
Theorem confidence_against_score (c : Company) :
  (confidence (analyzeMSPLikelihood c) = high -> 30 <= msp_score (analyzeMSPLikelihood c))
  /\ (confidence (analyzeMSPLikelihood c) = medium ->
      15 <= msp_score (analyzeMSPLikelihood c) <= 30)
  /\ (confidence (analyzeMSPLikelihood c) = low -> foundNegativeKeywords c = [] ->
      msp_score (analyzeMSPLikelihood c) <= 15).
Proof.
  rewrite confidence_gate, msp_score_total.
  destruct (JS.ge (classifierTotal c) 30) eqn:H.
  - apply le_spec in H. split; [|split; discriminate].
    intros _. apply (Math_round_lower (lo := 30)). exact H.
  - apply le_false in H.
    destruct (JS.ge (classifierTotal c) 15) eqn:M;
      [apply le_spec in M|apply le_false in M];
      (destruct (JS.ge (contextPenalty c) _) eqn:G); cbn [andb];
      (split; [discriminate|split]); try discriminate.
    + intros _. split.
      * apply (Math_round_lower (lo := 15)). exact M.
      * apply (Math_round_upper (hi := 30)), Qlt_le_weak. exact H.
    + intros _ N. exfalso. unfold contextPenalty in G. rewrite N in G.
      rewrite len_nil_not_pos in G. discriminate.
    + intros _ _. apply (Math_round_upper (hi := 15)), Qlt_le_weak. exact M.
    + intros _ _. apply (Math_round_upper (hi := 15)), Qlt_le_weak. exact M.
Qed.

Lemma confidence_against_score_witness :
  msp_score (analyzeMSPLikelihood Sample.bareItCompany) <= 15.
Proof.
  destruct (confidence_against_score Sample.bareItCompany) as (_ & _ & F).
  apply F; reflexivity.
Defined.

(** ** Strings *)

Section StringFacts.

Local Open Scope string_scope.

Lemma list_ascii_app (a b : string) :
  list_ascii_of_string (a ++ b) = (list_ascii_of_string a ++ list_ascii_of_string b)%list.
Proof. induction a as [|x a IH]; cbn; [reflexivity|]. now rewrite IH. Qed.

Lemma string_of_list_app (a b : list ascii) :
  string_of_list_ascii (a ++ b) = string_of_list_ascii a ++ string_of_list_ascii b.
Proof. induction a as [|x a IH]; cbn; [reflexivity|]. now rewrite IH. Qed.

Lemma append_assoc (a b c : string) : (a ++ b) ++ c = a ++ b ++ c.
Proof. induction a as [|x a IH]; cbn; [reflexivity|]. now rewrite IH. Qed.

Lemma append_nil_r (a : string) : a ++ "" = a.
Proof. induction a as [|x a IH]; cbn; [reflexivity|]. now rewrite IH. Qed.

(** What [dropWhile] removes is a prefix. *)
Lemma dropWhile_split (p : ascii -> bool) (l : list ascii) :
  exists pre, l = (pre ++ JS.dropWhile p l)%list /\ forallb p pre = true.
Proof.
  induction l as [|x l [pre [E F]]]; [exists []; split; reflexivity|].
  cbn. destruct (p x) eqn:P.
  - exists (x :: pre). cbn. rewrite P, F. split; [now rewrite <- E|reflexivity].
  - exists []. split; reflexivity.
Qed.

Lemma dropWhile_settled (p : ascii -> bool) (l : list ascii) : settled p (JS.dropWhile p l).
Proof.
  induction l as [|x l IH]; cbn; [exact I|].
  destruct (p x) eqn:P; [exact IH|exact P].
Qed.

Lemma settled_dropWhile (p : ascii -> bool) (l : list ascii) :
  settled p l -> JS.dropWhile p l = l.
Proof. destruct l as [|x l]; cbn; [reflexivity|]. now intros ->. Qed.

Lemma settled_prefix (p : ascii -> bool) (a b : list ascii) :
  settled p (a ++ b) -> settled p a.
Proof. destruct a; cbn; [intros _; exact I|trivial]. Qed.

Lemma trim_trimmed (s : string) :
  JS.trim s = string_of_list_ascii (trimmed (list_ascii_of_string s)).
Proof. reflexivity. Qed.

Lemma trimmed_split (l : list ascii) :
  exists a b, l = (a ++ trimmed l ++ b)%list.
Proof.
  unfold trimmed.
  destruct (dropWhile_split JS.is_space l) as [a [Ea _]].
  destruct (dropWhile_split JS.is_space (rev (JS.dropWhile JS.is_space l))) as [b [Eb _]].
  exists a, (rev b).
  rewrite <- rev_app_distr, <- Eb, rev_involutive. exact Ea.
Qed.

Lemma trimmed_settled (l : list ascii) :
  settled JS.is_space (trimmed l) /\ settled JS.is_space (rev (trimmed l)).
Proof.
  unfold trimmed. split.
  - destruct (dropWhile_split JS.is_space (rev (JS.dropWhile JS.is_space l))) as [b [Eb _]].
    apply settled_prefix with (rev b).
    rewrite <- rev_app_distr, <- Eb, rev_involutive. apply dropWhile_settled.
  - rewrite rev_involutive. apply dropWhile_settled.
Qed.

Lemma trimmed_fixed (l : list ascii) :
  settled JS.is_space l -> settled JS.is_space (rev l) -> trimmed l = l.
Proof.
  intros H1 H2. unfold trimmed.
  rewrite (settled_dropWhile _ _ H1), (settled_dropWhile _ _ H2). apply rev_involutive.
Qed.

(** Trimming twice is trimming once. *)
Lemma trim_idempotent (s : string) : JS.trim (JS.trim s) = JS.trim s.
Proof.
  rewrite !trim_trimmed, list_ascii_of_string_of_list_ascii.
  destruct (trimmed_settled (list_ascii_of_string s)) as [H1 H2].
  now rewrite (trimmed_fixed _ H1 H2).
Qed.

Lemma trim_split (s : string) : exists a b, s = a ++ JS.trim s ++ b.
Proof.
  destruct (trimmed_split (list_ascii_of_string s)) as [a [b E]].
  exists (string_of_list_ascii a), (string_of_list_ascii b).
  rewrite trim_trimmed, <- !string_of_list_app, <- E.
  symmetry. apply string_of_list_ascii_of_string.
Qed.

Lemma prefix_append (k b : string) : String.prefix k (k ++ b) = true.
Proof.
  induction k as [|x k IH]; cbn; [now destruct b|].
  destruct (ascii_dec x x) as [_|N]; [exact IH|contradiction].
Qed.

Lemma prefix_includes (s k : string) : String.prefix k s = true -> JS.includes s k = true.
Proof. intros H. destruct s; cbn [JS.includes]; rewrite H; reflexivity. Qed.

(** A string includes each of its parts. *)
Lemma includes_part (a k b : string) : JS.includes (a ++ k ++ b) k = true.
Proof.
  induction a as [|x a IH]; cbn [append].
  - apply prefix_includes, prefix_append.
  - cbn [JS.includes]. rewrite IH. apply orb_true_r.
Qed.

Lemma split_space_first_split (s : string) :
  exists rest, s = JS.split_space_first s ++ rest.
Proof.
  induction s as [|x s [rest E]]; [exists ""; reflexivity|].
  cbn. destruct (Ascii.eqb x " ").
  - exists (String x s). reflexivity.
  - exists rest. cbn. now rewrite <- E.
Qed.

End StringFacts.

(** X16.  A SIC code that passes the matcher's criterion 4 also earns the
    classifier's SIC bonus: whenever the matcher finds a target code, the
    classifier reports its SIC indicator found and adds 10 to the sum of
    the four category scores before rounding, so its score is at least
    10. *)
Theorem matcher_sic_implies_classifier_sic (c : Company) :
  hasTargetSic c = true ->
  hasItSic c = true
  /\ found (nth 5 (indicators (analyzeMSPLikelihood c))
              {| category := ""; found := false; evidence := [] |}) = true
  /\ msp_score (analyzeMSPLikelihood c)
     = JS.Math_round
         (0 + mspKeywordScore c + serviceScore c + techScore c + descriptionScore c + 10)
  /\ 10 <= msp_score (analyzeMSPLikelihood c).
Proof.
  intros H.
  assert (S : hasItSic c = true).
  { unfold hasTargetSic in H. unfold hasItSic.
    apply existsb_exists in H. destruct H as [code [I T]].
    apply existsb_exists. exists code. split; [exact I|].
    unfold isTargetSic in T. unfold isItSic.
    apply orb_true_iff in T. destruct T as [T|T];
      [apply orb_true_iff in T; destruct T as [T|T]|].
    - destruct (split_space_first_split code) as [rest E].
      destruct (trim_split (JS.split_space_first code)) as [a [b F]].
      assert (P : forall k, JS.trim (JS.split_space_first code) = k ->
                            JS.includes code k = true).
      { intros k K. rewrite E, F, K, !append_assoc. apply includes_part. }
      cbn [existsb TARGET_SIC_CODES] in T. rewrite orb_false_r in T.
      apply orb_true_iff in T. destruct T as [T|T]; apply String.eqb_eq in T.
      + rewrite (P _ T). reflexivity.
      + rewrite (P _ T). apply orb_true_r.
    - rewrite (prefix_includes _ _ T). reflexivity.
    - rewrite (prefix_includes _ _ T). apply orb_true_r. }
  assert (R : msp_score (analyzeMSPLikelihood c)
              = JS.Math_round
                  (0 + mspKeywordScore c + serviceScore c + techScore c
                   + descriptionScore c + 10)).
  { rewrite msp_score_total. unfold classifierTotal. rewrite S. reflexivity. }
  split; [exact S|]. split.
  { unfold analyzeMSPLikelihood. cbn [indicators JS.push app nth found]. exact S. }
  split; [exact R|]. rewrite R.
  pose proof (mspKeywordScore_bounds c). pose proof (serviceScore_bounds c).
  pose proof (techScore_bounds c). pose proof (descriptionScore_bounds c).
  apply (Math_round_lower (lo := 10)). change (inject_Z 10) with 10. lra.
Qed.

(** The ten-year IT company with nothing but its SIC code scores at least
    10. *)
Lemma matcher_sic_implies_classifier_sic_witness :
  hasItSic Sample.bareItCompany = true
  /\ 10 <= msp_score (analyzeMSPLikelihood Sample.bareItCompany).
Proof.
  destruct (matcher_sic_implies_classifier_sic Sample.bareItCompany) as (A & _ & _ & B);
    [reflexivity|].
  split; [exact A|exact B].
Defined.

(** ** High-value targets and red flags *)

Section RedFlagFacts.

Variable f : CompanyFile.

Lemma getRedFlags_unfold :
  getRedFlags f
  = ((if isFlag (has_been_liquidated (core f))
      then [[Lit "Company has been liquidated"]] else [])
     ++ (if isFlag (insolvencyHistory f) then [[Lit "Has insolvency history"]] else [])
     ++ (if hasInsolvencyCases f
         then [[Lit "Has ";
                Interpolated (len (match insolvency f with
                                   | Some i => Registry.cases i
                                   | None => []
                                   end));
                Lit " insolvency case(s)"]]
         else [])
     ++ (if hasUnsatisfiedCharges f
         then [[Interpolated (match charges f with
                              | Some ch => JS.num (Registry.unsatisfied_count ch)
                              | None => 0
                              end);
                Lit " unsatisfied charge(s)"]]
         else [])
     ++ (if accountsOverdue f then [[Lit "Accounts are overdue"]] else [])
     ++ (if activeMet (core f) then []
         else [[Lit ("Company status: "
                     ++ match company_status (core f) with
                        | Some s => s
                        | None => "undefined"
                        end)%string]]))%list.
Proof.
  unfold getRedFlags, hasInsolvencyCases, hasUnsatisfiedCharges, accountsOverdue, activeMet,
    JS.push.
  destruct (isFlag (has_been_liquidated (core f))), (isFlag (insolvencyHistory f)),
    (insolvency f) as [i|], (charges f) as [ch|], (accounts f) as [a|];
    try destruct (0 <? List.length (Registry.cases i))%nat;
    try destruct (JS.truthy (Registry.unsatisfied_count ch)
                  && JS.gt (JS.num (Registry.unsatisfied_count ch)) 0);
    try destruct (isFlag (Registry.next_accounts_overdue a));
    destruct (company_status (core f)) as [s|]; try destruct (String.eqb s "active");
    reflexivity.
Qed.

End RedFlagFacts.

(** X17.  [getRedFlags] gives one flag per condition that holds, in the
    order liquidation, insolvency history, insolvency cases, unsatisfied
    charges, overdue accounts, status other than active, each with its own
    text; so the number of flags is the number of conditions that hold,
    and the list is empty exactly for an active company with none of the
    five findings. *)
Theorem red_flags_count (f : CompanyFile) :
  getRedFlags f
  = ((if isFlag (has_been_liquidated (core f))
      then [[Lit "Company has been liquidated"]] else [])
     ++ (if isFlag (insolvencyHistory f) then [[Lit "Has insolvency history"]] else [])
     ++ (if hasInsolvencyCases f
         then [[Lit "Has ";
                Interpolated (len (match insolvency f with
                                   | Some i => Registry.cases i
                                   | None => []
                                   end));
                Lit " insolvency case(s)"]]
         else [])
     ++ (if hasUnsatisfiedCharges f
         then [[Interpolated (match charges f with
                              | Some ch => JS.num (Registry.unsatisfied_count ch)
                              | None => 0
                              end);
                Lit " unsatisfied charge(s)"]]
         else [])
     ++ (if accountsOverdue f then [[Lit "Accounts are overdue"]] else [])
     ++ (if activeMet (core f) then []
         else [[Lit ("Company status: "
                     ++ match company_status (core f) with
                        | Some s => s
                        | None => "undefined"
                        end)%string]]))%list
  /\ List.length (getRedFlags f)
     = (count (isFlag (has_been_liquidated (core f))) + count (isFlag (insolvencyHistory f))
        + count (hasInsolvencyCases f) + count (hasUnsatisfiedCharges f)
        + count (accountsOverdue f) + count (negb (activeMet (core f))))%nat
  /\ (getRedFlags f = [] <->
      isFlag (has_been_liquidated (core f)) = false
      /\ isFlag (insolvencyHistory f) = false
      /\ hasInsolvencyCases f = false
      /\ hasUnsatisfiedCharges f = false
      /\ accountsOverdue f = false
      /\ company_status (core f) = Some "active"%string).
Proof.
  split; [apply getRedFlags_unfold|].
  rewrite getRedFlags_unfold.
  assert (A : activeMet (core f) = true <-> company_status (core f) = Some "active"%string).
  { unfold activeMet. destruct (company_status (core f)) as [s|]; [|split; discriminate].
    rewrite String.eqb_eq. split; [now intros ->|now intros [= ->]]. }
  destruct (isFlag (has_been_liquidated (core f))), (isFlag (insolvencyHistory f)),
    (hasInsolvencyCases f), (hasUnsatisfiedCharges f), (accountsOverdue f),
    (activeMet (core f));
    (split; [reflexivity|]);
    (split; [intros E; try discriminate E; repeat split; apply A; reflexivity
            |intros (E1 & E2 & E3 & E4 & E5 & E6); try discriminate;
             apply A in E6; discriminate || reflexivity]).
Qed.

(** X18.  A high-value target has been active for at least three years,
    so it meets the matcher's age criterion; it has some revenue, profit,
    website or head count on file; and its red flags contain neither the
    liquidation flag nor the insolvency-history flag. *)
Theorem high_value_target_is_old_and_clean (now : Z) (f : CompanyFile) :
  isHighValueTarget now f = true ->
  3 <= calculateYearsActive now (date_of_incorporation (core f))
  /\ metOf "Company Age (3+ years)" (matchesThesisCriteria now (core f)) = true
  /\ JS.truthy (revenue (financials (core f))) || JS.truthy (profit (financials (core f)))
     || JS.truthyOS (website f) || JS.truthy (headcount (enrichment (core f))) = true
  /\ ~ In [Lit "Company has been liquidated"] (getRedFlags f)
  /\ ~ In [Lit "Has insolvency history"] (getRedFlags f).
Proof.
  unfold isHighValueTarget. intros H.
  destruct (JS.lt (calculateYearsActive now (date_of_incorporation (core f))) 3) eqn:Y;
    [discriminate|].
  apply lt_false in Y.
  destruct (isFlag (insolvencyHistory f)) eqn:I; [discriminate|].
  destruct (isFlag (has_been_liquidated (core f))) eqn:L; [discriminate|].
  split; [exact Y|]. split; [rewrite met_age; apply le_spec; exact Y|].
  split.
  { cbn [orb] in H. unfold JS.or in H.
    destruct (JS.truthy (revenue (financials (core f)))) eqn:R; [reflexivity|].
    cbn [orb]. rewrite <- orb_assoc. exact H. }
  rewrite getRedFlags_unfold, I, L.
  destruct (hasInsolvencyCases f), (hasUnsatisfiedCharges f), (accountsOverdue f),
    (activeMet (core f)); cbn [app In];
    split; intros G; repeat (destruct G as [G|G]; [discriminate G|]); exact G.
Qed.

Lemma high_value_target_is_old_and_clean_witness :
  3 <= calculateYearsActive Sample.now2026 (date_of_incorporation (core Sample2.cleanFile)).
Proof.
  apply (high_value_target_is_old_and_clean Sample.now2026 Sample2.cleanFile). reflexivity.
Defined.

(** ** The trend calculator *)

Section SortFacts.

Import FinancialExtraction.

Lemma insert_perm (x : AnnualFinancialData) (l : list AnnualFinancialData) :
  Permutation (insert by_period_end_desc x l) (x :: l).
Proof.
  induction l as [|y l IH]; cbn; [apply Permutation_refl|].
  destruct (by_period_end_desc x y <=? 0)%Z; [apply Permutation_refl|].
  apply perm_trans with (y :: x :: l); [now apply perm_skip|apply perm_swap].
Qed.

Lemma sorted_by_perm (l : list AnnualFinancialData) :
  Permutation (sorted_by by_period_end_desc l) l.
Proof.
  induction l as [|x l IH]; cbn; [apply perm_nil|].
  apply perm_trans with (x :: sorted_by by_period_end_desc l);
    [apply insert_perm|now apply perm_skip].
Qed.

Lemma sorted_by_length (l : list AnnualFinancialData) :
  List.length (sorted_by by_period_end_desc l) = List.length l.
Proof. apply Permutation_length, sorted_by_perm. Qed.

Lemma insert_descending (x : AnnualFinancialData) (l : list AnnualFinancialData) :
  StronglySorted notOlder l -> StronglySorted notOlder (insert by_period_end_desc x l).
Proof.
  induction l as [|y l IH]; intros S; cbn.
  - constructor; constructor.
  - inversion S as [|? ? S' F]; subst.
    destruct (by_period_end_desc x y <=? 0)%Z eqn:E.
    + apply Z.leb_le in E. unfold by_period_end_desc in E.
      constructor; [exact S|]. constructor; [unfold notOlder; lia|].
      eapply Forall_impl; [|exact F]. unfold notOlder. intros a Ha. lia.
    + apply Z.leb_gt in E. unfold by_period_end_desc in E.
      constructor; [now apply IH|].
      refine (Permutation_Forall (Permutation_sym (insert_perm x l)) _).
      constructor; [unfold notOlder; lia|exact F].
Qed.

Lemma sorted_by_descending (l : list AnnualFinancialData) :
  StronglySorted notOlder (sorted_by by_period_end_desc l).
Proof.
  induction l as [|x l IH]; cbn; [constructor|]. now apply insert_descending.
Qed.

(** Two lists in strictly descending order with the same elements are the
    same list. *)
Lemma strictly_descending_unique (l1 l2 : list AnnualFinancialData) :
  StronglySorted newer l1 -> StronglySorted newer l2 -> Permutation l1 l2 -> l1 = l2.
Proof.
  revert l2. induction l1 as [|a t1 IH]; intros l2 S1 S2 P.
  - apply Permutation_nil in P. now subst.
  - destruct l2 as [|b t2]; [apply Permutation_sym, Permutation_nil in P; discriminate|].
    inversion S1 as [|? ? S1' F1]; subst. inversion S2 as [|? ? S2' F2]; subst.
    assert (E : a = b).
    { assert (Ia : In a (b :: t2)) by (apply (Permutation_in _ P); now left).
      assert (Ib : In b (a :: t1)) by (apply (Permutation_in _ (Permutation_sym P)); now left).
      destruct Ia as [Ia|Ia]; [now symmetry|]. destruct Ib as [Ib|Ib]; [exact Ib|].
      rewrite Forall_forall in F1, F2.
      pose proof (F1 _ Ib) as G1. pose proof (F2 _ Ia) as G2. unfold newer in *. lia. }
    subst b. f_equal. apply IH; [assumption|assumption|].
    now apply Permutation_cons_inv with a.
Qed.

Lemma descending_strict (l : list AnnualFinancialData) :
  NoDup (map period_end l) -> StronglySorted notOlder l -> StronglySorted newer l.
Proof.
  induction l as [|a l IH]; intros N S; [constructor|].
  inversion S as [|? ? S' F]; subst. inversion N as [|? ? NI N']; subst.
  constructor; [now apply IH|].
  rewrite Forall_forall in *. intros b Hb. pose proof (F b Hb) as G.
  unfold newer, notOlder in *.
  assert (period_end a <> period_end b).
  { intros E. apply NI. rewrite E. now apply in_map. }
  lia.
Qed.

(** With pairwise distinct period ends the sorted order does not depend on
    the order of the input. *)
Lemma sorted_by_order_free (l1 l2 : list AnnualFinancialData) :
  NoDup (map period_end l1) -> Permutation l1 l2 ->
  sorted_by by_period_end_desc l1 = sorted_by by_period_end_desc l2.
Proof.
  intros N P.
  assert (P1 := sorted_by_perm l1). assert (P2 := sorted_by_perm l2).
  apply strictly_descending_unique.
  - apply descending_strict; [|apply sorted_by_descending].
    apply (Permutation_NoDup (l := map period_end l1)); [|exact N].
    apply Permutation_map. now symmetry.
  - apply descending_strict; [|apply sorted_by_descending].
    apply (Permutation_NoDup (l := map period_end l1)); [|exact N].
    apply Permutation_map. apply perm_trans with l2; [exact P|now symmetry].
  - apply perm_trans with l1; [exact P1|]. apply perm_trans with l2; [exact P|now symmetry].
Qed.

Variable real_pow : Q -> Q -> Q.

(** The trends are computed from the sorted copy and the length alone. *)
Lemma trendsOf_sorted (l1 l2 : list AnnualFinancialData) :
  List.length l1 = List.length l2 ->
  sorted_by by_period_end_desc l1 = sorted_by by_period_end_desc l2 ->
  trendsOf real_pow l1 = trendsOf real_pow l2.
Proof.
  intros L S.
  unfold trendsOf, calculateTrends, bind, deref, spread, slice, alloc, sort, ret, bind, deref.
  cbn [nth]. rewrite L.
  destruct (List.length l2 <? 1)%nat; [reflexivity|].
  cbn beta iota zeta. cbn [nth List.length app update fst snd]. rewrite S. reflexivity.
Qed.

End SortFacts.

(** X19.  When the period ends are pairwise distinct, the trends do not
    depend on the order in which the records are given. *)
Theorem trends_do_not_depend_on_input_order (real_pow : Q -> Q -> Q)
    (l1 l2 : list FinancialExtraction.AnnualFinancialData) :
  NoDup (map FinancialExtraction.period_end l1) ->
  Permutation l1 l2 ->
  trendsOf real_pow l1 = trendsOf real_pow l2.
Proof.
  intros N P. apply trendsOf_sorted.
  - now apply Permutation_length.
  - now apply sorted_by_order_free.
Qed.

Lemma trends_do_not_depend_on_input_order_witness :
  trendsOf (fun _ _ => 1) Sample.lossThenProfit
  = trendsOf (fun _ _ => 1) (rev Sample.lossThenProfit).
Proof.
  apply trends_do_not_depend_on_input_order.
  - cbn. repeat constructor; cbn; intuition discriminate.
  - apply Permutation_rev.
Defined.

Section TrendKeys.

Import FinancialExtraction.

Variable real_pow : Q -> Q -> Q.

Local Open Scope string_scope.

(** The calculator, read on the sorted copy. *)
Lemma trendsOf_unfold (annualData : list AnnualFinancialData) :
  trendsOf real_pow annualData
  = if (List.length annualData <? 1)%nat then []
    else
      let s := sorted_by by_period_end_desc annualData in
      let trends :=
        match s with
        | latest :: previous :: _ =>
            marginTrend latest previous
              (direction "profit_trend" "profit_growth_1y"
                 (direction "revenue_trend" "revenue_growth_1y"
                    (growth "employee_growth_1y" (chain (employees latest) average_count)
                       (chain (employees previous) average_count)
                       (growth "ebitda_growth_1y" (ebitda latest) (ebitda previous)
                          (growth "profit_growth_1y" (profit_after_tax latest)
                             (profit_after_tax previous)
                             (growth "revenue_growth_1y" (revenue latest) (revenue previous)
                                []))))))
        | _ => []
        end in
      let trends :=
        match s with
        | latest :: _ :: threeYearsAgo :: _ =>
            cagr real_pow "profit_growth_3y_cagr" 3 (profit_after_tax latest)
              (profit_after_tax threeYearsAgo)
              (cagr real_pow "revenue_growth_3y_cagr" 3 (revenue latest)
                 (revenue threeYearsAgo) trends)
        | _ => trends
        end in
      let last3Years := firstn 3 s in
      if (0 <? List.length last3Years)%nat
      then
        average "average_recurring_revenue_pct_3y"
          (fun d => chain (revenue_breakdown d) recurring_revenue_percentage) last3Years
          (average "average_ebitda_margin_3y" (fun d => chain (ratios d) ebitda_margin)
             last3Years
             (average "average_ebitda_3y" ebitda last3Years
                (average "average_profit_3y" profit_after_tax last3Years
                   (average "average_revenue_3y" revenue last3Years trends))))
      else trends.
Proof.
  unfold trendsOf, calculateTrends, bind, deref, spread, slice, alloc, sort, ret, bind, deref.
  cbn [nth].
  destruct (List.length annualData <? 1)%nat; [reflexivity|].
  cbn beta iota zeta. cbn [nth List.length app update fst snd].
  destruct (sorted_by by_period_end_desc annualData) as [|a [|b [|d r]]]; reflexivity.
Qed.

Lemma get_set (k key : string) (v : TrendValue) (o : Trends) :
  get k (set key v o) = if String.eqb key k then Some v else get k o.
Proof.
  induction o as [|[k0 w] o IH].
  - cbn. destruct (String.eqb key k); reflexivity.
  - cbn [set]. destruct (String.eqb k0 key) eqn:E.
    + apply String.eqb_eq in E. subst k0. cbn [get].
      destruct (String.eqb key k); reflexivity.
    + cbn [get]. rewrite IH.
      destruct (String.eqb k0 k) eqn:E1; [|reflexivity].
      destruct (String.eqb key k) eqn:E2; [|reflexivity].
      apply String.eqb_eq in E1, E2. subst. rewrite String.eqb_refl in E. discriminate.
Qed.

Lemma get_growth (k key : string) (a b : JS.Nullish Q) (t : Trends) :
  String.eqb key k = false -> get k (growth key a b t) = get k t.
Proof.
  intros E. unfold growth. destruct (_ && _); [|reflexivity]. now rewrite get_set, E.
Qed.

Lemma get_direction (k key from : string) (t : Trends) :
  String.eqb key k = false -> get k (direction key from t) = get k t.
Proof.
  intros E. unfold direction. destruct (get from t); [|reflexivity]. now rewrite get_set, E.
Qed.

Lemma get_marginTrend (k : string) (a b : AnnualFinancialData) (t : Trends) :
  String.eqb "margin_trend" k = false -> get k (marginTrend a b t) = get k t.
Proof.
  intros E. unfold marginTrend. destruct (_ && _); [|reflexivity]. now rewrite get_set, E.
Qed.

Lemma get_cagr (k key : string) (y : Q) (a b : JS.Nullish Q) (t : Trends) :
  String.eqb key k = false -> get k (cagr real_pow key y a b t) = get k t.
Proof.
  intros E. unfold cagr. destruct (_ && _); [|reflexivity]. now rewrite get_set, E.
Qed.

Lemma get_average (k key : string) (f : AnnualFinancialData -> JS.Nullish Q)
    (l : list AnnualFinancialData) (t : Trends) :
  String.eqb key k = false -> get k (average key f l t) = get k t.
Proof.
  intros E. unfold average. destruct (0 <? _)%nat; [|reflexivity]. now rewrite get_set, E.
Qed.

Lemma get_average_set (k key : string) (f : AnnualFinancialData -> JS.Nullish Q)
    (l : list AnnualFinancialData) (t : Trends) :
  get k (average key f l t) <> None -> k = key \/ get k t <> None.
Proof.
  unfold average. destruct (0 <? _)%nat; [|now right].
  rewrite get_set. destruct (String.eqb key k) eqn:E; [|now right].
  apply String.eqb_eq in E. now left.
Qed.

(** What the CAGR block leaves under its own key. *)
Lemma get_cagr_same (key : string) (a b : JS.Nullish Q) (t : Trends) :
  get key t = None ->
  (get key (cagr real_pow key 3 a b t) <> None <-> JS.truthyN a && JS.truthyN b = true).
Proof.
  intros N. unfold cagr. destruct (JS.truthyN a && JS.truthyN b).
  - rewrite get_set, String.eqb_refl. split; [reflexivity|discriminate].
  - rewrite N. split; [contradiction|discriminate].
Qed.

Lemma sorted_by_fixed (s : list AnnualFinancialData) :
  StronglySorted notOlder s -> sorted_by by_period_end_desc s = s.
Proof.
  induction 1 as [|x r S IH F]; [reflexivity|].
  cbn [sorted_by fold_right]. fold (sorted_by by_period_end_desc r). rewrite IH.
  destruct r as [|y r']; [reflexivity|]. cbn [insert].
  inversion F as [|? ? N _]; subst. unfold notOlder in N. unfold by_period_end_desc.
  destruct (Z.leb_spec (period_end y - period_end x) 0); [reflexivity|lia].
Qed.

Lemma firstn_descending (n : nat) (s : list AnnualFinancialData) :
  StronglySorted notOlder s -> StronglySorted notOlder (firstn n s).
Proof.
  intros S. revert n. induction S as [|x r S IH F]; intros [|n]; cbn; try constructor.
  - apply IH.
  - clear -F. revert n. induction F as [|y r' N F IH]; intros [|n]; cbn; constructor; auto.
Qed.

End TrendKeys.

Ltac through :=
  rewrite ?get_average, ?get_cagr, ?get_marginTrend, ?get_direction, ?get_growth
    by reflexivity.


(** X20.  From a single record the calculator derives averages only: every
    field of the result is one of the five average fields, and the
    revenue average is the revenue of that record. *)
Theorem single_record_gives_averages_only (real_pow : Q -> Q -> Q)
    (d : FinancialExtraction.AnnualFinancialData) :
  (forall k, FinancialExtraction.get k (trendsOf real_pow [d]) <> None -> In k averageKeys)
  /\ (forall q, FinancialExtraction.revenue d = JS.Value q ->
        exists v,
          FinancialExtraction.get "average_revenue_3y" (trendsOf real_pow [d])
          = Some (FinancialExtraction.Num (JS.Finite v))
          /\ v == q).
Proof.
  rewrite trendsOf_unfold.
  cbn [List.length Nat.ltb Nat.leb FinancialExtraction.sorted_by fold_right
         FinancialExtraction.insert firstn].
  cbv zeta. split.
  - intros k H. unfold averageKeys.
    repeat (apply get_average_set in H; destruct H as [H|H]; [subst k; cbn; tauto|]).
    cbn in H. contradiction.
  - intros q R.
    rewrite !get_average by reflexivity.
    unfold FinancialExtraction.average. cbn [map filter]. rewrite R.
    cbn [List.length Nat.ltb Nat.leb filter]. rewrite get_set_same.
    eexists. split; [reflexivity|]. cbn. field.
Qed.

Lemma single_record_gives_averages_only_witness :
  exists v,
    FinancialExtraction.get "average_revenue_3y"
      (trendsOf (fun _ _ => 1) [Sample.year 1703980800000 (JS.Value 121) (JS.Value 100)])
    = Some (FinancialExtraction.Num (JS.Finite v))
    /\ v == 121.
Proof.
  destruct (single_record_gives_averages_only (fun _ _ => 1)
              (Sample.year 1703980800000 (JS.Value 121) (JS.Value 100))) as [_ F].
  apply F. reflexivity.
Defined.

(** X21.  Only the three most recent records matter: the trends of any
    list of records are the trends of the first three records of its
    sorted copy. *)
Theorem only_three_most_recent_records_matter (real_pow : Q -> Q -> Q)
    (annualData : list FinancialExtraction.AnnualFinancialData) :
  trendsOf real_pow annualData
  = trendsOf real_pow
      (firstn 3 (FinancialExtraction.sorted_by FinancialExtraction.by_period_end_desc
                   annualData)).
Proof.
  rewrite !trendsOf_unfold.
  rewrite (sorted_by_fixed (firstn_descending 3 (sorted_by_descending annualData))).
  rewrite <- (sorted_by_length annualData).
  destruct (FinancialExtraction.sorted_by FinancialExtraction.by_period_end_desc annualData)
    as [|a [|b [|c r]]]; reflexivity.
Qed.

(** X22.  With three or more records the revenue CAGR compares the most
    recent record with the third most recent one, under the exponent 1/3;
    the field is absent when either revenue is missing or zero. *)
Theorem revenue_cagr_compares_latest_with_third (real_pow : Q -> Q -> Q)
    (annualData rest : list FinancialExtraction.AnnualFinancialData)
    (latest middle threeYearsAgo : FinancialExtraction.AnnualFinancialData) :
  FinancialExtraction.sorted_by FinancialExtraction.by_period_end_desc annualData
  = latest :: middle :: threeYearsAgo :: rest ->
  FinancialExtraction.get "revenue_growth_3y_cagr" (trendsOf real_pow annualData)
  = if JS.truthyN (FinancialExtraction.revenue latest)
       && JS.truthyN (FinancialExtraction.revenue threeYearsAgo)
    then Some (FinancialExtraction.Num
                 (JS.map_number (fun p => (p - 1) * 100)
                    (JS.Math_pow real_pow
                       (JS.numN (FinancialExtraction.revenue latest)
                        / JS.numN (FinancialExtraction.revenue threeYearsAgo))
                       (1 / 3))))
    else None.
Proof.
  intros S. rewrite trendsOf_unfold. rewrite <- (sorted_by_length annualData), S.
  cbn [List.length Nat.ltb Nat.leb firstn]. cbv zeta.
  rewrite !get_average by reflexivity. rewrite get_cagr by reflexivity.
  unfold FinancialExtraction.cagr at 1.
  destruct (JS.truthyN (FinancialExtraction.revenue latest)
            && JS.truthyN (FinancialExtraction.revenue threeYearsAgo)).
  - rewrite get_set_same. reflexivity.
  - through. reflexivity.
Qed.

Lemma revenue_cagr_compares_latest_with_third_witness :
  FinancialExtraction.get "revenue_growth_3y_cagr"
    (trendsOf (fun _ _ => 11 # 10) Sample.lossThenProfit)
  = Some (FinancialExtraction.Num
            (JS.map_number (fun p => (p - 1) * 100)
               (JS.Math_pow (fun _ _ => 11 # 10) (121 / 100) (1 / 3)))).
Proof.
  apply (@revenue_cagr_compares_latest_with_third (fun _ _ => 11 # 10)
           Sample.lossThenProfit []
           (Sample.year 1703980800000 (JS.Value 121) (JS.Value 100))
           (Sample.year 1672444800000 (JS.Value 110) (JS.Value 50))
           (Sample.year 1640908800000 (JS.Value 100) (JS.Value (-50)))).
  reflexivity.
Defined.

(** X23.  The revenue trend label is derived from the one-year revenue
    growth and from nothing else: above 5 it reads growing, below -5
    declining, otherwise stable, and without a growth figure there is
    no label. *)
Theorem revenue_trend_follows_growth (real_pow : Q -> Q -> Q)
    (annualData : list FinancialExtraction.AnnualFinancialData) :
  FinancialExtraction.get "revenue_trend" (trendsOf real_pow annualData)
  = match FinancialExtraction.get "revenue_growth_1y" (trendsOf real_pow annualData) with
    | Some g =>
        Some (FinancialExtraction.Label
                (if FinancialExtraction.gtN g 5 then "growing"
                 else if FinancialExtraction.ltN g (-5) then "declining" else "stable"))
    | None => None
    end.
Proof.
  rewrite trendsOf_unfold.
  destruct (List.length annualData <? 1)%nat; [reflexivity|].
  destruct (FinancialExtraction.sorted_by FinancialExtraction.by_period_end_desc annualData)
    as [|a [|b r]].
  - reflexivity.
  - cbn [List.length Nat.ltb Nat.leb firstn]. cbv zeta. through. reflexivity.
  - assert (E : forall T : FinancialExtraction.Trends,
      FinancialExtraction.get "revenue_trend" T = None ->
      FinancialExtraction.get "revenue_trend"
        (FinancialExtraction.direction "revenue_trend" "revenue_growth_1y" T)
      = match FinancialExtraction.get "revenue_growth_1y" T with
        | Some g =>
            Some (FinancialExtraction.Label
                    (if FinancialExtraction.gtN g 5 then "growing"
                     else if FinancialExtraction.ltN g (-5) then "declining"
                     else "stable"))
        | None => None
        end).
    { intros T N. unfold FinancialExtraction.direction.
      destruct (FinancialExtraction.get "revenue_growth_1y" T); [|exact N].
      rewrite get_set_same. reflexivity. }
    destruct r as [|c r]; cbn [List.length Nat.ltb Nat.leb firstn]; cbv zeta;
      rewrite !get_average by reflexivity;
      rewrite ?get_cagr by reflexivity;
      rewrite get_marginTrend by reflexivity;
      rewrite (get_marginTrend "revenue_growth_1y") by reflexivity;
      rewrite get_direction by reflexivity;
      rewrite (get_direction "revenue_growth_1y" "profit_trend") by reflexivity;
      rewrite (get_direction "revenue_growth_1y" "revenue_trend") by reflexivity;
      apply E; through; reflexivity.
Qed.

(** X24.  In the averages a null figure is kept and counts as zero, an
    undefined one is left out: with two records and a revenue [q] in
    the latest, the revenue average is [q / 2] when the other revenue is
    null and [q] when it is undefined. *)
Theorem null_counts_in_average_undefined_does_not (real_pow : Q -> Q -> Q)
    (annualData : list FinancialExtraction.AnnualFinancialData)
    (latest previous : FinancialExtraction.AnnualFinancialData) (q : Q) :
  FinancialExtraction.sorted_by FinancialExtraction.by_period_end_desc annualData
  = [latest; previous] ->
  FinancialExtraction.revenue latest = JS.Value q ->
  (FinancialExtraction.revenue previous = JS.Null ->
   exists v,
     FinancialExtraction.get "average_revenue_3y" (trendsOf real_pow annualData)
     = Some (FinancialExtraction.Num (JS.Finite v)) /\ v == q / 2)
  /\ (FinancialExtraction.revenue previous = JS.Undefined ->
      exists v,
        FinancialExtraction.get "average_revenue_3y" (trendsOf real_pow annualData)
        = Some (FinancialExtraction.Num (JS.Finite v)) /\ v == q).
Proof.
  intros S R. rewrite trendsOf_unfold. rewrite <- (sorted_by_length annualData), S.
  cbn [List.length Nat.ltb Nat.leb firstn]. cbv zeta.
  rewrite !get_average by reflexivity.
  split; intros P; unfold FinancialExtraction.average at 1; cbn [map];
    rewrite R, P; cbn [filter List.length Nat.ltb Nat.leb fold_left];
    rewrite get_set_same; eexists; (split; [reflexivity|]); cbn; field.
Qed.

Lemma null_counts_in_average_undefined_does_not_witness :
  exists v,
    FinancialExtraction.get "average_revenue_3y"
      (trendsOf (fun _ _ => 1)
         [Sample.year 1672444800000 JS.Null (JS.Value 50);
          Sample.year 1703980800000 (JS.Value 121) (JS.Value 100)])
    = Some (FinancialExtraction.Num (JS.Finite v)) /\ v == 121 / 2.
Proof.
  destruct (@null_counts_in_average_undefined_does_not (fun _ _ => 1)
              [Sample.year 1672444800000 JS.Null (JS.Value 50);
               Sample.year 1703980800000 (JS.Value 121) (JS.Value 100)]
              (Sample.year 1703980800000 (JS.Value 121) (JS.Value 100))
              (Sample.year 1672444800000 JS.Null (JS.Value 50)) 121
              eq_refl eq_refl) as [F _].
  apply F. reflexivity.
Defined.

(* ------------------------------------------------------------------ *)
(** ** Storing the score *)

Section ScoreStore.

Local Open Scope Q_scope.

Lemma factors_eq (now : Z) (geocode : string -> option Q) (c : Company) :
  factors (calculateInvestmentScore now geocode c)
  = [ {| factor := "Company Age (years)"; value := fst (ageFactor now c);
         weight := snd (ageFactor now c) |};
      {| factor := sizeLabel (sizeType (sizeFactor c)); value := sizeValue (sizeFactor c);
         weight := sizeScore (sizeFactor c) |};
      microsoftEntry (calculateInvestmentScore now geocode c);
      locationEntry (calculateInvestmentScore now geocode c) ].
Proof.
  unfold calculateInvestmentScore.
  destruct (ageFactor now c) as [y a]. destruct (microsoftFactor c) as [m ms].
  reflexivity.
Qed.

(** No size label names the location. *)
Lemma sizeLabel_plain (t : string) :
  JS.includes (sizeLabel t) "Location" || JS.includes (sizeLabel t) "distance" = false.
Proof.
  unfold sizeLabel.
  destruct (String.eqb t "employees"); [reflexivity|].
  destruct (String.eqb t "revenue"); [reflexivity|].
  destruct (String.eqb t "ebitda"); reflexivity.
Qed.

Lemma distance_to_store (now : Z) (geocode : string -> option Q) (c : Company) :
  locationDistanceToStore (calculateInvestmentScore now geocode c)
  = match locationDistance geocode c with
    | Some d => if JS.gt (oneDecimal d) 0 then Some (oneDecimal d) else None
    | None => None
    end.
Proof.
  unfold locationDistanceToStore. rewrite factors_eq.
  cbn [find factor]. change (JS.includes "Company Age (years)" "Location"
                             || JS.includes "Company Age (years)" "distance") with false.
  cbn iota. rewrite sizeLabel_plain, microsoftEntry_eq, locationEntry_eq.
  cbn [factor value].
  change (JS.includes "Microsoft Stack Alignment" "Location"
          || JS.includes "Microsoft Stack Alignment" "distance") with false.
  change (JS.includes "Location (distance from London)" "Location"
          || JS.includes "Location (distance from London)" "distance") with true.
  cbn iota. destruct (locationDistance geocode c) as [d|]; reflexivity.
Qed.

Lemma Qfloor_unique (x : Q) (n : Z) :
  inject_Z n <= x -> x < inject_Z (n + 1) -> Qfloor x = n.
Proof.
  intros L U.
  pose proof (Qfloor_le x) as F1. pose proof (Qlt_floor x) as F2.
  assert (A : (n < Qfloor x + 1)%Z) by (rewrite Zlt_Qlt; lra).
  assert (B : (Qfloor x < n + 1)%Z) by (rewrite Zlt_Qlt; lra).
  lia.
Qed.

(** A distance at one decimal is its own rounding. *)
Lemma oneDecimal_fixed (d : Q) : oneDecimal (oneDecimal d) = oneDecimal d.
Proof.
  unfold oneDecimal, JS.Math_round.
  generalize (Qfloor (d * 10 + (1 # 2))). intros n.
  rewrite (Qfloor_unique (n := n)); [reflexivity| |].
  - qdiv. field_simplify. lra.
  - rewrite inject_Z_plus. change (inject_Z 1) with 1. qdiv. field_simplify. lra.
Qed.

End ScoreStore.

(** X25.  The distance kept with the score is the one the location
    factor reports: the distance rounded to one decimal, and nothing when
    there is no distance or when it rounds to zero. *)
Theorem stored_distance_is_rounded_distance (now : Z) (geocode : string -> option Q)
    (c : Company) :
  investment_score (computeAndStoreScore now geocode c)
  = Some {| location_distance_km :=
              match locationDistance geocode c with
              | Some d => if JS.gt (oneDecimal d) 0 then Some (oneDecimal d) else None
              | None => None
              end |}.
Proof.
  unfold computeAndStoreScore, withInvestmentScore, investmentScoreBlock.
  cbn [investment_score block_location_distance_km].
  rewrite distance_to_store. reflexivity.
Qed.

(** X26.  Once a distance is on file, scoring and storing again keeps it
    as it is, whatever the clock and the geocoder. *)
Theorem rescoring_keeps_stored_distance (now now' : Z) (geocode geocode' : string -> option Q)
    (c : Company) (d : Q) :
  investment_score (computeAndStoreScore now geocode c)
  = Some {| location_distance_km := Some d |} ->
  investment_score (computeAndStoreScore now' geocode' (computeAndStoreScore now geocode c))
  = Some {| location_distance_km := Some d |}.
Proof.
  intros H.
  unfold computeAndStoreScore at 1. unfold withInvestmentScore, investmentScoreBlock.
  cbn [investment_score block_location_distance_km].
  rewrite distance_to_store.
  rewrite (cached_distance_read _ geocode' H eq_refl).
  revert H.
  unfold computeAndStoreScore, withInvestmentScore, investmentScoreBlock.
  cbn [investment_score block_location_distance_km].
  rewrite distance_to_store.
  destruct (locationDistance geocode c) as [d0|]; [|discriminate].
  destruct (JS.gt (oneDecimal d0) 0) eqn:G; [|discriminate].
  intros E. injection E as E. subst d.
  rewrite oneDecimal_fixed, G. reflexivity.
Qed.

Lemma rescoring_keeps_stored_distance_witness :
  investment_score
    (computeAndStoreScore 1798761600000 Sample.noGeocode
       (computeAndStoreScore Sample.now2026 Sample2.nearGeocode Sample2.uncached))
  = Some {| location_distance_km := Some (inject_Z 250 / 10) |}.
Proof.
  apply (@rescoring_keeps_stored_distance Sample.now2026 1798761600000 Sample2.nearGeocode
           Sample.noGeocode Sample2.uncached (inject_Z 250 / 10)).
  vm_compute. reflexivity.
Defined.

(* ------------------------------------------------------------------ *)
(** ** Reading the CSV export *)

Section CsvFacts.

Import CSV.

Local Open Scope string_scope.

Lemma parseLoop_nonempty (chars : list ascii) (fields : list string) (currentField : string)
    (inQuotes : bool) :
  parseLoop chars fields currentField inQuotes <> [].
Proof.
  revert fields currentField inQuotes.
  induction chars as [|ch chars IH]; intros fields cur q; cbn [parseLoop].
  - unfold JS.push. destruct fields; discriminate.
  - destruct (Ascii.eqb ch dquote); [apply IH|].
    destruct (Ascii.eqb ch "," && negb q); apply IH.
Qed.

Lemma parseLoop_trimmed (chars : list ascii) (fields : list string) (currentField : string)
    (inQuotes : bool) :
  Forall (fun f => JS.trim f = f) fields ->
  Forall (fun f => JS.trim f = f) (parseLoop chars fields currentField inQuotes).
Proof.
  revert fields currentField inQuotes.
  induction chars as [|ch chars IH]; intros fields cur q F; cbn [parseLoop].
  - unfold JS.push. apply Forall_app. split; [exact F|].
    constructor; [apply trim_idempotent|constructor].
  - destruct (Ascii.eqb ch dquote); [now apply IH|].
    destruct (Ascii.eqb ch "," && negb q); apply IH; [|exact F].
    unfold JS.push. apply Forall_app. split; [exact F|].
    constructor; [apply trim_idempotent|constructor].
Qed.

(** Outside quotes a run of plain characters joins the current field. *)
Lemma parseLoop_plain (l rest : list ascii) (fields : list string) (currentField : string) :
  forallb plainChar l = true ->
  parseLoop (l ++ rest) fields currentField false
  = parseLoop rest fields (currentField ++ string_of_list_ascii l) false.
Proof.
  revert currentField. induction l as [|ch l IH]; intros cur P; cbn [app string_of_list_ascii].
  - now rewrite append_nil_r.
  - cbn [forallb] in P. apply andb_true_iff in P. destruct P as [Pc P].
    unfold plainChar in Pc. apply andb_true_iff in Pc. destruct Pc as [Pc Pq].
    apply negb_true_iff in Pc, Pq.
    cbn [parseLoop]. rewrite Pq, Pc. cbn [andb].
    rewrite (IH _ P), append_assoc. reflexivity.
Qed.

(** Inside quotes every character but the quote joins the current field. *)
Lemma parseLoop_quoted (l rest : list ascii) (fields : list string) (currentField : string) :
  forallb (fun ch => negb (Ascii.eqb ch dquote)) l = true ->
  parseLoop (l ++ rest) fields currentField true
  = parseLoop rest fields (currentField ++ string_of_list_ascii l) true.
Proof.
  revert currentField. induction l as [|ch l IH]; intros cur P; cbn [app string_of_list_ascii].
  - now rewrite append_nil_r.
  - cbn [forallb] in P. apply andb_true_iff in P. destruct P as [Pq P].
    apply negb_true_iff in Pq.
    cbn [parseLoop]. rewrite Pq. cbn [negb]. rewrite andb_false_r.
    rewrite (IH _ P), append_assoc. reflexivity.
Qed.

Lemma parseLoop_joined (fs : list string) (f : string) (fields : list string) :
  Forall (fun f => plainField f = true /\ JS.trim f = f) (f :: fs) ->
  parseLoop (list_ascii_of_string (JS.join (f :: fs) ",")) fields "" false
  = (fields ++ f :: fs)%list.
Proof.
  revert f fields. induction fs as [|g fs IH]; intros f fields F;
    inversion F as [|? ? [P T] F']; subst.
  - cbn [JS.join String.concat].
    rewrite <- (app_nil_r (list_ascii_of_string f)).
    rewrite (parseLoop_plain _ _ _ _ P). cbn [parseLoop append].
    rewrite string_of_list_ascii_of_string, T. reflexivity.
  - unfold JS.join. cbn [String.concat]. fold (JS.join (g :: fs) ",").
    rewrite !list_ascii_app. rewrite (parseLoop_plain _ _ _ _ P).
    cbn [list_ascii_of_string app parseLoop append]. cbn [Ascii.eqb Bool.eqb andb negb].
    change (Ascii.eqb "," dquote) with false. cbn iota.
    rewrite string_of_list_ascii_of_string, T.
    rewrite (IH g _ F'). unfold JS.push. rewrite <- app_assoc. reflexivity.
Qed.

End CsvFacts.

(** X27.  A parsed line always has at least one field, and every field is
    trimmed. *)
Theorem csv_fields_are_trimmed (line : string) :
  CSV.parseCSVLine line <> []
  /\ Forall (fun f => JS.trim f = f) (CSV.parseCSVLine line).
Proof.
  split; [apply parseLoop_nonempty|apply parseLoop_trimmed; constructor].
Qed.

(** X28.  Round trip: fields without comma and quote, already trimmed,
    joined by commas, parse back to the same fields. *)
Theorem csv_round_trip (f : string) (fs : list string) :
  Forall (fun f => plainField f = true /\ JS.trim f = f) (f :: fs) ->
  CSV.parseCSVLine (JS.join (f :: fs) ",") = f :: fs.
Proof. intros F. unfold CSV.parseCSVLine. now rewrite parseLoop_joined. Qed.

Lemma csv_round_trip_witness :
  CSV.parseCSVLine (JS.join ["01234567"; "Acme Ltd"; ""; "acme.example"]%string ",")
  = ["01234567"; "Acme Ltd"; ""; "acme.example"]%string.
Proof.
  apply (@csv_round_trip "01234567"%string ["Acme Ltd"; ""; "acme.example"]%string).
  repeat constructor.
Defined.

(** X29.  A quoted field keeps its commas: a line that is one quoted text
    without inner quote parses to that text alone, trimmed. *)
Theorem csv_quoted_field_keeps_commas (f : string) :
  forallb (fun ch => negb (Ascii.eqb ch CSV.dquote)) (list_ascii_of_string f) = true ->
  CSV.parseCSVLine (String CSV.dquote (f ++ String CSV.dquote EmptyString)) = [JS.trim f].
Proof.
  intros P. unfold CSV.parseCSVLine.
  cbn [list_ascii_of_string CSV.parseLoop]. rewrite Ascii.eqb_refl. cbn [negb].
  rewrite list_ascii_app, (parseLoop_quoted _ _ _ _ P).
  cbn [list_ascii_of_string CSV.parseLoop]. rewrite Ascii.eqb_refl. cbn [negb append].
  rewrite string_of_list_ascii_of_string. reflexivity.
Qed.

Lemma csv_quoted_field_keeps_commas_witness :
  CSV.parseCSVLine (String CSV.dquote ("Smith, Jones Ltd" ++ String CSV.dquote EmptyString))
  = ["Smith, Jones Ltd"]%string.
Proof.
  apply (@csv_quoted_field_keeps_commas "Smith, Jones Ltd"%string). reflexivity.
Defined.

Section WebsiteFacts.

Local Open Scope string_scope.

Lemma prefix_nonempty (k s : string) : k <> "" -> String.prefix k s = true -> s <> "".
Proof. intros N P ->. destruct k; [contradiction|discriminate]. Qed.

Lemma trim_after_scheme (url : string) :
  JS.trim url = url -> url <> "" -> JS.trim ("https://" ++ url) = "https://" ++ url.
Proof.
  intros T N. rewrite trim_trimmed.
  rewrite trimmed_fixed; [apply string_of_list_ascii_of_string|reflexivity|].
  rewrite list_ascii_app, rev_app_distr.
  assert (S : settled JS.is_space (rev (list_ascii_of_string url))).
  { rewrite <- T at 1. rewrite trim_trimmed, list_ascii_of_string_of_list_ascii.
    apply trimmed_settled. }
  destruct (rev (list_ascii_of_string url)) as [|x r] eqn:E; [|exact S].
  exfalso. apply N.
  rewrite <- (string_of_list_ascii_of_string url), <- (rev_involutive (list_ascii_of_string url)), E.
  reflexivity.
Qed.

End WebsiteFacts.

(** X30.  A normalised website starts with a scheme and is already
    normal: normalising it again changes nothing. *)
Theorem normalizeWebsite_idempotent (website : option string) (url : string) :
  CSV.normalizeWebsite website = Some url ->
  JS.startsWith url "http://" || JS.startsWith url "https://" = true
  /\ CSV.normalizeWebsite (Some url) = Some url.
Proof.
  unfold CSV.normalizeWebsite at 1.
  destruct (negb (JS.truthyOS website) || String.eqb (JS.trim (JS.str website)) "")%string
    eqn:G; [discriminate|].
  apply orb_false_iff in G. destruct G as [_ G]. apply String.eqb_neq in G.
  cbv zeta.
  destruct (negb (JS.startsWith (JS.trim (JS.str website)) "http://")
            && negb (JS.startsWith (JS.trim (JS.str website)) "https://")) eqn:S;
    intros E; match type of E with Some ?u = _ => assert (U : url = u) by congruence end;
    subst url; clear E.
  - assert (P : JS.startsWith ("https://" ++ JS.trim (JS.str website)) "https://" = true)
      by apply prefix_append.
    split; [rewrite P; apply orb_true_r|].
    unfold CSV.normalizeWebsite. cbn [JS.truthyOS JS.str].
    rewrite (trim_after_scheme (trim_idempotent _) G). rewrite P.
    cbn [negb andb]. rewrite andb_false_r. reflexivity.
  - assert (P : JS.startsWith (JS.trim (JS.str website)) "http://"
                || JS.startsWith (JS.trim (JS.str website)) "https://" = true).
    { destruct (JS.startsWith (JS.trim (JS.str website)) "http://"); [reflexivity|].
      destruct (JS.startsWith (JS.trim (JS.str website)) "https://"); [reflexivity|].
      discriminate. }
    split; [exact P|].
    unfold CSV.normalizeWebsite. cbn [JS.truthyOS JS.str]. rewrite trim_idempotent.
    unfold JS.truthyS. apply String.eqb_neq in G. rewrite G. cbn [negb orb]. cbv zeta.
    rewrite S. reflexivity.
Qed.

Lemma normalizeWebsite_idempotent_witness :
  CSV.normalizeWebsite (Some "https://acme.example"%string)
  = Some "https://acme.example"%string.
Proof.
  destruct (@normalizeWebsite_idempotent (Some "  acme.example "%string)
              "https://acme.example"%string)
    as [_ F]; [reflexivity|exact F].
Defined.
